(** * SessionTimeEditor: conflict-checked editing of study-session start times

    A shallow embedding of [src/utils/session-time-editor.ts] (class
    [SessionTimeEditor]) together with the data declarations of [types.ts]
    it uses, and the properties of the conflict checker, the suggestion
    generator, the commitment resolver and the edit log.

    Conventions of the embedding.
    - A JavaScript number is an exact rational or [NaN] ([JS.number]):
      there is no rounding, no infinity and no negative zero.  Hours of the
      day, week days and session numbers, which the program only ever uses
      as integers, are [Z].
    - A JavaScript string is a [string]; template literals are
      concatenations.
    - Optional fields ([f?: T]) are [option T]; [undefined] is [None].
    - The object [modifiedOccurrences], used as a dictionary from dates to
      overrides, is a [gmap string _].
    - The class instance is a record holding the constructor arguments, the
      private edit log and the content of the [localStorage] slot
      ['timepilot-session-time-edits']; a method that mutates the instance
      returns the new instance next to its result.
    - What the JavaScript runtime supplies ([Date.prototype.getDay],
      [JSON.parse], [JSON.stringify], whether [localStorage.setItem] accepts
      a payload, the clock) is a variable of the section or an argument. *)

From Stdlib Require Import ZArith QArith Qround String Ascii List.
From Stdlib Require Import DecimalString DecimalZ DecimalPos Lia Lqa Bool.
From stdpp Require Import base option strings gmap list.
From Equations Require Import Equations.
Import ListNotations.

Local Open Scope string_scope.
Local Open Scope list_scope.
Local Open Scope Z_scope.

(** ** JavaScript values used by the program *)

Module JS.

(** Numbers: exact rationals and [NaN]. *)
Inductive number : Type :=
| NaN : number
| Num : Q -> number.

Definition ofZ (z : Z) : number := Num (inject_Z z).

Definition add (a b : number) : number :=
  match a, b with
  | Num p, Num q => Num (p + q)
  | _, _ => NaN
  end.

Definition sub (a b : number) : number :=
  match a, b with
  | Num p, Num q => Num (p - q)
  | _, _ => NaN
  end.

Definition mul (a b : number) : number :=
  match a, b with
  | Num p, Num q => Num (p * q)
  | _, _ => NaN
  end.

(** [a / b]; a zero divisor (an infinity or [NaN] in JavaScript) gives
    [NaN] here.  The program only divides by 60. *)
Definition div (a b : number) : number :=
  match a, b with
  | Num p, Num q => if Qeq_bool q 0 then NaN else Num (p / q)
  | _, _ => NaN
  end.

(** Truncation toward zero, as used by the remainder. *)
Definition Qtrunc (q : Q) : Z :=
  if Qle_bool 0 q then Qfloor q else Qceiling q.

(** [a % b]: the remainder has the sign of the dividend. *)
Definition rem (a b : number) : number :=
  match a, b with
  | Num p, Num q =>
      if Qeq_bool q 0 then NaN
      else Num (p - q * inject_Z (Qtrunc (p / q)))
  | _, _ => NaN
  end.

(** [Math.floor]. *)
Definition floor (a : number) : number :=
  match a with
  | Num p => ofZ (Qfloor p)
  | NaN => NaN
  end.

(** Comparisons: every comparison with [NaN] is false. *)
Definition lt (a b : number) : bool :=
  match a, b with
  | Num p, Num q => negb (Qle_bool q p)
  | _, _ => false
  end.

Definition gt (a b : number) : bool := lt b a.

Definition le (a b : number) : bool :=
  match a, b with
  | Num p, Num q => Qle_bool p q
  | _, _ => false
  end.

(** [a === b] on numbers. *)
Definition strict_eq (a b : number) : bool :=
  match a, b with
  | Num p, Num q => Qeq_bool p q
  | _, _ => false
  end.

(** Truthiness of a number: [0] and [NaN] are falsy. *)
Definition truthy (a : number) : bool :=
  match a with
  | Num p => negb (Qeq_bool p 0)
  | NaN => false
  end.

(** Truthiness of a string: only the empty string is falsy. *)
Definition truthy_string (s : string) : bool :=
  match s with
  | EmptyString => false
  | String _ _ => true
  end.

(** [a || b] on optional strings ([undefined] and the empty string are falsy). *)
Definition or_string (a : option string) (b : string) : string :=
  match a with
  | Some s => if truthy_string s then s else b
  | None => b
  end.

(** A call either returns or throws; [try_catch] is [try {..} catch {..}]. *)
Inductive outcome (A : Type) : Type :=
| Returned : A -> outcome A
| Thrown : string -> outcome A.
Arguments Returned {A} _.
Arguments Thrown {A} _.

Definition try_catch {A : Type} (body : outcome A) (handler : string -> A) : A :=
  match body with
  | Returned a => a
  | Thrown e => handler e
  end.

(** *** Strings *)

(** [s.split(sep)] for a one-character separator. *)
Fixpoint split (sep : ascii) (s : string) : list string :=
  match s with
  | EmptyString => [EmptyString]
  | String c rest =>
      if Ascii.eqb c sep then EmptyString :: split sep rest
      else match split sep rest with
           | [] => [String c EmptyString]
           | piece :: pieces => String c piece :: pieces
           end
  end.

Fixpoint repeat_char (n : nat) (c : ascii) : string :=
  match n with
  | O => EmptyString
  | S k => String c (repeat_char k c)
  end.

(** [s.padStart(n, c)] for a one-character filler. *)
Definition padStart (n : nat) (c : ascii) (s : string) : string :=
  repeat_char (n - String.length s)%nat c +:+ s.

(** Decimal rendering of an integer, as [Number.prototype.toString]. *)
Definition Z_toString (z : Z) : string :=
  NilZero.string_of_int (Z.to_int z).

Definition digit_char (d : Z) : ascii :=
  ascii_of_nat (48 + Z.to_nat d).

(** Digits of [r / d] after the decimal point, for [0 <= r < d]. *)
Fixpoint frac_digits (fuel : nat) (r d : Z) : string :=
  match fuel with
  | O => EmptyString
  | S k =>
      if (r =? 0)%Z then EmptyString
      else String (digit_char (r * 10 / d))
                  (frac_digits k ((r * 10) mod d) d)
  end.

(** [n.toString()].  An integer prints as in JavaScript; another rational
    prints its decimal expansion, cut after 20 places. *)
Definition toString (a : number) : string :=
  match a with
  | NaN => "NaN"
  | Num q =>
      let n := Qnum (Qred q) in
      let d := Zpos (Qden (Qred q)) in
      if (d =? 1)%Z then Z_toString n
      else (if (n <? 0)%Z then "-" else EmptyString)
             +:+ Z_toString (Z.abs n / d) +:+ "."
             +:+ frac_digits 20 (Z.abs n mod d) d
  end.

Definition is_space (c : ascii) : bool :=
  let n := nat_of_ascii c in
  (Nat.eqb n 32 || (Nat.leb 9 n && Nat.leb n 13))%bool.

Fixpoint trim_start (s : string) : string :=
  match s with
  | String c rest => if is_space c then trim_start rest else s
  | EmptyString => EmptyString
  end.

(** Drop trailing white space. *)
Fixpoint trim_end (s : string) : string :=
  match s with
  | EmptyString => EmptyString
  | String c rest =>
      match trim_end rest with
      | EmptyString => if is_space c then EmptyString else String c EmptyString
      | kept => String c kept
      end
  end.

Definition trim (s : string) : string := trim_end (trim_start s).

(** Value of a non-empty string of decimal digits. *)
Definition digits_value (s : string) : option Z :=
  match NilZero.uint_of_string s with
  | Some u => Some (Z.of_uint u)
  | None => None
  end.

(** An unsigned decimal literal: [ddd], [ddd.], [ddd.ddd] or [.ddd]. *)
Definition unsigned_literal (s : string) : number :=
  match split "." s with
  | [whole] =>
      match digits_value whole with
      | Some w => ofZ w
      | None => NaN
      end
  | [whole; frac] =>
      match whole, frac with
      | EmptyString, EmptyString => NaN
      | _, _ =>
          match (if truthy_string whole then digits_value whole else Some 0),
                (if truthy_string frac then digits_value frac else Some 0) with
          | Some w, Some f =>
              Num (inject_Z w
                   + inject_Z f / inject_Z (10 ^ Z.of_nat (String.length frac)))
          | _, _ => NaN
          end
      end
  | _ => NaN
  end.

(** [Number(s)]: white space is trimmed, the empty string is [0], a signed
    decimal literal is its value, anything else is [NaN].  Exponents,
    hexadecimal, octal and binary literals and ["Infinity"] are outside
    the modelled fragment. *)
Definition Number (s : string) : number :=
  match trim s with
  | EmptyString => ofZ 0
  | String c rest =>
      if Ascii.eqb c "+" then unsigned_literal rest
      else if Ascii.eqb c "-" then mul (ofZ (-1)) (unsigned_literal rest)
      else unsigned_literal (String c rest)
  end.

(** Predicates on strings used to state facts about rendered numbers. *)
Definition isDigit (c : ascii) : bool :=
  (Nat.leb 48 (nat_of_ascii c) && Nat.leb (nat_of_ascii c) 57)%bool.

Fixpoint digitString (s : string) : bool :=
  match s with
  | EmptyString => true
  | String c rest => (isDigit c && digitString rest)%bool
  end.

Fixpoint noChar (sep : ascii) (s : string) : bool :=
  match s with
  | EmptyString => true
  | String c rest => (negb (Ascii.eqb c sep) && noChar sep rest)%bool
  end.

End JS.

(** ** Time arithmetic (private helpers of the class) *)

(** [timeToMinutes]: [const [hours, minutes] = timeStr.split(':').map(Number);
    return hours * 60 + (minutes || 0)]. *)
Definition timeToMinutes (timeStr : string) : JS.number :=
  match List.map JS.Number (JS.split ":" timeStr) with
  | [] => JS.NaN
  | hours :: rest =>
      JS.add (JS.mul hours (JS.ofZ 60))
             (match rest with
              | minutes :: _ => if JS.truthy minutes then minutes else JS.ofZ 0
              | [] => JS.ofZ 0
              end)
  end.

Definition minutesToTime (minutes : JS.number) : string :=
  let hours := JS.floor (JS.div minutes (JS.ofZ 60)) in
  let mins := JS.rem minutes (JS.ofZ 60) in
  JS.padStart 2 "0" (JS.toString hours) +:+ ":" +:+ JS.padStart 2 "0" (JS.toString mins).

(** ** Data model ([types.ts]); fields the editor never reads are left out *)

Module SessionStatus.
Inductive t : Type :=
| scheduled | in_progress | completed | missed | overdue | rescheduled | skipped.
End SessionStatus.

Module CommitmentType.
Inductive t : Type :=
| class | work | appointment | other | buffer.
End CommitmentType.

Module StudySession.
Record t : Type := mk {
  taskId : string;
  scheduledTime : string;
  startTime : string;
  endTime : string;
  allocatedHours : JS.number;
  sessionNumber : option Z;
  done : option bool;
  status : option SessionStatus.t
}.
End StudySession.

Module StudyPlan.
Record t : Type := mk {
  id : string;
  date : string;
  plannedTasks : list StudySession.t
}.
End StudyPlan.

Module UserSettings.
Record t : Type := mk {
  workDays : list Z;
  studyWindowStartHour : Z;
  studyWindowEndHour : Z
}.
End UserSettings.

(** An entry of [modifiedOccurrences]. *)
Module Modification.
Record t : Type := mk {
  startTime : option string;
  endTime : option string;
  title : option string;
  type : option CommitmentType.t
}.
End Modification.

Module FixedCommitment.
Record t : Type := mk {
  id : string;
  title : string;
  startTime : string;
  endTime : string;
  recurring : bool;
  daysOfWeek : list Z;
  specificDates : option (list string);
  type : CommitmentType.t;
  deletedOccurrences : option (list string);
  modifiedOccurrences : option (gmap string Modification.t)
}.
End FixedCommitment.

Module SessionTimeEdit.
Record t : Type := mk {
  id : string;
  planDate : string;
  taskId : string;
  sessionNumber : Z;
  originalStartTime : string;
  newStartTime : string;
  newEndTime : string;
  editedAt : string;
  isTemporary : option bool
}.
End SessionTimeEdit.

(** Results of the public methods. *)
Module ConflictResult.
Record t : Type := mk {
  hasConflict : bool;
  conflictsWith : option string;
  suggestedTimes : option (list string)
}.
End ConflictResult.

Module EditResult.
Record t : Type := mk {
  success : bool;
  error : option string
}.
End EditResult.

(** The instance: constructor arguments, the private [sessionTimeEdits] and
    the [localStorage] slot the class reads and writes. *)
Record SessionTimeEditor : Type := mkEditor {
  studyPlans : list StudyPlan.t;
  fixedCommitments : list FixedCommitment.t;
  settings : UserSettings.t;
  sessionTimeEdits : list SessionTimeEdit.t;
  localStorage : option string
}.

(** ** Small helpers standing for JavaScript idioms *)

(** [xs.includes(x)] on strings. *)
Definition includes_string (xs : list string) (x : string) : bool :=
  existsb (String.eqb x) xs.

(** [xs.includes(day)] where [day] is a week day or [NaN] ([None]); the
    lists hold integers, so [NaN] is never found. *)
Definition includes_day (xs : list Z) (day : option Z) : bool :=
  match day with
  | Some d => existsb (Z.eqb d) xs
  | None => false
  end.

(** [xs.findIndex(p)]; [None] stands for [-1]. *)
Fixpoint findIndex {A : Type} (p : A -> bool) (xs : list A) : option nat :=
  match xs with
  | [] => None
  | x :: rest =>
      if p x then Some O
      else match findIndex p rest with
           | Some i => Some (S i)
           | None => None
           end
  end.

(** The template [`${taskId}-${sessionNumber}`]. *)
Definition sessionKey (taskId : string) (sessionNumber : option Z) : string :=
  taskId +:+ "-" +:+ match sessionNumber with
                   | Some n => JS.Z_toString n
                   | None => "undefined"
                   end.

(** [done] is truthy. *)
Definition isDone (s : StudySession.t) : bool :=
  match StudySession.done s with
  | Some b => b
  | None => false
  end.

(** [status === 'skipped']. *)
Definition isSkipped (s : StudySession.t) : bool :=
  match StudySession.status s with
  | Some SessionStatus.skipped => true
  | _ => false
  end.

(** [a === b] between an optional and a given session number. *)
Definition sameNumber (a : option Z) (b : Z) : bool :=
  match a with
  | Some n => Z.eqb n b
  | None => false
  end.

(** The calendar week day (0 = Sunday) of an ISO date [YYYY-MM-DD]: what
    [new Date(date).getDay()] returns where local time is UTC.  [None] is
    the [NaN] of an invalid date.  Used to run the editor on examples. *)
Definition getDayUTC (date : string) : option Z :=
  match JS.split "-" date with
  | [ys; ms; ds] =>
      match JS.digits_value ys, JS.digits_value ms, JS.digits_value ds with
      | Some y, Some m, Some d =>
          if ((1 <=? m) && (m <=? 12) && (1 <=? d) && (d <=? 31))%bool then
            let y' := if m <=? 2 then y - 1 else y in
            let era := y' / 400 in
            let yoe := y' - era * 400 in
            let doy := (153 * (if 2 <? m then m - 3 else m + 9) + 2) / 5 + d - 1 in
            let doe := yoe * 365 + yoe / 4 - yoe / 100 + doy in
            Some ((era * 146097 + doe - 719468 + 4) mod 7)
          else None
      | _, _, _ => None
      end
  | _ => None
  end.


(** ** The class [SessionTimeEditor] *)

Section Editor.

(** [new Date(date).getDay()]; [None] is the [NaN] of an invalid date. *)
Variable getDay : string -> option Z.
(** [JSON.parse] on the persisted payload; it throws on malformed text. *)
Variable JSON_parse : string -> JS.outcome (list SessionTimeEdit.t).
Variable JSON_stringify : list SessionTimeEdit.t -> string.
(** [localStorage.setItem] on the editor's slot: it returns, or throws
    (quota exceeded) and stores nothing. *)
Variable setItem : string -> JS.outcome unit.

(** [constructor]: [storage] is what [localStorage] holds under
    ['timepilot-session-time-edits'] when the instance is built. *)
Definition constructor (studyPlans : list StudyPlan.t)
    (fixedCommitments : list FixedCommitment.t) (settings : UserSettings.t)
    (storage : option string) : JS.outcome SessionTimeEditor :=
  let savedEdits := storage in
  let loaded :=
    match savedEdits with
    | Some payload =>
        if JS.truthy_string payload then
          JS.try_catch (JSON_parse payload) (fun e => [])
        else []
    | None => []
    end in
  JS.Returned (mkEditor studyPlans fixedCommitments settings loaded storage).

(** [saveEdits]: a failing [setItem] is caught and only logged. *)
Definition saveEdits (this : SessionTimeEditor) : SessionTimeEditor :=
  let payload := JSON_stringify (sessionTimeEdits this) in
  JS.try_catch
    (match setItem payload with
     | JS.Returned _ =>
         JS.Returned
           (mkEditor (studyPlans this) (fixedCommitments this) (settings this)
                     (sessionTimeEdits this) (Some payload))
     | JS.Thrown e => JS.Thrown e
     end)
    (fun e => this).

(** The predicate shared by [editSessionTime], [removeEdit] ([findIndex])
    and, through the session's own fields, [getEditedSession] ([find]). *)
Definition editMatches (planDate taskId : string) (sessionNumber : Z)
    (edit : SessionTimeEdit.t) : bool :=
  String.eqb (SessionTimeEdit.planDate edit) planDate
  && String.eqb (SessionTimeEdit.taskId edit) taskId
  && Z.eqb (SessionTimeEdit.sessionNumber edit) sessionNumber.

Definition editMatchesSession (session : StudySession.t) (planDate : string)
    (e : SessionTimeEdit.t) : bool :=
  String.eqb (SessionTimeEdit.planDate e) planDate
  && String.eqb (SessionTimeEdit.taskId e) (StudySession.taskId session)
  && match StudySession.sessionNumber session with
     | Some n => Z.eqb (SessionTimeEdit.sessionNumber e) n
     | None => false
     end.

Definition getEditedSession (this : SessionTimeEditor)
    (session : StudySession.t) (planDate : string) : StudySession.t :=
  match List.find (editMatchesSession session planDate) (sessionTimeEdits this) with
  | Some edit =>
      StudySession.mk
        (StudySession.taskId session)
        (StudySession.scheduledTime session)
        (SessionTimeEdit.newStartTime edit)
        (SessionTimeEdit.newEndTime edit)
        (StudySession.allocatedHours session)
        (StudySession.sessionNumber session)
        (StudySession.done session)
        (StudySession.status session)
  | None => session
  end.

Definition applyEditsToPlans (this : SessionTimeEditor)
    (plans : list StudyPlan.t) : list StudyPlan.t :=
  List.map (fun plan =>
              StudyPlan.mk (StudyPlan.id plan) (StudyPlan.date plan)
                (List.map (fun session =>
                             getEditedSession this session (StudyPlan.date plan))
                          (StudyPlan.plannedTasks plan)))
           plans.

Definition commitmentApplies (date : string) (dayOfWeek : option Z)
    (commitment : FixedCommitment.t) : bool :=
  if match FixedCommitment.deletedOccurrences commitment with
     | Some deleted => includes_string deleted date
     | None => false
     end
  then false
  else if FixedCommitment.recurring commitment
       then includes_day (FixedCommitment.daysOfWeek commitment) dayOfWeek
       else match FixedCommitment.specificDates commitment with
            | Some dates => includes_string dates date
            | None => false
            end.

Definition applyModification (date : string)
    (commitment : FixedCommitment.t) : FixedCommitment.t :=
  match FixedCommitment.modifiedOccurrences commitment ≫= (fun m => m !! date) with
  | Some modification =>
      FixedCommitment.mk
        (FixedCommitment.id commitment)
        (JS.or_string (Modification.title modification)
                      (FixedCommitment.title commitment))
        (JS.or_string (Modification.startTime modification)
                      (FixedCommitment.startTime commitment))
        (JS.or_string (Modification.endTime modification)
                      (FixedCommitment.endTime commitment))
        (FixedCommitment.recurring commitment)
        (FixedCommitment.daysOfWeek commitment)
        (FixedCommitment.specificDates commitment)
        (FixedCommitment.type commitment)
        (FixedCommitment.deletedOccurrences commitment)
        (FixedCommitment.modifiedOccurrences commitment)
  | None => commitment
  end.

(** [getCommitmentsForDate]: [filter] then [map], nothing else. *)
Definition getCommitmentsForDate (this : SessionTimeEditor)
    (date : string) : list FixedCommitment.t :=
  let dayOfWeek := getDay date in
  List.map (applyModification date)
           (List.filter (commitmentApplies date dayOfWeek)
                        (fixedCommitments this)).

Definition findSession (this : SessionTimeEditor) (planDate taskId : string)
    (sessionNumber : Z) : option StudySession.t :=
  match List.find (fun p => String.eqb (StudyPlan.date p) planDate)
                  (studyPlans this) with
  | None => None
  | Some plan =>
      List.find (fun s =>
                   String.eqb (StudySession.taskId s) taskId
                   && sameNumber (StudySession.sessionNumber s) sessionNumber)
                (StudyPlan.plannedTasks plan)
  end.

Definition windowReason (settings : UserSettings.t) : string :=
  "Outside study window ("
    +:+ JS.Z_toString (UserSettings.studyWindowStartHour settings) +:+ ":00 - "
    +:+ JS.Z_toString (UserSettings.studyWindowEndHour settings) +:+ ":00)".

Definition sessionReason (editedSession : StudySession.t) : string :=
  "Overlaps with " +:+ StudySession.taskId editedSession +:+ " session ("
    +:+ StudySession.startTime editedSession +:+ " - "
    +:+ StudySession.endTime editedSession +:+ ")".

Definition commitmentReason (commitment : FixedCommitment.t) : string :=
  "Overlaps with " +:+ FixedCommitment.title commitment +:+ " ("
    +:+ FixedCommitment.startTime commitment +:+ " - "
    +:+ FixedCommitment.endTime commitment +:+ ")".

(** The two [for] loops of [checkTimeConflict].  [Some r]: the loop
    returned [r]; [None]: it ran to its end.  [suggest] is the value of
    [includeSuggestions ? this.generateSuggestedTimes(..) : []]. *)
Fixpoint sessionLoop (this : SessionTimeEditor) (planDate : string)
    (startMinutes newEndMinutes : JS.number) (excludeSessionId : string)
    (suggest : list string) (sessions : list StudySession.t)
    : option ConflictResult.t :=
  match sessions with
  | [] => None
  | session :: rest =>
      let sessionId :=
        sessionKey (StudySession.taskId session)
                   (StudySession.sessionNumber session) in
      if String.eqb sessionId excludeSessionId || isSkipped session || isDone session
      then sessionLoop this planDate startMinutes newEndMinutes
                       excludeSessionId suggest rest
      else
        let editedSession := getEditedSession this session planDate in
        let sessionStart := timeToMinutes (StudySession.startTime editedSession) in
        let sessionEnd := timeToMinutes (StudySession.endTime editedSession) in
        if JS.lt startMinutes sessionEnd && JS.gt newEndMinutes sessionStart
        then Some (ConflictResult.mk true
                     (Some (sessionReason editedSession)) (Some suggest))
        else sessionLoop this planDate startMinutes newEndMinutes
                         excludeSessionId suggest rest
  end.

Fixpoint commitmentLoop (startMinutes newEndMinutes : JS.number)
    (suggest : list string) (dayCommitments : list FixedCommitment.t)
    : option ConflictResult.t :=
  match dayCommitments with
  | [] => None
  | commitment :: rest =>
      let commitmentStart := timeToMinutes (FixedCommitment.startTime commitment) in
      let commitmentEnd := timeToMinutes (FixedCommitment.endTime commitment) in
      if JS.lt startMinutes commitmentEnd && JS.gt newEndMinutes commitmentStart
      then Some (ConflictResult.mk true
                   (Some (commitmentReason commitment)) (Some suggest))
      else commitmentLoop startMinutes newEndMinutes suggest rest
  end.

(** [checkTimeConflict], with the method it calls back,
    [generateSuggestedTimes], as the argument [generate]. *)
Definition checkTimeConflictWith
    (generate : string -> JS.number -> string -> list string)
    (this : SessionTimeEditor) (planDate newStartTime : string)
    (sessionDuration : JS.number) (excludeSessionId : string)
    (includeSuggestions : bool) : ConflictResult.t :=
  let newEndMinutes :=
    JS.add (timeToMinutes newStartTime) (JS.mul sessionDuration (JS.ofZ 60)) in
  let studyStart :=
    JS.ofZ (UserSettings.studyWindowStartHour (settings this) * 60) in
  let studyEnd :=
    JS.ofZ (UserSettings.studyWindowEndHour (settings this) * 60) in
  let startMinutes := timeToMinutes newStartTime in
  let suggest :=
    if includeSuggestions
    then generate planDate sessionDuration excludeSessionId
    else [] in
  if JS.lt startMinutes studyStart || JS.gt newEndMinutes studyEnd then
    ConflictResult.mk true (Some (windowReason (settings this))) (Some suggest)
  else
    let dayOfWeek := getDay planDate in
    if negb (includes_day (UserSettings.workDays (settings this)) dayOfWeek) then
      ConflictResult.mk true (Some "Not a work day") (Some [])
    else
      match
        match List.find (fun p => String.eqb (StudyPlan.date p) planDate)
                        (studyPlans this) with
        | Some plan =>
            sessionLoop this planDate startMinutes newEndMinutes
                        excludeSessionId suggest (StudyPlan.plannedTasks plan)
        | None => None
        end
      with
      | Some result => result
      | None =>
          let dayCommitments := getCommitmentsForDate this planDate in
          match commitmentLoop startMinutes newEndMinutes suggest dayCommitments with
          | Some result => result
          | None => ConflictResult.mk false None None
          end
      end.

(** Iterations left in the [for] loop of [generateSuggestedTimes]: it
    runs while [minutes <= limit] and adds 30 each time. *)
Definition loopMeasure (limit : JS.number) (minutes : Z) : nat :=
  match limit with
  | JS.Num q => Z.to_nat (Qfloor q - minutes + 1)
  | JS.NaN => O
  end.

Lemma loopMeasure_decreases (limit : JS.number) (minutes : Z) :
  JS.le (JS.ofZ minutes) limit = true ->
  (loopMeasure limit (minutes + 30) < loopMeasure limit minutes)%nat.
Proof.
  destruct limit as [|q]; simpl; [discriminate|].
  intros Hle. apply Qle_bool_iff in Hle.
  apply Qfloor_resp_le in Hle. rewrite Qfloor_Z in Hle. lia.
Qed.

(** Case analysis on a value that keeps the equation with it. *)
Definition inspect {A : Type} (x : A) : {y : A | x = y} := exist _ x eq_refl.

(** The body of the [for] loop, from the current value of [minutes] and
    of [suggestions]; [limit] is [studyEnd - sessionMinutes].  The nested
    call passes [includeSuggestions = false], so it never calls back. *)
Equations? suggestionLoop (this : SessionTimeEditor) (planDate : string)
    (sessionDuration : JS.number) (excludeSessionId : string)
    (limit : JS.number) (minutes : Z) (suggestions : list string)
    : list string by wf (loopMeasure limit minutes) lt :=
  suggestionLoop this planDate sessionDuration excludeSessionId limit minutes
                 suggestions with inspect (JS.le (JS.ofZ minutes) limit) := {
    | exist _ false Hstop => suggestions
    | exist _ true Hle =>
        let startTime := minutesToTime (JS.ofZ minutes) in
        let conflictCheck :=
          checkTimeConflictWith (fun _ _ _ => []) this planDate startTime
                                sessionDuration excludeSessionId false in
        if negb (ConflictResult.hasConflict conflictCheck) then
          let suggestions' := suggestions ++ [startTime] in
          if (3 <=? length suggestions')%nat then suggestions'
          else suggestionLoop this planDate sessionDuration excludeSessionId
                              limit (minutes + 30) suggestions'
        else suggestionLoop this planDate sessionDuration excludeSessionId
                            limit (minutes + 30) suggestions }.
Proof. all: apply loopMeasure_decreases; assumption. Qed.

Definition generateSuggestedTimes (this : SessionTimeEditor)
    (planDate : string) (sessionDuration : JS.number)
    (excludeSessionId : string) : list string :=
  let studyStart := UserSettings.studyWindowStartHour (settings this) * 60 in
  let studyEnd := JS.ofZ (UserSettings.studyWindowEndHour (settings this) * 60) in
  let sessionMinutes := JS.mul sessionDuration (JS.ofZ 60) in
  suggestionLoop this planDate sessionDuration excludeSessionId
                 (JS.sub studyEnd sessionMinutes) studyStart [].

(** The public [checkTimeConflict]. *)
Definition checkTimeConflict (this : SessionTimeEditor)
    (planDate newStartTime : string) (sessionDuration : JS.number)
    (excludeSessionId : string) (includeSuggestions : bool)
    : ConflictResult.t :=
  checkTimeConflictWith (generateSuggestedTimes this) this planDate
    newStartTime sessionDuration excludeSessionId includeSuggestions.

(** [editSessionTime]; [now] is [Date.now()] and [nowISO] is
    [new Date().toISOString()] at the call. *)
Definition editSessionTime (this : SessionTimeEditor)
    (planDate taskId : string) (sessionNumber : Z) (newStartTime : string)
    (sessionDuration : JS.number) (now : Z) (nowISO : string)
    : EditResult.t * SessionTimeEditor :=
  let sessionId := sessionKey taskId (Some sessionNumber) in
  let conflictCheck :=
    checkTimeConflict this planDate newStartTime sessionDuration sessionId true in
  if ConflictResult.hasConflict conflictCheck then
    (EditResult.mk false (ConflictResult.conflictsWith conflictCheck), this)
  else
    let newEndMinutes :=
      JS.add (timeToMinutes newStartTime) (JS.mul sessionDuration (JS.ofZ 60)) in
    let newEndTime := minutesToTime newEndMinutes in
    let existingEditIndex :=
      findIndex (editMatches planDate taskId sessionNumber)
                (sessionTimeEdits this) in
    match findSession this planDate taskId sessionNumber with
    | None => (EditResult.mk false (Some "Session not found"), this)
    | Some session =>
        let edit :=
          SessionTimeEdit.mk
            (match existingEditIndex ≫= (fun i => sessionTimeEdits this !! i) with
             | Some existing => SessionTimeEdit.id existing
             | None => "edit-" +:+ JS.Z_toString now
             end)
            planDate taskId sessionNumber
            (StudySession.startTime session)
            newStartTime newEndTime nowISO (Some true) in
        let edits :=
          match existingEditIndex with
          | Some i => <[i := edit]> (sessionTimeEdits this)
          | None => sessionTimeEdits this ++ [edit]
          end in
        (EditResult.mk true None,
         saveEdits (mkEditor (studyPlans this) (fixedCommitments this)
                             (settings this) edits (localStorage this)))
    end.

(** [removeEdit]: [splice(index, 1)] on the first matching edit. *)
Definition removeEdit (this : SessionTimeEditor) (planDate taskId : string)
    (sessionNumber : Z) : bool * SessionTimeEditor :=
  match findIndex (editMatches planDate taskId sessionNumber)
                  (sessionTimeEdits this) with
  | Some index =>
      (true,
       saveEdits (mkEditor (studyPlans this) (fixedCommitments this)
                           (settings this)
                           (delete index (sessionTimeEdits this))
                           (localStorage this)))
  | None => (false, this)
  end.

Definition clearTemporaryEdits (this : SessionTimeEditor) : SessionTimeEditor :=
  saveEdits
    (mkEditor (studyPlans this) (fixedCommitments this) (settings this)
              (List.filter (fun edit =>
                              negb (match SessionTimeEdit.isTemporary edit with
                                    | Some b => b
                                    | None => false
                                    end))
                           (sessionTimeEdits this))
              (localStorage this)).

Definition getAllEdits (this : SessionTimeEditor) : list SessionTimeEdit.t :=
  sessionTimeEdits this.

End Editor.

(** ** The components as the specification words them

    Each definition below follows the text of the specification, not the
    code; the theorems compare them with the methods above. *)

(** The four kinds of conflict of §4.3, with the colliding item. *)
Inductive ConflictKind : Type :=
| StudyWindow : ConflictKind
| WorkDay : ConflictKind
| SessionOverlap : StudySession.t -> ConflictKind
| CommitmentOverlap : FixedCommitment.t -> ConflictKind.

Section Specification.

Variable getDay : string -> option Z.

Definition spec_candidateStart (candidateStart : string) : JS.number :=
  timeToMinutes candidateStart.

Definition spec_candidateEnd (candidateStart : string)
    (durationHours : JS.number) : JS.number :=
  JS.add (timeToMinutes candidateStart) (JS.mul durationHours (JS.ofZ 60)).

(** [candidateStart < otherEnd AND candidateEnd > otherStart]. *)
Definition spec_halfOpenOverlap (candidateStart candidateEnd : JS.number)
    (otherStart otherEnd : string) : bool :=
  JS.lt candidateStart (timeToMinutes otherEnd)
  && JS.gt candidateEnd (timeToMinutes otherStart).

(** 1. Study window. *)
Definition spec_studyWindowCheck (this : SessionTimeEditor)
    (candidateStart : string) (durationHours : JS.number) : option ConflictKind :=
  if JS.lt (spec_candidateStart candidateStart)
           (JS.ofZ (UserSettings.studyWindowStartHour (settings this) * 60))
     || JS.gt (spec_candidateEnd candidateStart durationHours)
              (JS.ofZ (UserSettings.studyWindowEndHour (settings this) * 60))
  then Some StudyWindow else None.

(** 2. Work day. *)
Definition spec_workDayCheck (this : SessionTimeEditor) (date : string)
    : option ConflictKind :=
  if includes_day (UserSettings.workDays (settings this)) (getDay date)
  then None else Some WorkDay.

(** The sessions of that date's plan the overlap check looks at: not the
    excluded one, not a skipped one, not one marked done. *)
Definition spec_otherSessions (this : SessionTimeEditor) (date : string)
    (excludeSessionKey : string) : list StudySession.t :=
  match List.find (fun p => String.eqb (StudyPlan.date p) date) (studyPlans this) with
  | Some plan =>
      List.filter
        (fun s =>
           negb (String.eqb (sessionKey (StudySession.taskId s)
                                        (StudySession.sessionNumber s))
                            excludeSessionKey)
           && negb (isSkipped s) && negb (isDone s))
        (StudyPlan.plannedTasks plan)
  | None => []
  end.

(** 3. Session overlap: edits applied first, first overlapping session. *)
Definition spec_sessionOverlapCheck (this : SessionTimeEditor)
    (date candidateStart : string) (durationHours : JS.number)
    (excludeSessionKey : string) : option ConflictKind :=
  option_map SessionOverlap
    (List.find
       (fun other =>
          spec_halfOpenOverlap (spec_candidateStart candidateStart)
            (spec_candidateEnd candidateStart durationHours)
            (StudySession.startTime other) (StudySession.endTime other))
       (List.map (fun s => getEditedSession this s date)
                 (spec_otherSessions this date excludeSessionKey))).

(** 4. Commitment overlap: first colliding effective commitment. *)
Definition spec_commitmentOverlapCheck (this : SessionTimeEditor)
    (date candidateStart : string) (durationHours : JS.number)
    : option ConflictKind :=
  option_map CommitmentOverlap
    (List.find
       (fun c =>
          spec_halfOpenOverlap (spec_candidateStart candidateStart)
            (spec_candidateEnd candidateStart durationHours)
            (FixedCommitment.startTime c) (FixedCommitment.endTime c))
       (getCommitmentsForDate getDay this date)).

(** "First failing check wins and is reported". *)
Fixpoint spec_firstFailing (checks : list (option ConflictKind))
    : option ConflictKind :=
  match checks with
  | [] => None
  | Some kind :: _ => Some kind
  | None :: later => spec_firstFailing later
  end.

Definition spec_checkConflict (this : SessionTimeEditor)
    (date candidateStart : string) (durationHours : JS.number)
    (excludeSessionKey : string) : option ConflictKind :=
  spec_firstFailing
    [ spec_studyWindowCheck this candidateStart durationHours;
      spec_workDayCheck this date;
      spec_sessionOverlapCheck this date candidateStart durationHours
                               excludeSessionKey;
      spec_commitmentOverlapCheck this date candidateStart durationHours ].

(** The reason reported for each kind. *)
Definition spec_reason (this : SessionTimeEditor) (kind : ConflictKind) : string :=
  match kind with
  | StudyWindow => windowReason (settings this)
  | WorkDay => "Not a work day"
  | SessionOverlap other => sessionReason other
  | CommitmentOverlap c => commitmentReason c
  end.

(** The suggestion list attached to a conflict of each kind. *)
Definition suggestionsFor (generate : string -> JS.number -> string -> list string)
    (planDate : string) (sessionDuration : JS.number) (excludeSessionId : string)
    (includeSuggestions : bool) (kind : ConflictKind) : list string :=
  match kind with
  | WorkDay => []
  | _ => if includeSuggestions
         then generate planDate sessionDuration excludeSessionId
         else []
  end.

(** §4.4: the start minutes scanned, [studyStart], [studyStart + 30], ...
    up to [limit] included. *)
Definition spec_scanMinutes (studyStart : Z) (limit : JS.number) : list Z :=
  match limit with
  | JS.Num q =>
      List.map (fun k => studyStart + 30 * Z.of_nat k)
               (seq 0 (Z.to_nat ((Qfloor q - studyStart) / 30 + 1)))
  | JS.NaN => []
  end.

(** §4.4: the first three conflict-free candidates of the scan. *)
Definition spec_suggestTimes (this : SessionTimeEditor) (date : string)
    (durationHours : JS.number) (excludeSessionKey : string) : list string :=
  take 3
    (List.filter
       (fun candidate =>
          negb (ConflictResult.hasConflict
                  (checkTimeConflict getDay this date candidate durationHours
                                     excludeSessionKey false)))
       (List.map (fun m => minutesToTime (JS.ofZ m))
          (spec_scanMinutes
             (UserSettings.studyWindowStartHour (settings this) * 60)
             (JS.sub (JS.ofZ (UserSettings.studyWindowEndHour (settings this) * 60))
                     (JS.mul durationHours (JS.ofZ 60)))))).

(** §4.2, overlay of one field: a field present in the entry replaces the
    original value, a missing one keeps it; the code also keeps the
    original when the field holds the empty string. *)
Definition spec_overridden (entryField : option string)
    (original effective : string) : Prop :=
  match entryField with
  | Some value =>
      if String.eqb value EmptyString then effective = original else effective = value
  | None => effective = original
  end.

(** §4.2: "sort by start time". *)
Fixpoint spec_sortedByStart (cs : list FixedCommitment.t) : bool :=
  match cs with
  | [] => true
  | c :: rest =>
      match rest with
      | [] => true
      | next :: _ =>
          JS.le (timeToMinutes (FixedCommitment.startTime c))
                (timeToMinutes (FixedCommitment.startTime next))
          && spec_sortedByStart rest
      end
  end.

End Specification.

(** *** §4.3, check 3, down to the fields

    The session check once more, written from the sentence of the
    specification with the fields of the data model only: which sessions
    are passed over, which stored edit belongs to a session, and the times
    the overlap test reads.  No method or helper of the class is called. *)

Section SpecificationByFields.

Variable getDay : string -> option Z.

#[global] Instance SessionStatus_eq_dec : EqDecision SessionStatus.t.
Proof. solve_decision. Defined.

(** The key [taskId-sessionNumber] that names a session; a session with no
    number prints as [undefined]. *)
Definition spec_keyOf (s : StudySession.t) : string :=
  StudySession.taskId s +:+ "-"
    +:+ match StudySession.sessionNumber s with
        | Some n => JS.Z_toString n
        | None => "undefined"
        end.

(** "excluding the one identified by [excludeSessionKey], and excluding
    sessions whose status is [skipped] or that are marked done". *)
Definition spec_passedOver (excludeSessionKey : string) (s : StudySession.t)
    : Prop :=
  spec_keyOf s = excludeSessionKey
  \/ StudySession.status s = Some SessionStatus.skipped
  \/ StudySession.done s = Some true.

#[global] Instance spec_passedOver_dec excludeSessionKey s :
  Decision (spec_passedOver excludeSessionKey s).
Proof. unfold spec_passedOver. apply _. Defined.

(** A stored edit belongs to the session of [date] that has its task and
    its number. *)
Definition spec_editIsFor (date : string) (s : StudySession.t)
    (e : SessionTimeEdit.t) : Prop :=
  SessionTimeEdit.planDate e = date
  /\ SessionTimeEdit.taskId e = StudySession.taskId s
  /\ Some (SessionTimeEdit.sessionNumber e) = StudySession.sessionNumber s.

#[global] Instance spec_editIsFor_dec date s e : Decision (spec_editIsFor date s e).
Proof. unfold spec_editIsFor. apply _. Defined.

(** "apply any existing edit to that session first": the session with the
    new start and end of the first stored edit that belongs to it; the
    session itself when the log has none. *)
Definition spec_withStoredEdit (this : SessionTimeEditor) (date : string)
    (s : StudySession.t) : StudySession.t :=
  match List.find (fun e => bool_decide (spec_editIsFor date s e))
                  (sessionTimeEdits this) with
  | Some e =>
      StudySession.mk (StudySession.taskId s) (StudySession.scheduledTime s)
        (SessionTimeEdit.newStartTime e) (SessionTimeEdit.newEndTime e)
        (StudySession.allocatedHours s) (StudySession.sessionNumber s)
        (StudySession.done s) (StudySession.status s)
  | None => s
  end.

(** 3. Session overlap: the first session of the date's plan, in plan
    order, that is not passed over and whose times, after its stored edit,
    overlap the candidate; it is reported with those times. *)
Definition spec_sessionOverlapCheck_byFields (this : SessionTimeEditor)
    (date candidateStart : string) (durationHours : JS.number)
    (excludeSessionKey : string) : option ConflictKind :=
  match List.find (fun p => String.eqb (StudyPlan.date p) date) (studyPlans this) with
  | Some plan =>
      option_map (fun s => SessionOverlap (spec_withStoredEdit this date s))
        (List.find
           (fun s =>
              bool_decide (~ spec_passedOver excludeSessionKey s)
              && spec_halfOpenOverlap (spec_candidateStart candidateStart)
                   (spec_candidateEnd candidateStart durationHours)
                   (StudySession.startTime (spec_withStoredEdit this date s))
                   (StudySession.endTime (spec_withStoredEdit this date s)))
           (StudyPlan.plannedTasks plan))
  | None => None
  end.

(** §4.3 as a whole, with check 3 by fields. *)
Definition spec_checkConflict_byFields (this : SessionTimeEditor)
    (date candidateStart : string) (durationHours : JS.number)
    (excludeSessionKey : string) : option ConflictKind :=
  spec_firstFailing
    [ spec_studyWindowCheck this candidateStart durationHours;
      spec_workDayCheck getDay this date;
      spec_sessionOverlapCheck_byFields this date candidateStart durationHours
                                        excludeSessionKey;
      spec_commitmentOverlapCheck getDay this date candidateStart durationHours ].

End SpecificationByFields.

(** ** Editor states the class itself produces *)

Section EditLog.

Variable getDay : string -> option Z.
Variable JSON_parse : string -> JS.outcome (list SessionTimeEdit.t).
Variable JSON_stringify : list SessionTimeEdit.t -> string.
Variable setItem : string -> JS.outcome unit.

(** The identity of an edit: (plan date, task id, session number). *)
Definition editKey (e : SessionTimeEdit.t) : string * string * Z :=
  (SessionTimeEdit.planDate e, SessionTimeEdit.taskId e,
   SessionTimeEdit.sessionNumber e).

(** The log [editSessionTime] leaves: the edit written over the first
    entry of its key, or pushed when the key has no entry. *)
Definition upsert (planDate taskId : string) (sessionNumber : Z)
    (edit : SessionTimeEdit.t) (edits : list SessionTimeEdit.t)
    : list SessionTimeEdit.t :=
  match findIndex (editMatches planDate taskId sessionNumber) edits with
  | Some i => <[i := edit]> edits
  | None => edits ++ [edit]
  end.

(** §3: edits for one session key collapse to one entry of the log. *)
Definition uniqueKeys (edits : list SessionTimeEdit.t) : Prop :=
  NoDup (List.map editKey edits).

(** An instance is [Reachable] when it was built by [constructor] with an
    empty log (nothing persisted, or a payload that is empty or does not
    parse), or with the log of an earlier reachable instance (the payload
    that instance saved), and then went through any sequence of
    [editSessionTime], [removeEdit] and [clearTemporaryEdits]. *)
Inductive Reachable : SessionTimeEditor -> Prop :=
| reach_empty plans commitments settings storage this :
    constructor JSON_parse plans commitments settings storage = JS.Returned this ->
    sessionTimeEdits this = [] ->
    Reachable this
| reach_reload earlier plans commitments settings payload this :
    Reachable earlier ->
    constructor JSON_parse plans commitments settings (Some payload)
      = JS.Returned this ->
    sessionTimeEdits this = sessionTimeEdits earlier ->
    Reachable this
| reach_edit this planDate taskId sessionNumber newStartTime sessionDuration
             now nowISO :
    Reachable this ->
    Reachable (snd (editSessionTime getDay JSON_stringify setItem this planDate
                      taskId sessionNumber newStartTime sessionDuration
                      now nowISO))
| reach_remove this planDate taskId sessionNumber :
    Reachable this ->
    Reachable (snd (removeEdit JSON_stringify setItem this planDate taskId
                               sessionNumber))
| reach_clear this :
    Reachable this ->
    Reachable (clearTemporaryEdits JSON_stringify setItem this).

End EditLog.

(** ** A runtime and a small plan to run the editor on *)

Module Example.

(** Stand-ins for the runtime: [parse] reads the empty array and rejects
    any other text, [stringify] lists the ids of the edits, [setItem]
    always stores. *)
Definition parse (payload : string) : JS.outcome (list SessionTimeEdit.t) :=
  if String.eqb payload "[]" then JS.Returned []
  else JS.Thrown "SyntaxError: Unexpected token".

Definition stringify (edits : list SessionTimeEdit.t) : string :=
  "[" +:+ String.concat "," (List.map SessionTimeEdit.id edits) +:+ "]".

Definition setItem (payload : string) : JS.outcome unit := JS.Returned tt.

(** Study window 08:00 - 20:00, work days Monday to Friday. *)
Definition settings : UserSettings.t := UserSettings.mk [1; 2; 3; 4; 5] 8 20.

(** Session [T1#1], 09:00 - 10:00, one hour. *)
Definition T1_1 : StudySession.t :=
  StudySession.mk "T1" "09:00" "09:00" "10:00" (JS.ofZ 1) (Some 1) None
                  (Some SessionStatus.scheduled).

(** Session [T2#1], 13:00 - 14:30, an hour and a half. *)
Definition T2_1 : StudySession.t :=
  StudySession.mk "T2" "13:00" "13:00" "14:30" (JS.Num (3 # 2)) (Some 1) None
                  (Some SessionStatus.scheduled).

(** 2024-01-10 is a Wednesday. *)
Definition plan : StudyPlan.t :=
  StudyPlan.mk "plan-2024-01-10" "2024-01-10" [T1_1; T2_1].

Definition gym : FixedCommitment.t :=
  FixedCommitment.mk "c-gym" "Gym" "10:00" "11:00" true [1; 2; 3; 4; 5] None
                     CommitmentType.other None None.

(** The instance [new SessionTimeEditor([plan], [gym], settings)] when
    nothing is persisted. *)
Definition editor : SessionTimeEditor := mkEditor [plan] [gym] settings [] None.

(** A lecture at 14:00 whose occurrence of 2024-01-10 carries an entry
    that only sets [type] to ['work']. *)
Definition retyped : Modification.t :=
  Modification.mk None None None (Some CommitmentType.work).

Definition lecture : FixedCommitment.t :=
  FixedCommitment.mk "c-lecture" "Lecture" "14:00" "15:00" true [3] None
                     CommitmentType.class None
                     (Some {[ "2024-01-10" := retyped ]}).

(** An entry that moves the lecture's occurrence to 16:00 - 17:00. *)
Definition moved : Modification.t :=
  Modification.mk (Some "16:00") (Some "17:00") None None.

Definition seminar : FixedCommitment.t :=
  FixedCommitment.mk "c-seminar" "Seminar" "12:00" "13:00" true [3] None
                     CommitmentType.class None
                     (Some {[ "2024-01-10" := moved ]}).

(** The lecture is given before the gym, which starts earlier. *)
Definition editor_commitments : SessionTimeEditor :=
  mkEditor [plan] [lecture; gym; seminar] settings [] None.

End Example.

(** ** The edit dialog ([components/SessionTimeEditModal.tsx]) *)

Module Modal.

(** [calculateEndTime]: the end time the dialog shows for a start time.
    Unlike [timeToMinutes] it adds [minutes] as it is: a missing minutes
    part is [undefined], and the sum is [NaN]. *)
Definition calculateEndTime (session : StudySession.t) (startTime : string)
    : string :=
  let parts := List.map JS.Number (JS.split ":" startTime) in
  let startMinutes :=
    match parts with
    | hours :: minutes :: _ => JS.add (JS.mul hours (JS.ofZ 60)) minutes
    | _ => JS.NaN
    end in
  let endMinutes :=
    JS.add startMinutes
           (JS.mul (StudySession.allocatedHours session) (JS.ofZ 60)) in
  let endHours := JS.floor (JS.div endMinutes (JS.ofZ 60)) in
  let endMins := JS.rem endMinutes (JS.ofZ 60) in
  JS.padStart 2 "0" (JS.toString endHours) +:+ ":"
    +:+ JS.padStart 2 "0" (JS.toString endMins).

(** [checkConflict]: the check the dialog runs when it opens and on every
    change of the time field. *)
Definition checkConflict (getDay : string -> option Z)
    (sessionTimeEditor : SessionTimeEditor) (planDate : string)
    (session : StudySession.t) (startTime : string) : ConflictResult.t :=
  let sessionId :=
    sessionKey (StudySession.taskId session) (StudySession.sessionNumber session) in
  checkTimeConflict getDay sessionTimeEditor planDate startTime
                    (StudySession.allocatedHours session) sessionId true.

End Modal.

(** ** Vocabulary of the further properties *)

(** The rendering [HH:MM] of an hour and a minute count. *)
Definition clock (h m : Z) : string :=
  JS.padStart 2 "0" (JS.Z_toString h) +:+ ":" +:+ JS.padStart 2 "0" (JS.Z_toString m).

(** [edit.isTemporary] is truthy. *)
Definition isTemporaryEdit (edit : SessionTimeEdit.t) : bool :=
  match SessionTimeEdit.isTemporary edit with
  | Some flag => flag
  | None => false
  end.

(** Two sessions that differ at most in their start and end times. *)
Definition sameButTimes (s s' : StudySession.t) : Prop :=
  StudySession.taskId s' = StudySession.taskId s
  /\ StudySession.scheduledTime s' = StudySession.scheduledTime s
  /\ StudySession.allocatedHours s' = StudySession.allocatedHours s
  /\ StudySession.sessionNumber s' = StudySession.sessionNumber s
  /\ StudySession.done s' = StudySession.done s
  /\ StudySession.status s' = StudySession.status s.

(** ** More of the example *)

Module Scenario.

(** A piano lesson on Mondays, 11:00 - 12:00. *)
Definition piano : FixedCommitment.t :=
  FixedCommitment.mk "c-piano" "Piano" "11:00" "12:00" true [1] None
                     CommitmentType.appointment None None.

(** A session of [T3] that was skipped, 11:00 - 12:00. *)
Definition T3_1 : StudySession.t :=
  StudySession.mk "T3" "11:00" "11:00" "12:00" (JS.ofZ 1) (Some 1) None
                  (Some SessionStatus.skipped).

(** A [localStorage] that is full: [setItem] always throws. *)
Definition fullStorage (payload : string) : JS.outcome unit :=
  JS.Thrown "QuotaExceededError".

(** The instant of the example calls. *)
Definition now : Z := 1704880800000.
Definition nowISO : string := "2024-01-10T10:00:00.000Z".

(** [Example.editor] after [T1#1] was moved to 08:00. *)
Definition edited : SessionTimeEditor :=
  snd (editSessionTime getDayUTC Example.stringify Example.setItem Example.editor
         "2024-01-10" "T1" 1 "08:00" (JS.ofZ 1) now nowISO).

(** [edited] after [T2#1] was moved to 15:15, a minute later. *)
Definition editedTwice : SessionTimeEditor :=
  snd (editSessionTime getDayUTC Example.stringify Example.setItem edited
         "2024-01-10" "T2" 1 "15:15" (JS.Num (3 # 2)) (now + 60000)
         "2024-01-10T10:01:00.000Z").

End Scenario.

(** ** [JSON.stringify] and [JSON.parse] on a log of edits

    [stringify] writes an array of edits as [JSON.stringify] does: no
    white space, the members of an edit in the order of the object literal
    of [editSessionTime], [isTemporary] left out when it is [undefined].
    [parse] reads the texts of that layout and throws on any other text.
    Strings that JSON would escape (a quote, a backslash, a control
    character) are outside the fragment: [parse] rejects them. *)

Module Json.

Definition quote : ascii := "034"%char.
Definition backslash : ascii := "092"%char.

(** A string value. *)
Definition text (s : string) : string :=
  String quote (s +:+ String quote EmptyString).

(** A member [key:value] of an object. *)
Definition member (key value : string) : string := text key +:+ ":" +:+ value.

Definition object (edit : SessionTimeEdit.t) : string :=
  "{" +:+ member "id" (text (SessionTimeEdit.id edit))
    +:+ "," +:+ member "planDate" (text (SessionTimeEdit.planDate edit))
    +:+ "," +:+ member "taskId" (text (SessionTimeEdit.taskId edit))
    +:+ "," +:+ member "sessionNumber"
                  (JS.Z_toString (SessionTimeEdit.sessionNumber edit))
    +:+ "," +:+ member "originalStartTime"
                  (text (SessionTimeEdit.originalStartTime edit))
    +:+ "," +:+ member "newStartTime" (text (SessionTimeEdit.newStartTime edit))
    +:+ "," +:+ member "newEndTime" (text (SessionTimeEdit.newEndTime edit))
    +:+ "," +:+ member "editedAt" (text (SessionTimeEdit.editedAt edit))
    +:+ match SessionTimeEdit.isTemporary edit with
        | Some true => "," +:+ member "isTemporary" "true"
        | Some false => "," +:+ member "isTemporary" "false"
        | None => EmptyString
        end
    +:+ "}".

Definition stringify (edits : list SessionTimeEdit.t) : string :=
  "[" +:+ String.concat "," (List.map object edits) +:+ "]".

(** The rest of [s] after [expected], when [s] starts with it. *)
Fixpoint expect (expected s : string) : option string :=
  match expected with
  | EmptyString => Some s
  | String c expected' =>
      match s with
      | String d s' => if Ascii.eqb c d then expect expected' s' else None
      | EmptyString => None
      end
  end.

(** The characters up to the closing quote, and what follows it. *)
Fixpoint untilQuote (s : string) : option (string * string) :=
  match s with
  | EmptyString => None
  | String c rest =>
      if Ascii.eqb c quote then Some (EmptyString, rest)
      else if Ascii.eqb c backslash then None
      else match untilQuote rest with
           | Some (value, after) => Some (String c value, after)
           | None => None
           end
  end.

Definition readText (s : string) : option (string * string) :=
  match expect (String quote EmptyString) s with
  | Some rest => untilQuote rest
  | None => None
  end.

(** The longest prefix of digits, and what follows it. *)
Fixpoint digitsPrefix (s : string) : string * string :=
  match s with
  | EmptyString => (EmptyString, EmptyString)
  | String c rest =>
      if JS.isDigit c
      then (String c (fst (digitsPrefix rest)), snd (digitsPrefix rest))
      else (EmptyString, s)
  end.

Definition readInteger (s : string) : option (Z * string) :=
  match expect "-" s with
  | Some rest =>
      match JS.digits_value (fst (digitsPrefix rest)) with
      | Some value => Some (- value, snd (digitsPrefix rest))
      | None => None
      end
  | None =>
      match JS.digits_value (fst (digitsPrefix s)) with
      | Some value => Some (value, snd (digitsPrefix s))
      | None => None
      end
  end.

(** The value of the member [key], read by [reader], and what follows. *)
Definition readMember {A : Type} (key : string)
    (reader : string -> option (A * string)) (s : string) : option (A * string) :=
  match expect (text key +:+ ":") s with
  | Some rest => reader rest
  | None => None
  end.

(** The end of an object: the closing brace, with or without the member
    [isTemporary] before it. *)
Definition readEnd (s : string) : option (option bool * string) :=
  match expect "}" s with
  | Some rest => Some (None, rest)
  | None =>
      match expect ("," +:+ member "isTemporary" "true" +:+ "}") s with
      | Some rest => Some (Some true, rest)
      | None =>
          match expect ("," +:+ member "isTemporary" "false" +:+ "}") s with
          | Some rest => Some (Some false, rest)
          | None => None
          end
      end
  end.

Definition readObject (s : string) : option (SessionTimeEdit.t * string) :=
  s ← expect "{" s;
  '(id, s) ← readMember "id" readText s;
  s ← expect "," s;
  '(planDate, s) ← readMember "planDate" readText s;
  s ← expect "," s;
  '(taskId, s) ← readMember "taskId" readText s;
  s ← expect "," s;
  '(sessionNumber, s) ← readMember "sessionNumber" readInteger s;
  s ← expect "," s;
  '(originalStartTime, s) ← readMember "originalStartTime" readText s;
  s ← expect "," s;
  '(newStartTime, s) ← readMember "newStartTime" readText s;
  s ← expect "," s;
  '(newEndTime, s) ← readMember "newEndTime" readText s;
  s ← expect "," s;
  '(editedAt, s) ← readMember "editedAt" readText s;
  '(isTemporary, s) ← readEnd s;
  Some (SessionTimeEdit.mk id planDate taskId sessionNumber originalStartTime
          newStartTime newEndTime editedAt isTemporary, s).

(** The objects of an array up to its closing bracket; [fuel] bounds their
    number, and the length of the text is enough. *)
Fixpoint readItems (fuel : nat) (s : string)
    : option (list SessionTimeEdit.t * string) :=
  match fuel with
  | O => None
  | S fuel' =>
      match readObject s with
      | Some (edit, rest) =>
          match expect "," rest with
          | Some more =>
              match readItems fuel' more with
              | Some (edits, after) => Some (edit :: edits, after)
              | None => None
              end
          | None =>
              match expect "]" rest with
              | Some after => Some ([edit], after)
              | None => None
              end
          end
      | None => None
      end
  end.

Definition parse (payload : string) : JS.outcome (list SessionTimeEdit.t) :=
  match expect "[" payload with
  | Some rest =>
      match expect "]" rest with
      | Some EmptyString => JS.Returned []
      | _ =>
          match readItems (String.length rest) rest with
          | Some (edits, EmptyString) => JS.Returned edits
          | _ => JS.Thrown "SyntaxError: Unexpected token"
          end
      end
  | None => JS.Thrown "SyntaxError: Unexpected token"
  end.

(** [Example.editor] run on this runtime, after [T1#1] was moved to 08:00. *)
Definition edited : SessionTimeEditor :=
  snd (editSessionTime getDayUTC stringify Example.setItem Example.editor
         "2024-01-10" "T1" 1 "08:00" (JS.ofZ 1) Scenario.now Scenario.nowISO).

End Json.

(** ** Properties *)

(** *** Time arithmetic: rendering then parsing whole minutes *)

Lemma split_noChar (sep : ascii) (s : string) :
  JS.noChar sep s = true -> JS.split sep s = [s].
Proof.
  induction s as [|c rest IH]; simpl; [reflexivity|].
  intros H. apply andb_true_iff in H as [Hc Hrest].
  apply negb_true_iff in Hc. rewrite Hc, (IH Hrest). reflexivity.
Qed.

Lemma split_app_sep (sep : ascii) (s1 s2 : string) :
  JS.noChar sep s1 = true ->
  JS.split sep (s1 +:+ String sep s2) = s1 :: JS.split sep s2.
Proof.
  induction s1 as [|c rest IH]; simpl.
  - intros _. rewrite Ascii.eqb_refl. reflexivity.
  - intros H. apply andb_true_iff in H as [Hc Hrest].
    apply negb_true_iff in Hc. rewrite Hc, (IH Hrest). reflexivity.
Qed.

Lemma isDigit_not (c d : ascii) :
  JS.isDigit c = true -> JS.isDigit d = false -> Ascii.eqb c d = false.
Proof.
  intros Hc Hd. destruct (Ascii.eqb c d) eqn:E; [|reflexivity].
  apply Ascii.eqb_eq in E. congruence.
Qed.

Lemma digitString_noChar (sep : ascii) (s : string) :
  JS.isDigit sep = false -> JS.digitString s = true -> JS.noChar sep s = true.
Proof.
  intros Hsep. induction s as [|c rest IH]; simpl; [reflexivity|].
  intros H. apply andb_true_iff in H as [Hc Hrest].
  rewrite (isDigit_not c sep Hc Hsep), (IH Hrest). reflexivity.
Qed.

Lemma isDigit_not_space (c : ascii) : JS.isDigit c = true -> JS.is_space c = false.
Proof.
  unfold JS.isDigit, JS.is_space. intros H.
  apply andb_true_iff in H as [H1 H2].
  apply Nat.leb_le in H1. apply Nat.leb_le in H2.
  apply orb_false_iff. split.
  - apply Nat.eqb_neq. lia.
  - apply andb_false_iff. right. apply Nat.leb_gt. lia.
Qed.

Lemma trim_end_digits (s : string) : JS.digitString s = true -> JS.trim_end s = s.
Proof.
  induction s as [|c rest IH]; simpl; [reflexivity|].
  intros H. apply andb_true_iff in H as [Hc Hrest].
  rewrite (IH Hrest), (isDigit_not_space c Hc). destruct rest; reflexivity.
Qed.

Lemma trim_digits (s : string) : JS.digitString s = true -> JS.trim s = s.
Proof.
  intros H. unfold JS.trim.
  replace (JS.trim_start s) with s; [apply trim_end_digits; exact H|].
  destruct s as [|c rest]; simpl; [reflexivity|].
  simpl in H. apply andb_true_iff in H as [Hc _].
  rewrite (isDigit_not_space c Hc). reflexivity.
Qed.

Lemma string_of_uint_digits (u : Decimal.uint) :
  JS.digitString (NilEmpty.string_of_uint u) = true.
Proof. induction u; simpl; auto. Qed.

(** [Number] reads a rendered non-empty digit sequence back. *)
Lemma Number_string_of_uint (u : Decimal.uint) :
  u <> Decimal.Nil ->
  JS.Number (NilEmpty.string_of_uint u) = JS.ofZ (Z.of_uint u).
Proof.
  intros Hu. pose proof (string_of_uint_digits u) as Hd.
  unfold JS.Number. rewrite (trim_digits _ Hd).
  assert (Hs : NilEmpty.string_of_uint u = NilZero.string_of_uint u)
    by (destruct u; [contradiction|reflexivity..]).
  destruct (NilEmpty.string_of_uint u) as [|c rest] eqn:E.
  { destruct u; [contradiction|discriminate..]. }
  simpl in Hd. apply andb_true_iff in Hd as [Hc Hrest].
  rewrite (isDigit_not c "+" Hc eq_refl), (isDigit_not c "-" Hc eq_refl).
  unfold JS.unsigned_literal.
  rewrite split_noChar
    by (apply (digitString_noChar "."); [reflexivity|simpl; rewrite Hc, Hrest; reflexivity]).
  unfold JS.digits_value. rewrite Hs, (NilZero.usu u Hu). reflexivity.
Qed.

(** A non-negative integer renders, also after [padStart(2, '0')], as a
    digit sequence whose value it is. *)
Lemma padStart_Z_toString (z : Z) :
  0 <= z ->
  exists u, u <> Decimal.Nil /\ Z.of_uint u = z
            /\ JS.padStart 2 "0" (JS.Z_toString z) = NilEmpty.string_of_uint u.
Proof.
  intros Hz.
  assert (H : exists u, u <> Decimal.Nil /\ Z.of_uint u = z
                        /\ JS.Z_toString z = NilEmpty.string_of_uint u).
  { unfold JS.Z_toString. destruct z as [|p|p]; [| |lia].
    - exists (Decimal.D0 Decimal.Nil). repeat split; discriminate.
    - exists (Pos.to_uint p). pose proof (DecimalPos.Unsigned.to_uint_nonnil p) as Hn.
      split; [exact Hn|]. split.
      + unfold Z.of_uint. rewrite DecimalPos.Unsigned.of_to. reflexivity.
      + simpl. destruct (Pos.to_uint p); [contradiction|reflexivity..]. }
  destruct H as (u & Hn & Hv & Hs). rewrite Hs. unfold JS.padStart.
  destruct (NilEmpty.string_of_uint u) as [|c [|c' rest]] eqn:E.
  - destruct u; [contradiction|discriminate..].
  - exists (Decimal.D0 u). simpl. rewrite E. repeat split; [discriminate|exact Hv].
  - exists u. simpl. rewrite E.
    replace (2 - S (S (String.length rest)))%nat with O by lia.
    repeat split; assumption.
Qed.

Lemma Qred_inject_Z (z : Z) : Qred (inject_Z z) = inject_Z z.
Proof.
  unfold Qred, inject_Z.
  pose proof (Z.ggcd_gcd z 1) as Hg.
  pose proof (Z.ggcd_correct_divisors z 1) as Hd.
  destruct (Z.ggcd z 1) as [g [a b]]. simpl in *.
  rewrite Z.gcd_1_r in Hg. subst g. destruct Hd as [Ha Hb].
  assert (a = z) by lia. assert (b = 1) by lia. subst a b. reflexivity.
Qed.

Lemma toString_integer (q : Q) (z : Z) :
  q == inject_Z z -> JS.toString (JS.Num q) = JS.Z_toString z.
Proof.
  intros H. unfold JS.toString. rewrite (Qred_complete _ _ H), Qred_inject_Z.
  reflexivity.
Qed.

(** [timeToMinutes (minutesToTime m)] is [m] again when [m] is a whole,
    non-negative number of minutes. *)
Lemma timeToMinutes_minutesToTime (q : Q) (total : Z) :
  0 <= total -> q == inject_Z total ->
  JS.strict_eq (timeToMinutes (minutesToTime (JS.Num q))) (JS.Num q) = true.
Proof.
  intros Hpos Hq.
  assert (Hfloor : Qfloor (q / inject_Z 60) = total / 60).
  { rewrite Zdiv_Qdiv. apply Qfloor_comp. rewrite Hq. reflexivity. }
  assert (Hnonneg : Qle_bool 0 (q / inject_Z 60) = true).
  { apply Qle_bool_iff. rewrite Hq. apply Qle_shift_div_l; [reflexivity|].
    rewrite Qmult_0_l, <- (Zle_Qle 0). exact Hpos. }
  unfold minutesToTime, JS.div, JS.rem, JS.floor, JS.ofZ, JS.Qtrunc.
  cbn [Qeq_bool Qnum Qden inject_Z Z.mul Pos.mul Z.eqb]. 
  change (Qeq_bool (inject_Z 60) 0) with false. cbv iota.
  rewrite Hnonneg, Hfloor.
  pose proof (Z.div_mod total 60 ltac:(lia)) as Hdm.
  pose proof (Z.mod_pos_bound total 60 ltac:(lia)) as Hmod.
  assert (Hdiv : 0 <= total / 60) by (apply Z.div_pos; lia).
  rewrite (toString_integer (inject_Z (total / 60)) (total / 60)) by reflexivity.
  rewrite (toString_integer _ (total mod 60)).
  2:{ rewrite Hq. unfold Qeq. simpl. lia. }
  destruct (padStart_Z_toString (total / 60) Hdiv) as (uh & Hhn & Hhv & ->).
  destruct (padStart_Z_toString (total mod 60) (proj1 Hmod)) as (um & Hmn & Hmv & ->).
  unfold timeToMinutes.
  change (":" +:+ NilEmpty.string_of_uint um)
    with (String ":" (NilEmpty.string_of_uint um)).
  rewrite split_app_sep
    by (apply digitString_noChar; [reflexivity|apply string_of_uint_digits]).
  rewrite split_noChar
    by (apply digitString_noChar; [reflexivity|apply string_of_uint_digits]).
  cbn [List.map]. rewrite !Number_string_of_uint by assumption.
  rewrite Hhv, Hmv. unfold JS.ofZ. cbn [JS.mul].
  assert (Hsum : inject_Z (total / 60) * inject_Z 60 + inject_Z (total mod 60) == q).
  { rewrite Hq, <- inject_Z_mult, <- inject_Z_plus. apply inject_Z_injective. lia. }
  destruct (JS.truthy (JS.Num (inject_Z (total mod 60)))) eqn:Ht; cbn [JS.add JS.strict_eq].
  - apply Qeq_bool_iff. exact Hsum.
  - apply Qeq_bool_iff. rewrite <- Hsum.
    simpl in Ht. apply negb_false_iff, Qeq_bool_iff in Ht. rewrite Ht. reflexivity.
Qed.

Section Properties.

Variable getDay : string -> option Z.
Variable JSON_parse : string -> JS.outcome (list SessionTimeEdit.t).
Variable JSON_stringify : list SessionTimeEdit.t -> string.
Variable setItem : string -> JS.outcome unit.

(** *** The conflict checker against its specification *)

Lemma sessionLoop_find this planDate startMinutes newEndMinutes
    excludeSessionId suggest sessions :
  sessionLoop this planDate startMinutes newEndMinutes excludeSessionId
              suggest sessions
  = option_map
      (fun o => ConflictResult.mk true (Some (sessionReason o)) (Some suggest))
      (List.find
         (fun o =>
            JS.lt startMinutes (timeToMinutes (StudySession.endTime o))
            && JS.gt newEndMinutes (timeToMinutes (StudySession.startTime o)))
         (List.map (fun s => getEditedSession this s planDate)
            (List.filter
               (fun s =>
                  negb (String.eqb (sessionKey (StudySession.taskId s)
                                               (StudySession.sessionNumber s))
                                   excludeSessionId)
                  && negb (isSkipped s) && negb (isDone s))
               sessions))).
Proof.
  induction sessions as [|session rest IH]; simpl; [reflexivity|].
  destruct (String.eqb _ excludeSessionId); simpl; [exact IH|].
  destruct (isSkipped session); simpl; [exact IH|].
  destruct (isDone session); simpl; [exact IH|].
  destruct (JS.lt startMinutes _ && JS.gt newEndMinutes _); simpl;
    [reflexivity | exact IH].
Qed.

Lemma commitmentLoop_find startMinutes newEndMinutes suggest dayCommitments :
  commitmentLoop startMinutes newEndMinutes suggest dayCommitments
  = option_map
      (fun c => ConflictResult.mk true (Some (commitmentReason c)) (Some suggest))
      (List.find
         (fun c =>
            JS.lt startMinutes (timeToMinutes (FixedCommitment.endTime c))
            && JS.gt newEndMinutes (timeToMinutes (FixedCommitment.startTime c)))
         dayCommitments).
Proof.
  induction dayCommitments as [|c rest IH]; simpl; [reflexivity|].
  destruct (JS.lt startMinutes _ && JS.gt newEndMinutes _); simpl;
    [reflexivity | exact IH].
Qed.

(** The whole result of the checker, in terms of the first failing check. *)
Lemma checkTimeConflictWith_spec generate this planDate newStartTime
    sessionDuration excludeSessionId includeSuggestions :
  checkTimeConflictWith getDay generate this planDate newStartTime
                        sessionDuration excludeSessionId includeSuggestions
  = match spec_checkConflict getDay this planDate newStartTime sessionDuration
                             excludeSessionId with
    | Some kind =>
        ConflictResult.mk true (Some (spec_reason this kind))
          (Some (suggestionsFor generate planDate sessionDuration
                                excludeSessionId includeSuggestions kind))
    | None => ConflictResult.mk false None None
    end.
Proof.
  unfold checkTimeConflictWith, spec_checkConflict, spec_studyWindowCheck,
    spec_workDayCheck, spec_sessionOverlapCheck, spec_commitmentOverlapCheck,
    spec_otherSessions, spec_halfOpenOverlap, spec_candidateStart,
    spec_candidateEnd.
  cbn [spec_firstFailing].
  destruct (JS.lt (timeToMinutes newStartTime) _ || JS.gt _ _); [reflexivity|].
  destruct (includes_day _ (getDay planDate)); [|reflexivity].
  cbn [negb].
  destruct (List.find (fun p => String.eqb (StudyPlan.date p) planDate) _)
    as [plan|].
  - rewrite sessionLoop_find.
    match goal with |- context [List.find ?f (List.map ?g ?l)] =>
      destruct (List.find f (List.map g l)) as [o|] end; [reflexivity|].
    cbn [option_map]. rewrite commitmentLoop_find.
    match goal with |- context [List.find ?f (getCommitmentsForDate ?a ?b ?c)] =>
      destruct (List.find f (getCommitmentsForDate a b c)) as [c0|] end;
      reflexivity.
  - cbn [List.map List.find option_map]. rewrite commitmentLoop_find.
    match goal with |- context [List.find ?f (getCommitmentsForDate ?a ?b ?c)] =>
      destruct (List.find f (getCommitmentsForDate a b c)) as [c0|] end;
      reflexivity.
Qed.

(** *** The session check by fields against the loop *)

Lemma find_pointwise {A} (p q : A -> bool) (xs : list A) :
  (forall x, p x = q x) -> List.find p xs = List.find q xs.
Proof.
  intros H. induction xs as [|y rest IH]; simpl; [reflexivity|].
  rewrite H, IH. reflexivity.
Qed.

Lemma find_map_filter {A B} (p : B -> bool) (f : A -> B) (k : A -> bool)
    (xs : list A) :
  List.find p (List.map f (List.filter k xs))
  = option_map f (List.find (fun x => k x && p (f x)) xs).
Proof.
  induction xs as [|x rest IH]; simpl; [reflexivity|].
  destruct (k x); simpl; [|exact IH].
  destruct (p (f x)); simpl; [reflexivity | exact IH].
Qed.

(** The sessions the loop does not [continue] on are those the
    specification does not pass over. *)
Lemma spec_passedOver_loop excludeSessionKey s :
  bool_decide (~ spec_passedOver excludeSessionKey s)
  = negb (String.eqb (sessionKey (StudySession.taskId s)
                                 (StudySession.sessionNumber s))
                     excludeSessionKey)
    && negb (isSkipped s) && negb (isDone s).
Proof.
  unfold isSkipped, isDone.
  change (sessionKey _ _) with (spec_keyOf s).
  destruct (String.eqb_spec (spec_keyOf s) excludeSessionKey) as [Hkey|Hkey];
    cbn [negb andb].
  { apply bool_decide_eq_false_2. intros H. apply H. left. exact Hkey. }
  destruct (StudySession.status s) as [status|] eqn:Hstatus;
    [destruct status|];
    destruct (StudySession.done s) as [[|]|] eqn:Hdone; cbn [negb andb];
    first [ apply bool_decide_eq_true_2; unfold spec_passedOver;
            rewrite Hstatus, Hdone; intros [H|[H|H]];
            [exact (Hkey H) | discriminate H | discriminate H]
          | apply bool_decide_eq_false_2; unfold spec_passedOver;
            rewrite Hstatus, Hdone; intros H; apply H;
            first [ right; left; reflexivity | right; right; reflexivity ] ].
Qed.

(** The predicate of [getEditedSession]'s [find] selects the edits that
    belong to the session. *)
Lemma spec_editIsFor_find date s e :
  bool_decide (spec_editIsFor date s e) = editMatchesSession s date e.
Proof.
  unfold editMatchesSession.
  destruct (String.eqb_spec (SessionTimeEdit.planDate e) date) as [Hd|Hd];
    cbn [andb];
    [|apply bool_decide_eq_false_2; intros [H _]; exact (Hd H)].
  destruct (String.eqb_spec (SessionTimeEdit.taskId e) (StudySession.taskId s))
    as [Ht|Ht]; cbn [andb];
    [|apply bool_decide_eq_false_2; intros [_ [H _]]; exact (Ht H)].
  destruct (StudySession.sessionNumber s) as [n|] eqn:Hn.
  - destruct (Z.eqb_spec (SessionTimeEdit.sessionNumber e) n) as [He|He].
    + apply bool_decide_eq_true_2. unfold spec_editIsFor.
      rewrite Hn, He. auto.
    + apply bool_decide_eq_false_2. unfold spec_editIsFor. rewrite Hn.
      intros [_ [_ H]]. apply He. congruence.
  - apply bool_decide_eq_false_2. unfold spec_editIsFor. rewrite Hn.
    intros [_ [_ H]]. discriminate H.
Qed.

Lemma spec_withStoredEdit_getEditedSession this date s :
  spec_withStoredEdit this date s = getEditedSession this s date.
Proof.
  unfold spec_withStoredEdit, getEditedSession.
  rewrite (find_pointwise _ (editMatchesSession s date))
    by (intros e; apply spec_editIsFor_find).
  reflexivity.
Qed.

Lemma spec_sessionOverlapCheck_byFields_loop this date candidateStart
    durationHours excludeSessionKey :
  spec_sessionOverlapCheck_byFields this date candidateStart durationHours
                                    excludeSessionKey
  = spec_sessionOverlapCheck this date candidateStart durationHours
                             excludeSessionKey.
Proof.
  unfold spec_sessionOverlapCheck_byFields, spec_sessionOverlapCheck,
    spec_otherSessions.
  destruct (List.find (fun p => String.eqb (StudyPlan.date p) date) _)
    as [plan|]; [|reflexivity].
  rewrite find_map_filter.
  rewrite (find_pointwise
             (fun s =>
                bool_decide (~ spec_passedOver excludeSessionKey s)
                && spec_halfOpenOverlap (spec_candidateStart candidateStart)
                     (spec_candidateEnd candidateStart durationHours)
                     (StudySession.startTime (spec_withStoredEdit this date s))
                     (StudySession.endTime (spec_withStoredEdit this date s)))
             (fun s =>
                negb (String.eqb (sessionKey (StudySession.taskId s)
                                             (StudySession.sessionNumber s))
                                 excludeSessionKey)
                && negb (isSkipped s) && negb (isDone s)
                && spec_halfOpenOverlap (spec_candidateStart candidateStart)
                     (spec_candidateEnd candidateStart durationHours)
                     (StudySession.startTime (getEditedSession this s date))
                     (StudySession.endTime (getEditedSession this s date))))
    by (intros s; rewrite spec_passedOver_loop,
                    spec_withStoredEdit_getEditedSession; reflexivity).
  destruct (List.find _ (StudyPlan.plannedTasks plan)) as [s|]; cbn [option_map];
    [rewrite spec_withStoredEdit_getEditedSession|]; reflexivity.
Qed.

Lemma spec_checkConflict_byFields_loop this date candidateStart durationHours
    excludeSessionKey :
  spec_checkConflict_byFields getDay this date candidateStart durationHours
                              excludeSessionKey
  = spec_checkConflict getDay this date candidateStart durationHours
                       excludeSessionKey.
Proof.
  unfold spec_checkConflict_byFields, spec_checkConflict.
  rewrite spec_sessionOverlapCheck_byFields_loop. reflexivity.
Qed.

(** C1.  [checkTimeConflict] reports a conflict exactly when one of the four
    checks fails, taken in the order study window, work day, session
    overlap, commitment overlap, and its reason is that of the first
    failing check only.  The session check passes over the session whose
    key [taskId-sessionNumber] is the excluded one, every session whose
    status is [skipped] and every session marked done; for each other
    session of the date's plan it reads the start and end of the first
    stored edit with the session's date, task and number, or the session's
    own when there is none; and it tests [candidateStart < otherEnd &&
    candidateEnd > otherStart].  [spec_checkConflict_byFields] says all of
    this on the fields of the data, without the helpers of the class. *)
Theorem checkTimeConflict_first_failing_check
    (this : SessionTimeEditor) (planDate newStartTime : string)
    (sessionDuration : JS.number) (excludeSessionId : string)
    (includeSuggestions : bool) :
  let result :=
    checkTimeConflict getDay this planDate newStartTime sessionDuration
                      excludeSessionId includeSuggestions in
  let failing :=
    spec_checkConflict_byFields getDay this planDate newStartTime
                                sessionDuration excludeSessionId in
  ConflictResult.hasConflict result
    = match failing with Some _ => true | None => false end
  /\ ConflictResult.conflictsWith result = option_map (spec_reason this) failing.
Proof.
  cbv zeta. unfold checkTimeConflict.
  rewrite checkTimeConflictWith_spec, spec_checkConflict_byFields_loop.
  destruct (spec_checkConflict _ _ _ _ _ _); split; reflexivity.
Qed.

(** *** The suggestion generator *)

Lemma suggestionsFor_disabled generate planDate sessionDuration
    excludeSessionId kind :
  suggestionsFor generate planDate sessionDuration excludeSessionId false kind = [].
Proof. destruct kind; reflexivity. Qed.

(** With [includeSuggestions = false] the checker never calls the
    generator back: the nested call of [generateSuggestedTimes] is a call
    of the public method. *)
Lemma checkTimeConflictWith_disabled generate this planDate newStartTime
    sessionDuration excludeSessionId :
  checkTimeConflictWith getDay generate this planDate newStartTime
                        sessionDuration excludeSessionId false
  = checkTimeConflict getDay this planDate newStartTime sessionDuration
                      excludeSessionId false.
Proof.
  unfold checkTimeConflict. rewrite !checkTimeConflictWith_spec.
  destruct (spec_checkConflict _ _ _ _ _ _); [|reflexivity].
  rewrite !suggestionsFor_disabled. reflexivity.
Qed.

(** Whether a conflict is found does not depend on [includeSuggestions]. *)
Lemma hasConflict_includeSuggestions this planDate newStartTime
    sessionDuration excludeSessionId b1 b2 :
  ConflictResult.hasConflict
    (checkTimeConflict getDay this planDate newStartTime sessionDuration
                       excludeSessionId b1)
  = ConflictResult.hasConflict
      (checkTimeConflict getDay this planDate newStartTime sessionDuration
                         excludeSessionId b2).
Proof.
  unfold checkTimeConflict. rewrite !checkTimeConflictWith_spec.
  destruct (spec_checkConflict _ _ _ _ _ _); reflexivity.
Qed.

Lemma le_ofZ_floor (m : Z) (q : Q) :
  JS.le (JS.ofZ m) (JS.Num q) = true <-> m <= Qfloor q.
Proof.
  simpl. rewrite Qle_bool_iff. split; intros H.
  - apply Qfloor_resp_le in H. rewrite Qfloor_Z in H. exact H.
  - apply Qle_trans with (inject_Z (Qfloor q)); [|apply Qfloor_le].
    rewrite <- Zle_Qle. exact H.
Qed.

Lemma spec_scanMinutes_continue (m : Z) (limit : JS.number) :
  JS.le (JS.ofZ m) limit = true ->
  spec_scanMinutes m limit = m :: spec_scanMinutes (m + 30) limit.
Proof.
  destruct limit as [|q]; [discriminate|].
  intros H. apply le_ofZ_floor in H. unfold spec_scanMinutes.
  replace (Qfloor q - (m + 30)) with ((Qfloor q - m) + (-1) * 30) by lia.
  rewrite Z.div_add by lia.
  assert (Hq : 0 <= (Qfloor q - m) / 30) by (apply Z.div_pos; lia).
  replace (Z.to_nat ((Qfloor q - m) / 30 + 1))
    with (S (Z.to_nat ((Qfloor q - m) / 30 + -1 + 1))) by lia.
  cbn [seq List.map]. f_equal; [lia|].
  rewrite <- seq_shift, List.map_map. apply List.map_ext. intros k. lia.
Qed.

Lemma spec_scanMinutes_stop (m : Z) (limit : JS.number) :
  JS.le (JS.ofZ m) limit = false -> spec_scanMinutes m limit = [].
Proof.
  destruct limit as [|q]; [reflexivity|].
  intros H. unfold spec_scanMinutes.
  assert (Hlt : Qfloor q < m).
  { destruct (Z_lt_le_dec (Qfloor q) m) as [|Hle]; [assumption|].
    apply le_ofZ_floor in Hle. congruence. }
  assert (Hq : (Qfloor q - m) / 30 < 0) by (apply Z.div_lt_upper_bound; lia).
  replace (Z.to_nat ((Qfloor q - m) / 30 + 1)) with O by lia.
  reflexivity.
Qed.

(** The loop, from any point of the scan with fewer than 3 suggestions
    collected, adds the next conflict-free candidates up to 3 in all. *)
Lemma suggestionLoop_take this planDate sessionDuration excludeSessionId
    limit minutes suggestions :
  (length suggestions < 3)%nat ->
  suggestionLoop getDay this planDate sessionDuration excludeSessionId limit
                 minutes suggestions
  = suggestions
      ++ take (3 - length suggestions)
           (List.filter
              (fun candidate =>
                 negb (ConflictResult.hasConflict
                         (checkTimeConflict getDay this planDate candidate
                            sessionDuration excludeSessionId false)))
              (List.map (fun m => minutesToTime (JS.ofZ m))
                        (spec_scanMinutes minutes limit))).
Proof.
  funelim (suggestionLoop getDay this planDate sessionDuration
                          excludeSessionId limit minutes suggestions);
    intros Hlen.
  - rewrite (spec_scanMinutes_continue _ _ Hle). cbn [List.map List.filter].
    rewrite checkTimeConflictWith_disabled.
    destruct (negb (ConflictResult.hasConflict _)).
    + rewrite length_app. cbn [length].
      destruct (Nat.leb_spec 3 (length suggestions + 1)) as [Hfull|Hroom].
      * replace (3 - length suggestions)%nat with 1%nat by lia.
        cbn [take]. reflexivity.
      * match goal with
        | IH : (length (suggestions ++ _) < 3)%nat -> _ |- _ =>
            rewrite IH by (rewrite length_app; cbn [length]; lia)
        end.
        rewrite length_app. cbn [length].
        replace (3 - length suggestions)%nat
          with (S (3 - (length suggestions + 1)))%nat by lia.
        cbn [take]. rewrite <- app_assoc. reflexivity.
    + match goal with
      | IH : (length suggestions < 3)%nat -> _ |- _ => rewrite IH by exact Hlen
      end.
      reflexivity.
  - rewrite (spec_scanMinutes_stop _ _ Hstop). cbn [List.map List.filter].
    rewrite take_nil, app_nil_r. reflexivity.
Qed.

(** C2.  [generateSuggestedTimes] returns the first three (or fewer, when
    fewer exist) conflict-free candidates among the start minutes
    [studyWindowStartHour*60], [+30], [+60], ... not above
    [studyWindowEndHour*60 - sessionDuration*60], in scan order; it never
    returns more than 3; and each returned time, checked again with the
    same date, duration and excluded key, has no conflict, whether or not
    suggestions are requested in that check. *)
Theorem generateSuggestedTimes_scan
    (this : SessionTimeEditor) (planDate : string)
    (sessionDuration : JS.number) (excludeSessionId : string) :
  let suggestions :=
    generateSuggestedTimes getDay this planDate sessionDuration
                           excludeSessionId in
  suggestions = spec_suggestTimes getDay this planDate sessionDuration
                                  excludeSessionId
  /\ (length suggestions <= 3)%nat
  /\ forall (candidate : string) (includeSuggestions : bool),
       In candidate suggestions ->
       checkTimeConflict getDay this planDate candidate sessionDuration
                         excludeSessionId includeSuggestions
       = ConflictResult.mk false None None.
Proof.
  cbv zeta.
  assert (Heq : generateSuggestedTimes getDay this planDate sessionDuration
                                       excludeSessionId
                = spec_suggestTimes getDay this planDate sessionDuration
                                    excludeSessionId).
  { unfold generateSuggestedTimes, spec_suggestTimes.
    rewrite suggestionLoop_take by (cbn; lia). reflexivity. }
  rewrite Heq. split; [reflexivity|]. split.
  - unfold spec_suggestTimes. rewrite length_take. lia.
  - intros candidate includeSuggestions Hin.
    unfold spec_suggestTimes in Hin.
    apply list_elem_of_In, elem_of_take in Hin as (i & Hi & _).
    apply list_elem_of_lookup_2, list_elem_of_In, List.filter_In in Hi
      as [_ Hok].
    apply negb_true_iff in Hok.
    rewrite (hasConflict_includeSuggestions _ _ _ _ _ _ includeSuggestions)
      in Hok.
    revert Hok. unfold checkTimeConflict. rewrite checkTimeConflictWith_spec.
    destruct (spec_checkConflict _ _ _ _ _ _); [discriminate|reflexivity].
Qed.

(** *** The edit log *)

Lemma saveEdits_sessionTimeEdits this :
  sessionTimeEdits (saveEdits JSON_stringify setItem this) = sessionTimeEdits this.
Proof. unfold saveEdits. destruct (setItem _); reflexivity. Qed.

Lemma getEditedSession_saveEdits this session planDate :
  getEditedSession (saveEdits JSON_stringify setItem this) session planDate
  = getEditedSession this session planDate.
Proof. unfold getEditedSession. rewrite saveEdits_sessionTimeEdits. reflexivity. Qed.

(** [findIndex] and [find] agree on the first element that matches. *)
Lemma findIndex_Some {A} (p : A -> bool) (xs : list A) (i : nat) :
  findIndex p xs = Some i ->
  exists x, xs !! i = Some x /\ p x = true /\ List.find p xs = Some x.
Proof.
  revert i. induction xs as [|y rest IH]; intros i; simpl; [discriminate|].
  destruct (p y) eqn:Hy.
  - intros [= <-]. exists y. auto.
  - destruct (findIndex p rest) as [j|]; [|discriminate].
    intros [= <-]. destruct (IH j eq_refl) as (x & Hx & Hp & Hf).
    exists x. auto.
Qed.

Lemma findIndex_None {A} (p : A -> bool) (xs : list A) :
  findIndex p xs = None <-> forall x, In x xs -> p x = false.
Proof.
  induction xs as [|y rest IH]; simpl.
  - split; [intros _ x []|reflexivity].
  - destruct (p y) eqn:Hy.
    + split; [discriminate|]. intros H. rewrite (H y) in Hy by auto. discriminate.
    + destruct (findIndex p rest) as [j|].
      * split; [discriminate|]. intros H.
        assert (Hj : Some j = None) by (apply IH; intros x Hx; apply H; auto).
        discriminate.
      * split; [|reflexivity]. intros _ x [<-|Hx]; [exact Hy|].
        apply (proj1 IH eq_refl x Hx).
Qed.

Lemma find_none_iff {A} (p : A -> bool) (xs : list A) :
  List.find p xs = None <-> forall x, In x xs -> p x = false.
Proof.
  split; [apply List.find_none|].
  induction xs as [|y rest IH]; simpl; [reflexivity|]. intros H.
  rewrite (H y) by auto. apply IH. intros x Hx. apply H. auto.
Qed.

(** [xs[i] = e] at the index [findIndex] gave, for a matching [e]. *)
Lemma find_insert_findIndex {A} (p : A -> bool) (xs : list A) (i : nat) (e : A) :
  findIndex p xs = Some i -> p e = true ->
  List.find p (<[i := e]> xs) = Some e.
Proof.
  revert i. induction xs as [|y rest IH]; intros i; simpl; [discriminate|].
  destruct (p y) eqn:Hy.
  - intros [= <-] He. simpl. rewrite He. reflexivity.
  - destruct (findIndex p rest) as [j|]; [|discriminate].
    intros [= <-] He. simpl. rewrite Hy. apply IH; auto.
Qed.

(** [xs.push(e)] when nothing matched. *)
Lemma find_push_findIndex {A} (p : A -> bool) (xs : list A) (e : A) :
  findIndex p xs = None -> p e = true -> List.find p (xs ++ [e]) = Some e.
Proof.
  intros Hnone He. induction xs as [|y rest IH]; simpl.
  - rewrite He. reflexivity.
  - simpl in Hnone. destruct (p y); [discriminate|].
    destruct (findIndex p rest); [discriminate|]. apply IH. reflexivity.
Qed.

Lemma editMatchesSession_key session planDate n e :
  StudySession.sessionNumber session = Some n ->
  editMatchesSession session planDate e
  = editMatches planDate (StudySession.taskId session) n e.
Proof. intros H. unfold editMatchesSession, editMatches. rewrite H. reflexivity. Qed.

Lemma editMatches_key planDate taskId sessionNumber e :
  editMatches planDate taskId sessionNumber e = true
  <-> editKey e = (planDate, taskId, sessionNumber).
Proof.
  unfold editMatches, editKey. rewrite !andb_true_iff, !String.eqb_eq, Z.eqb_eq.
  split; [intros [[-> ->] ->]; reflexivity | intros [= -> -> ->]; auto].
Qed.

Lemma findIndex_of_find {A} (p : A -> bool) (xs : list A) (x : A) :
  List.find p xs = Some x -> exists i, findIndex p xs = Some i.
Proof.
  intros H. destruct (findIndex p xs) as [i|] eqn:E; [eauto|].
  apply find_some in H as [Hin Hp].
  rewrite (proj1 (findIndex_None p xs) E x Hin) in Hp. discriminate.
Qed.

Lemma find_upsert planDate taskId sessionNumber edit edits :
  editMatches planDate taskId sessionNumber edit = true ->
  List.find (editMatches planDate taskId sessionNumber)
            (upsert planDate taskId sessionNumber edit edits)
  = Some edit.
Proof.
  intros He. unfold upsert.
  destruct (findIndex _ edits) as [i|] eqn:E.
  - apply find_insert_findIndex; assumption.
  - apply find_push_findIndex; assumption.
Qed.

(** What a successful [editSessionTime] did. *)
Lemma editSessionTime_success this planDate taskId sessionNumber newStartTime
    sessionDuration now nowISO :
  EditResult.success
    (fst (editSessionTime getDay JSON_stringify setItem this planDate taskId
            sessionNumber newStartTime sessionDuration now nowISO)) = true ->
  ConflictResult.hasConflict
    (checkTimeConflict getDay this planDate newStartTime sessionDuration
                       (sessionKey taskId (Some sessionNumber)) true) = false
  /\ exists session edit,
       findSession this planDate taskId sessionNumber = Some session
       /\ editKey edit = (planDate, taskId, sessionNumber)
       /\ SessionTimeEdit.originalStartTime edit = StudySession.startTime session
       /\ SessionTimeEdit.newStartTime edit = newStartTime
       /\ SessionTimeEdit.newEndTime edit
          = minutesToTime (spec_candidateEnd newStartTime sessionDuration)
       /\ sessionTimeEdits
            (snd (editSessionTime getDay JSON_stringify setItem this planDate
                    taskId sessionNumber newStartTime sessionDuration now nowISO))
          = upsert planDate taskId sessionNumber edit (sessionTimeEdits this).
Proof.
  unfold editSessionTime.
  destruct (ConflictResult.hasConflict _); [discriminate|].
  destruct (findSession this planDate taskId sessionNumber) as [session|];
    [|discriminate].
  intros _. split; [reflexivity|]. cbn [snd].
  rewrite saveEdits_sessionTimeEdits. cbn [sessionTimeEdits].
  eexists session, _. split; [reflexivity|].
  split; [|split; [|split; [|split]]]; [| | | |reflexivity]; reflexivity.
Qed.

Lemma editSessionTime_failure this planDate taskId sessionNumber newStartTime
    sessionDuration now nowISO :
  EditResult.success
    (fst (editSessionTime getDay JSON_stringify setItem this planDate taskId
            sessionNumber newStartTime sessionDuration now nowISO)) = false ->
  snd (editSessionTime getDay JSON_stringify setItem this planDate taskId
         sessionNumber newStartTime sessionDuration now nowISO) = this.
Proof.
  unfold editSessionTime.
  destruct (ConflictResult.hasConflict _); [reflexivity|].
  destruct (findSession this planDate taskId sessionNumber); [discriminate|].
  reflexivity.
Qed.

(** C3 (as the code has it).  After a successful [editSessionTime] on a
    session's own key, [getEditedSession] on that session and date gives
    the session with [startTime] the new start and [endTime] the rendering
    of new start plus [sessionDuration * 60] minutes, every other field,
    [allocatedHours] among them, as it was.  When that sum is a whole,
    non-negative number of minutes, the times read back satisfy [endTime =
    startTime + sessionDuration * 60] exactly; this is the invariant
    [endTime = startTime + allocatedHours] only when the duration passed
    is the session's [allocatedHours], as the edit dialog passes: the
    method takes the duration from its caller and never reads
    [allocatedHours]. *)
Theorem editSessionTime_getEditedSession
    (this : SessionTimeEditor) (planDate : string) (session : StudySession.t)
    (n : Z) (newStartTime : string) (sessionDuration : JS.number)
    (now : Z) (nowISO : string) :
  StudySession.sessionNumber session = Some n ->
  let after :=
    editSessionTime getDay JSON_stringify setItem this planDate
      (StudySession.taskId session) n newStartTime sessionDuration now nowISO in
  EditResult.success (fst after) = true ->
  let edited := getEditedSession (snd after) session planDate in
  edited
  = StudySession.mk (StudySession.taskId session)
      (StudySession.scheduledTime session)
      newStartTime
      (minutesToTime (JS.add (timeToMinutes newStartTime)
                             (JS.mul sessionDuration (JS.ofZ 60))))
      (StudySession.allocatedHours session)
      (StudySession.sessionNumber session)
      (StudySession.done session)
      (StudySession.status session)
  /\ forall total : Z,
       0 <= total ->
       JS.strict_eq (JS.add (timeToMinutes newStartTime)
                            (JS.mul sessionDuration (JS.ofZ 60)))
                    (JS.ofZ total) = true ->
       JS.strict_eq (timeToMinutes (StudySession.endTime edited))
                    (JS.add (timeToMinutes (StudySession.startTime edited))
                            (JS.mul sessionDuration (JS.ofZ 60))) = true
       /\ (sessionDuration = StudySession.allocatedHours session ->
           JS.strict_eq (timeToMinutes (StudySession.endTime edited))
                        (JS.add (timeToMinutes (StudySession.startTime edited))
                                (JS.mul (StudySession.allocatedHours edited)
                                        (JS.ofZ 60))) = true).
Proof.
  intros Hn after Hok edited.
  destruct (editSessionTime_success _ _ _ _ _ _ _ _ Hok)
    as (_ & found & edit & _ & Hkey & _ & Hstart & Hend & Hlog).
  assert (Hedited :
    edited
    = StudySession.mk (StudySession.taskId session)
        (StudySession.scheduledTime session) newStartTime
        (minutesToTime (JS.add (timeToMinutes newStartTime)
                               (JS.mul sessionDuration (JS.ofZ 60))))
        (StudySession.allocatedHours session)
        (StudySession.sessionNumber session)
        (StudySession.done session) (StudySession.status session)).
  { unfold edited, getEditedSession. fold after in Hlog. rewrite Hlog.
    rewrite (find_pointwise _ _ _
               (fun e => editMatchesSession_key session planDate n e Hn)).
    rewrite find_upsert by (apply editMatches_key; exact Hkey).
    rewrite Hstart, Hend. reflexivity. }
  split; [exact Hedited|].
  intros total Hpos Htotal. rewrite Hedited.
  cbn [StudySession.endTime StudySession.startTime StudySession.allocatedHours].
  assert (Hround :
    JS.strict_eq
      (timeToMinutes
         (minutesToTime (JS.add (timeToMinutes newStartTime)
                                (JS.mul sessionDuration (JS.ofZ 60)))))
      (JS.add (timeToMinutes newStartTime) (JS.mul sessionDuration (JS.ofZ 60)))
    = true).
  { destruct (JS.add (timeToMinutes newStartTime) (JS.mul sessionDuration (JS.ofZ 60)))
      as [|q] eqn:Hsum; [discriminate|].
    apply (timeToMinutes_minutesToTime q total Hpos).
    apply Qeq_bool_iff. exact Htotal. }
  split; [exact Hround|]. intros <-. exact Hround.
Qed.

(** C4.  When the conflict check of the call reports a conflict,
    [editSessionTime] fails with the checker's reason as its error and
    leaves the instance, edit log and persisted payload included, as it
    was. *)
Theorem editSessionTime_conflict_no_change
    (this : SessionTimeEditor) (planDate taskId : string) (sessionNumber : Z)
    (newStartTime : string) (sessionDuration : JS.number)
    (now : Z) (nowISO : string) :
  let conflictCheck :=
    checkTimeConflict getDay this planDate newStartTime sessionDuration
                      (sessionKey taskId (Some sessionNumber)) true in
  ConflictResult.hasConflict conflictCheck = true ->
  editSessionTime getDay JSON_stringify setItem this planDate taskId
                  sessionNumber newStartTime sessionDuration now nowISO
  = (EditResult.mk false (ConflictResult.conflictsWith conflictCheck), this).
Proof.
  cbv zeta. intros H. unfold editSessionTime. rewrite H. reflexivity.
Qed.

Lemma spec_reason_not_session_not_found this kind :
  spec_reason this kind <> "Session not found".
Proof. destruct kind; discriminate. Qed.

(** C10.  When the target session is not in the plan of the date,
    [editSessionTime] fails without touching the instance; its error is
    the conflict reason if the candidate time conflicts, and
    ['Session not found'] exactly when it does not: the conflict check
    comes first. *)
Theorem editSessionTime_conflict_before_lookup
    (this : SessionTimeEditor) (planDate taskId : string) (sessionNumber : Z)
    (newStartTime : string) (sessionDuration : JS.number)
    (now : Z) (nowISO : string) :
  findSession this planDate taskId sessionNumber = None ->
  let conflictCheck :=
    checkTimeConflict getDay this planDate newStartTime sessionDuration
                      (sessionKey taskId (Some sessionNumber)) true in
  let after :=
    editSessionTime getDay JSON_stringify setItem this planDate taskId
                    sessionNumber newStartTime sessionDuration now nowISO in
  EditResult.success (fst after) = false
  /\ snd after = this
  /\ (ConflictResult.hasConflict conflictCheck = true ->
      EditResult.error (fst after) = ConflictResult.conflictsWith conflictCheck)
  /\ (EditResult.error (fst after) = Some "Session not found"
      <-> ConflictResult.hasConflict conflictCheck = false).
Proof.
  intros Hmissing conflictCheck after.
  unfold after, editSessionTime. fold conflictCheck. rewrite Hmissing.
  assert (Hwhy : ConflictResult.hasConflict conflictCheck = true ->
                 exists kind, ConflictResult.conflictsWith conflictCheck
                              = Some (spec_reason this kind)).
  { unfold conflictCheck, checkTimeConflict. rewrite checkTimeConflictWith_spec.
    destruct (spec_checkConflict _ _ _ _ _ _) as [kind|]; [eauto|discriminate]. }
  destruct (ConflictResult.hasConflict conflictCheck) eqn:Hc;
    cbn [fst snd EditResult.success EditResult.error].
  - repeat split; try discriminate.
    destruct (Hwhy eq_refl) as [kind ->].
    intros [= Heq]. exfalso. exact (spec_reason_not_session_not_found _ _ Heq).
  - repeat split; discriminate.
Qed.

(** *** One edit per key *)

Lemma uniqueKeys_upsert planDate taskId sessionNumber edit edits :
  editKey edit = (planDate, taskId, sessionNumber) ->
  uniqueKeys edits ->
  uniqueKeys (upsert planDate taskId sessionNumber edit edits).
Proof.
  intros Hkey Huniq. unfold upsert, uniqueKeys in *.
  destruct (findIndex _ edits) as [i|] eqn:E.
  - destruct (findIndex_Some _ _ _ E) as (x & Hx & Hp & _).
    apply editMatches_key in Hp.
    change (List.map editKey (<[i:=edit]> edits))
      with (editKey <$> <[i:=edit]> edits).
    rewrite list_fmap_insert, list_insert_id; [exact Huniq|].
    rewrite list_lookup_fmap, Hx, Hkey, <- Hp. reflexivity.
  - rewrite List.map_app. cbn [List.map].
    apply NoDup_app. split; [exact Huniq|]. split; [|apply NoDup_singleton].
    intros k Hk Hk'. apply list_elem_of_singleton in Hk'. subst k.
    apply list_elem_of_In, List.in_map_iff in Hk as (x & Hx & Hin).
    pose proof (proj1 (findIndex_None _ _) E x Hin) as Hfalse.
    rewrite Hkey in Hx.
    apply editMatches_key in Hx. congruence.
Qed.

Lemma uniqueKeys_delete i edits :
  uniqueKeys edits -> uniqueKeys (delete i edits).
Proof.
  unfold uniqueKeys. intros H.
  eapply sublist_NoDup; [exact H|].
  change (editKey <$> delete i edits `sublist_of` editKey <$> edits).
  apply fmap_sublist, sublist_delete.
Qed.

Lemma uniqueKeys_filter p edits :
  uniqueKeys edits -> uniqueKeys (List.filter p edits).
Proof.
  unfold uniqueKeys. induction edits as [|e rest IH]; simpl; [auto|].
  intros H. apply NoDup_cons in H as [Hnotin Hrest].
  destruct (p e); [|auto]. simpl. apply NoDup_cons. split; [|auto].
  intros Hin. apply Hnotin.
  apply list_elem_of_In, List.in_map_iff in Hin as (x & Hx & Hin).
  apply List.filter_In in Hin as [Hin _].
  apply list_elem_of_In, List.in_map_iff. eauto.
Qed.

(** Every reachable instance holds at most one edit per key. *)
Lemma Reachable_uniqueKeys this :
  Reachable getDay JSON_parse JSON_stringify setItem this ->
  uniqueKeys (sessionTimeEdits this).
Proof.
  induction 1 as [plans cs st storage this _ Hempty
                 |earlier plans cs st payload this _ IH _ Hsame
                 |this planDate taskId n newStartTime d now nowISO _ IH
                 |this planDate taskId n _ IH
                 |this _ IH].
  - rewrite Hempty. apply NoDup_nil_2.
  - rewrite Hsame. exact IH.
  - destruct (EditResult.success
                (fst (editSessionTime getDay JSON_stringify setItem this planDate
                        taskId n newStartTime d now nowISO))) eqn:Hok.
    + destruct (editSessionTime_success _ _ _ _ _ _ _ _ Hok)
        as (_ & session & edit & _ & Hkey & _ & _ & _ & ->).
      apply uniqueKeys_upsert; assumption.
    + rewrite editSessionTime_failure by exact Hok. exact IH.
  - unfold removeEdit. destruct (findIndex _ _) as [i|]; cbn [snd]; [|exact IH].
    rewrite saveEdits_sessionTimeEdits. apply uniqueKeys_delete. exact IH.
  - unfold clearTemporaryEdits. rewrite saveEdits_sessionTimeEdits.
    apply uniqueKeys_filter. exact IH.
Qed.

(** With one edit per key, [splice] at the first match leaves no match. *)
Lemma find_delete_unique planDate taskId sessionNumber i edits :
  uniqueKeys edits ->
  findIndex (editMatches planDate taskId sessionNumber) edits = Some i ->
  List.find (editMatches planDate taskId sessionNumber) (delete i edits) = None.
Proof.
  intros Huniq Hi.
  destruct (findIndex_Some _ _ _ Hi) as (x & Hx & Hp & _).
  apply editMatches_key in Hp.
  apply find_none_iff. intros y Hy.
  destruct (editMatches planDate taskId sessionNumber y) eqn:Hm; [|reflexivity].
  exfalso. apply editMatches_key in Hm.
  unfold uniqueKeys in Huniq.
  rewrite <- (take_drop_middle edits i x Hx) in Huniq.
  rewrite List.map_app in Huniq. cbn [List.map] in Huniq.
  apply NoDup_app in Huniq as (_ & Hleft & Hright).
  apply NoDup_cons in Hright as [Hright _].
  rewrite delete_take_drop in Hy.
  apply List.in_app_or in Hy as [Hy|Hy].
  - apply (Hleft (editKey y)).
    + apply list_elem_of_In, List.in_map. exact Hy.
    + rewrite Hm, <- Hp. apply list_elem_of_here.
  - apply Hright. rewrite Hp, <- Hm.
    apply list_elem_of_In, List.in_map. exact Hy.
Qed.

(** C7.  On an instance the class itself produced: after a successful
    [editSessionTime] on a session's key, [removeEdit] on that key returns
    [true] and [getEditedSession] then returns the session as it is in the
    plan, with its own start and end times.  On any instance, [removeEdit]
    on a key that has no edit in the log returns [false] and leaves the
    instance as it was. *)
Theorem removeEdit_restores_session :
  (forall (this : SessionTimeEditor) (planDate : string)
          (session : StudySession.t) (n : Z) (newStartTime : string)
          (sessionDuration : JS.number) (now : Z) (nowISO : string),
      Reachable getDay JSON_parse JSON_stringify setItem this ->
      StudySession.sessionNumber session = Some n ->
      let edited :=
        editSessionTime getDay JSON_stringify setItem this planDate
          (StudySession.taskId session) n newStartTime sessionDuration
          now nowISO in
      EditResult.success (fst edited) = true ->
      let removed :=
        removeEdit JSON_stringify setItem (snd edited) planDate
                   (StudySession.taskId session) n in
      fst removed = true
      /\ getEditedSession (snd removed) session planDate = session)
  /\ (forall (this : SessionTimeEditor) (planDate taskId : string) (n : Z),
        (forall e, In e (sessionTimeEdits this) ->
                   editKey e <> (planDate, taskId, n)) ->
        removeEdit JSON_stringify setItem this planDate taskId n = (false, this)).
Proof.
  split.
  - intros this planDate session n newStartTime sessionDuration now nowISO
           Hreach Hn edited Hok removed.
    assert (Huniq : uniqueKeys (sessionTimeEdits (snd edited)))
      by (apply Reachable_uniqueKeys, reach_edit, Hreach).
    destruct (editSessionTime_success _ _ _ _ _ _ _ _ Hok)
      as (_ & found & edit & _ & Hkey & _ & _ & _ & Hlog).
    fold edited in Hlog.
    assert (Hfind : List.find (editMatches planDate (StudySession.taskId session) n)
                              (sessionTimeEdits (snd edited)) = Some edit)
      by (rewrite Hlog; apply find_upsert, editMatches_key, Hkey).
    destruct (findIndex_of_find _ _ _ Hfind) as [i Hi].
    unfold removed, removeEdit. rewrite Hi. cbn [fst snd].
    split; [reflexivity|].
    rewrite getEditedSession_saveEdits. unfold getEditedSession.
    cbn [sessionTimeEdits].
    rewrite (find_pointwise _ _ _
               (fun e => editMatchesSession_key session planDate n e Hn)).
    rewrite (find_delete_unique _ _ _ _ _ Huniq Hi). reflexivity.
  - intros this planDate taskId n Hnone. unfold removeEdit.
    destruct (findIndex _ _) as [i|] eqn:Hi; [|reflexivity].
    destruct (findIndex_Some _ _ _ Hi) as (x & Hx & Hp & _).
    exfalso. apply (Hnone x).
    + apply list_elem_of_In. eapply list_elem_of_lookup_2. exact Hx.
    + apply editMatches_key. exact Hp.
Qed.

(** *** The commitment resolver *)

(** C5 (as the code has it).  A commitment included on a date that has an
    entry for that date comes back with title, start time and end time
    each overridden by the entry's field when that field is present (and
    not the empty string) and kept otherwise; its type, like every other
    field, is the commitment's own, whatever the entry's [type]. *)
Theorem getCommitmentsForDate_overlay
    (this : SessionTimeEditor) (date : string) (commitment : FixedCommitment.t)
    (entries : gmap string Modification.t) (entry : Modification.t) :
  In commitment (fixedCommitments this) ->
  commitmentApplies date (getDay date) commitment = true ->
  FixedCommitment.modifiedOccurrences commitment = Some entries ->
  entries !! date = Some entry ->
  exists effective,
    In effective (getCommitmentsForDate getDay this date)
    /\ spec_overridden (Modification.title entry)
         (FixedCommitment.title commitment) (FixedCommitment.title effective)
    /\ spec_overridden (Modification.startTime entry)
         (FixedCommitment.startTime commitment)
         (FixedCommitment.startTime effective)
    /\ spec_overridden (Modification.endTime entry)
         (FixedCommitment.endTime commitment)
         (FixedCommitment.endTime effective)
    /\ FixedCommitment.type effective = FixedCommitment.type commitment
    /\ FixedCommitment.id effective = FixedCommitment.id commitment
    /\ FixedCommitment.recurring effective = FixedCommitment.recurring commitment
    /\ FixedCommitment.daysOfWeek effective = FixedCommitment.daysOfWeek commitment
    /\ FixedCommitment.specificDates effective
       = FixedCommitment.specificDates commitment
    /\ FixedCommitment.deletedOccurrences effective
       = FixedCommitment.deletedOccurrences commitment
    /\ FixedCommitment.modifiedOccurrences effective
       = FixedCommitment.modifiedOccurrences commitment.
Proof.
  intros Hin Happlies Hentries Hentry.
  exists (applyModification date commitment). split.
  - unfold getCommitmentsForDate. apply List.in_map, List.filter_In. auto.
  - unfold applyModification. rewrite Hentries. cbn [mbind option_bind].
    rewrite Hentry. cbn.
    assert (Hfield : forall field original,
               spec_overridden field original (JS.or_string field original)).
    { intros [[|c v]|] original; reflexivity. }
    repeat split; apply Hfield.
Qed.

Lemma applyModification_id date commitment :
  FixedCommitment.id (applyModification date commitment)
  = FixedCommitment.id commitment.
Proof. unfold applyModification. destruct (_ ≫= _); reflexivity. Qed.

(** C8 (as the code has it).  The resolver filters and overlays without
    reordering: what it returns is the list the editor was given, each
    commitment with the entry of the date laid over it, with the
    commitments that do not fall on the date left out and nothing moved.
    In particular the ids it returns are, in order, among the ids it was
    given. *)
Theorem getCommitmentsForDate_keeps_order
    (this : SessionTimeEditor) (date : string) :
  getCommitmentsForDate getDay this date
    `sublist_of` List.map (applyModification date) (fixedCommitments this)
  /\ List.map FixedCommitment.id (getCommitmentsForDate getDay this date)
       `sublist_of` List.map FixedCommitment.id (fixedCommitments this).
Proof.
  assert (Horder : getCommitmentsForDate getDay this date
            `sublist_of` List.map (applyModification date) (fixedCommitments this)).
  { unfold getCommitmentsForDate. generalize (getDay date) as dayOfWeek.
    intros dayOfWeek. induction (fixedCommitments this) as [|c rest IH]; simpl.
    - constructor.
    - destruct (commitmentApplies date dayOfWeek c); simpl.
      + apply sublist_skip. exact IH.
      + apply sublist_cons. exact IH. }
  split; [exact Horder|].
  apply (fmap_sublist FixedCommitment.id) in Horder.
  change (List.map FixedCommitment.id (getCommitmentsForDate getDay this date)
            `sublist_of`
          List.map FixedCommitment.id
            (List.map (applyModification date) (fixedCommitments this)))
    in Horder.
  rewrite List.map_map in Horder.
  rewrite (List.map_ext _ FixedCommitment.id
             (fun c => applyModification_id date c)) in Horder.
  exact Horder.
Qed.

(** *** Suggestions attached to a conflict *)

(** C6 (as the code has it).  A work-day conflict carries an empty
    suggestion list.  A study-window conflict carries the list the
    generator gives when suggestions are requested, and an empty list
    otherwise, as the two overlap conflicts do. *)
Theorem checkTimeConflict_suggestions_by_kind
    (this : SessionTimeEditor) (planDate newStartTime : string)
    (sessionDuration : JS.number) (excludeSessionId : string)
    (includeSuggestions : bool) (kind : ConflictKind) :
  spec_checkConflict getDay this planDate newStartTime sessionDuration
                     excludeSessionId = Some kind ->
  let result :=
    checkTimeConflict getDay this planDate newStartTime sessionDuration
                      excludeSessionId includeSuggestions in
  ConflictResult.hasConflict result = true
  /\ ConflictResult.conflictsWith result = Some (spec_reason this kind)
  /\ ConflictResult.suggestedTimes result
     = Some (match kind with
             | WorkDay => []
             | StudyWindow | SessionOverlap _ | CommitmentOverlap _ =>
                 if includeSuggestions
                 then generateSuggestedTimes getDay this planDate
                                             sessionDuration excludeSessionId
                 else []
             end).
Proof.
  intros Hkind. cbv zeta. unfold checkTimeConflict.
  rewrite checkTimeConflictWith_spec, Hkind.
  destruct kind; repeat split; reflexivity.
Qed.

(** *** Loading the persisted log *)

(** C9.  When a payload is present and [JSON.parse] throws on it, the
    constructor still returns an instance, built on the arguments given
    and with an empty edit log. *)
Theorem constructor_tolerates_unparsable_payload
    (plans : list StudyPlan.t) (commitments : list FixedCommitment.t)
    (userSettings : UserSettings.t) (payload error : string) :
  JSON_parse payload = JS.Thrown error ->
  exists this,
    constructor JSON_parse plans commitments userSettings (Some payload)
      = JS.Returned this
    /\ sessionTimeEdits this = []
    /\ studyPlans this = plans
    /\ fixedCommitments this = commitments
    /\ settings this = userSettings.
Proof.
  intros Hthrow. eexists. split; [reflexivity|].
  cbn [sessionTimeEdits studyPlans fixedCommitments settings].
  rewrite Hthrow. destruct (JS.truthy_string payload); repeat split.
Qed.

End Properties.

(** ** The theorems at work on the example plan *)

Example getDayUTC_wednesday : getDayUTC "2024-01-10" = Some 3.
Proof. reflexivity. Qed.

Example getDayUTC_saturday : getDayUTC "2024-01-13" = Some 6.
Proof. reflexivity. Qed.

(** §8: moving [T1#1] to 09:30 for one hour collides with the gym. *)
Example scenario_overlaps_gym :
  checkTimeConflict getDayUTC Example.editor "2024-01-10" "09:30" (JS.ofZ 1)
                    "T1-1" true
  = ConflictResult.mk true (Some "Overlaps with Gym (10:00 - 11:00)")
                      (Some ["08:00"; "08:30"; "09:00"]).
Proof. vm_compute. reflexivity. Qed.

(** The generator on the example: three slots from 08:00, each of them free
    when checked again. *)
Lemma generateSuggestedTimes_scan_witness :
  generateSuggestedTimes getDayUTC Example.editor "2024-01-10" (JS.ofZ 1) "T1-1"
  = ["08:00"; "08:30"; "09:00"]
  /\ checkTimeConflict getDayUTC Example.editor "2024-01-10" "08:30" (JS.ofZ 1)
                       "T1-1" true
     = ConflictResult.mk false None None.
Proof.
  split; [vm_compute; reflexivity|].
  apply (proj2 (proj2 (generateSuggestedTimes_scan getDayUTC Example.editor
                         "2024-01-10" (JS.ofZ 1) "T1-1"))).
  vm_compute. right. left. reflexivity.
Defined.

(** Moving [T2#1], an hour and a half long, to 15:15. *)
Lemma editSessionTime_getEditedSession_witness :
  let after :=
    editSessionTime getDayUTC Example.stringify Example.setItem Example.editor
      "2024-01-10" "T2" 1 "15:15" (JS.Num (3 # 2)) 1704880800000
      "2024-01-10T10:00:00.000Z" in
  let edited := getEditedSession (snd after) Example.T2_1 "2024-01-10" in
  EditResult.success (fst after) = true
  /\ StudySession.startTime edited = "15:15"
  /\ StudySession.endTime edited = "16:45"
  /\ JS.strict_eq (timeToMinutes (StudySession.endTime edited))
                  (JS.add (timeToMinutes (StudySession.startTime edited))
                          (JS.mul (StudySession.allocatedHours edited)
                                  (JS.ofZ 60))) = true.
Proof.
  cbv zeta.
  assert (Hok : EditResult.success
                  (fst (editSessionTime getDayUTC Example.stringify
                          Example.setItem Example.editor "2024-01-10" "T2" 1
                          "15:15" (JS.Num (3 # 2)) 1704880800000
                          "2024-01-10T10:00:00.000Z")) = true)
    by (vm_compute; reflexivity).
  destruct (editSessionTime_getEditedSession getDayUTC Example.stringify
              Example.setItem Example.editor "2024-01-10" Example.T2_1 1 "15:15"
              (JS.Num (3 # 2)) 1704880800000 "2024-01-10T10:00:00.000Z"
              eq_refl Hok) as [Hedited Hminutes].
  change (StudySession.taskId Example.T2_1) with "T2" in Hedited, Hminutes.
  split; [exact Hok|].
  split; [rewrite Hedited; reflexivity|].
  split; [rewrite Hedited; vm_compute; reflexivity|].
  apply (Hminutes 1005); [lia | vm_compute; reflexivity | reflexivity].
Defined.

(** Moving [T1#1] to 09:30 is refused and nothing changes. *)
Lemma editSessionTime_conflict_no_change_witness :
  editSessionTime getDayUTC Example.stringify Example.setItem Example.editor
    "2024-01-10" "T1" 1 "09:30" (JS.ofZ 1) 1704880800000
    "2024-01-10T10:00:00.000Z"
  = (EditResult.mk false (Some "Overlaps with Gym (10:00 - 11:00)"),
     Example.editor).
Proof.
  refine (eq_trans
            (editSessionTime_conflict_no_change getDayUTC Example.stringify
               Example.setItem Example.editor "2024-01-10" "T1" 1 "09:30"
               (JS.ofZ 1) 1704880800000 "2024-01-10T10:00:00.000Z" _) _);
    vm_compute; reflexivity.
Defined.

(** A session [T9#1] that is not in the plan: at 09:30 the overlap with
    [T1#1] is reported, at 12:00 the missing session is. *)
Lemma editSessionTime_conflict_before_lookup_witness :
  EditResult.error
    (fst (editSessionTime getDayUTC Example.stringify Example.setItem
            Example.editor "2024-01-10" "T9" 1 "09:30" (JS.ofZ 1)
            1704880800000 "2024-01-10T10:00:00.000Z"))
  = Some "Overlaps with T1 session (09:00 - 10:00)"
  /\ EditResult.error
       (fst (editSessionTime getDayUTC Example.stringify Example.setItem
               Example.editor "2024-01-10" "T9" 1 "12:00" (JS.ofZ 1)
               1704880800000 "2024-01-10T10:00:00.000Z"))
     = Some "Session not found".
Proof.
  split.
  - destruct (editSessionTime_conflict_before_lookup getDayUTC Example.stringify
                Example.setItem Example.editor "2024-01-10" "T9" 1 "09:30"
                (JS.ofZ 1) 1704880800000 "2024-01-10T10:00:00.000Z" eq_refl)
      as (_ & _ & Hconflict & _).
    rewrite Hconflict; vm_compute; reflexivity.
  - destruct (editSessionTime_conflict_before_lookup getDayUTC Example.stringify
                Example.setItem Example.editor "2024-01-10" "T9" 1 "12:00"
                (JS.ofZ 1) 1704880800000 "2024-01-10T10:00:00.000Z" eq_refl)
      as (_ & _ & _ & Hmissing).
    apply Hmissing. vm_compute. reflexivity.
Defined.

Lemma Example_editor_reachable :
  Reachable getDayUTC Example.parse Example.stringify Example.setItem
            Example.editor.
Proof.
  apply (reach_empty getDayUTC Example.parse Example.stringify Example.setItem
           [Example.plan] [Example.gym] Example.settings None);
    reflexivity.
Defined.

(** Edit [T1#1], remove the edit: the session is back at 09:00 - 10:00; and
    removing an edit from the empty log does nothing. *)
Lemma removeEdit_restores_session_witness :
  let edited :=
    editSessionTime getDayUTC Example.stringify Example.setItem Example.editor
      "2024-01-10" "T1" 1 "08:15" (JS.Num (3 # 2)) 1704880800000
      "2024-01-10T10:00:00.000Z" in
  let removed :=
    removeEdit Example.stringify Example.setItem (snd edited) "2024-01-10" "T1" 1 in
  (EditResult.success (fst edited) = true
   /\ fst removed = true
   /\ getEditedSession (snd removed) Example.T1_1 "2024-01-10" = Example.T1_1)
  /\ removeEdit Example.stringify Example.setItem Example.editor
                "2024-01-10" "T1" 1
     = (false, Example.editor).
Proof.
  cbv zeta.
  destruct (removeEdit_restores_session getDayUTC Example.parse Example.stringify
              Example.setItem) as [Hedit Hnone].
  assert (Hok : EditResult.success
                  (fst (editSessionTime getDayUTC Example.stringify
                          Example.setItem Example.editor "2024-01-10" "T1" 1
                          "08:15" (JS.Num (3 # 2)) 1704880800000
                          "2024-01-10T10:00:00.000Z")) = true)
    by (vm_compute; reflexivity).
  split.
  - split; [exact Hok|].
    exact (Hedit Example.editor "2024-01-10" Example.T1_1 1 "08:15"
             (JS.Num (3 # 2)) 1704880800000 "2024-01-10T10:00:00.000Z"
             Example_editor_reachable eq_refl Hok).
  - apply Hnone. intros e [].
Defined.

(** Reachability matters above.  A log with two edits for one key, which no
    sequence of the class's operations builds and only a foreign payload can
    hold, keeps the second after one [removeEdit]. *)
Remark removeEdit_on_duplicated_key :
  let stale :=
    SessionTimeEdit.mk "edit-1" "2024-01-10" "T1" 1 "09:00" "11:00" "12:00"
                       "2024-01-09T08:00:00.000Z" (Some true) in
  let loaded :=
    mkEditor [Example.plan] [Example.gym] Example.settings [stale; stale] None in
  let removed :=
    removeEdit Example.stringify Example.setItem loaded "2024-01-10" "T1" 1 in
  ~ uniqueKeys (sessionTimeEdits loaded)
  /\ fst removed = true
  /\ StudySession.startTime
       (getEditedSession (snd removed) Example.T1_1 "2024-01-10") = "11:00".
Proof.
  cbv zeta. split; [|split; reflexivity].
  unfold uniqueKeys. cbn. intros Hdup.
  apply NoDup_cons in Hdup as [Hnotin _]. apply Hnotin. left.
Qed.

(** The seminar's occurrence of 2024-01-10 is moved to 16:00 - 17:00; title
    and type stay. *)
Lemma getCommitmentsForDate_overlay_witness :
  exists effective,
    In effective
       (getCommitmentsForDate getDayUTC Example.editor_commitments "2024-01-10")
    /\ FixedCommitment.title effective = "Seminar"
    /\ FixedCommitment.startTime effective = "16:00"
    /\ FixedCommitment.endTime effective = "17:00"
    /\ FixedCommitment.type effective = CommitmentType.class.
Proof.
  destruct (getCommitmentsForDate_overlay getDayUTC Example.editor_commitments
              "2024-01-10" Example.seminar {[ "2024-01-10" := Example.moved ]}
              Example.moved)
    as (effective & Hin & Htitle & Hstart & Hend & Htype & _).
  - right. right. left. reflexivity.
  - vm_compute. reflexivity.
  - reflexivity.
  - vm_compute. reflexivity.
  - exists effective. repeat split; assumption.
Defined.

(** A Saturday: the conflict is of the work-day kind and carries no
    suggestion. *)
Lemma checkTimeConflict_suggestions_by_kind_witness :
  checkTimeConflict getDayUTC Example.editor "2024-01-13" "09:00" (JS.ofZ 1)
                    "T1-1" true
  = ConflictResult.mk true (Some "Not a work day") (Some []).
Proof.
  destruct (checkTimeConflict_suggestions_by_kind getDayUTC Example.editor
              "2024-01-13" "09:00" (JS.ofZ 1) "T1-1" true WorkDay)
    as (Hhas & Hwhy & Hsuggested).
  - vm_compute. reflexivity.
  - destruct (checkTimeConflict _ _ _ _ _ _ _) as [has why suggested].
    simpl in *. subst. reflexivity.
Defined.

(** A truncated payload. *)
Lemma constructor_tolerates_unparsable_payload_witness :
  exists this,
    constructor Example.parse [Example.plan] [Example.gym] Example.settings
                (Some "[{")
      = JS.Returned this
    /\ sessionTimeEdits this = [].
Proof.
  destruct (constructor_tolerates_unparsable_payload Example.parse
              [Example.plan] [Example.gym] Example.settings "[{"
              "SyntaxError: Unexpected token" eq_refl)
    as (this & Hbuilt & Hlog & _).
  exists this. split; assumption.
Defined.

(** *** Where the code departs from the specification's words *)

(** C3, as stated, fails: [T1#1] of the plan is allocated one hour; moved to
    11:00 with a duration of two hours the edit succeeds, the session then
    reads 11:00 - 13:00 with its one allocated hour, and its end is not its
    start plus its allocated hours. *)
Lemma edited_end_is_not_start_plus_allocatedHours :
  let after :=
    editSessionTime getDayUTC Example.stringify Example.setItem Example.editor
      "2024-01-10" "T1" 1 "11:00" (JS.ofZ 2) 1704880800000
      "2024-01-10T10:00:00.000Z" in
  let edited := getEditedSession (snd after) Example.T1_1 "2024-01-10" in
  findSession Example.editor "2024-01-10" "T1" 1 = Some Example.T1_1
  /\ EditResult.success (fst after) = true
  /\ StudySession.startTime edited = "11:00"
  /\ StudySession.endTime edited = "13:00"
  /\ StudySession.allocatedHours edited = JS.ofZ 1
  /\ timeToMinutes (StudySession.endTime edited) = JS.ofZ 780
  /\ JS.add (timeToMinutes (StudySession.startTime edited))
            (JS.mul (StudySession.allocatedHours edited) (JS.ofZ 60))
     = JS.ofZ 720
  /\ JS.strict_eq (timeToMinutes (StudySession.endTime edited))
                  (JS.add (timeToMinutes (StudySession.startTime edited))
                          (JS.mul (StudySession.allocatedHours edited)
                                  (JS.ofZ 60))) = false.
Proof. cbv zeta. repeat split; vm_compute; reflexivity. Qed.

(** C5, as stated, fails: the lecture is included on 2024-01-10 and its entry
    for that date sets [type] to ['work'], yet no commitment the resolver
    returns has type ['work']; the lecture comes back a ['class']. *)
Lemma modification_type_not_applied :
  In Example.lecture (fixedCommitments Example.editor_commitments)
  /\ commitmentApplies "2024-01-10" (getDayUTC "2024-01-10") Example.lecture = true
  /\ (FixedCommitment.modifiedOccurrences Example.lecture
        ≫= (fun entries => entries !! "2024-01-10")) = Some Example.retyped
  /\ Modification.type Example.retyped = Some CommitmentType.work
  /\ List.map (fun c => (FixedCommitment.id c, FixedCommitment.type c))
       (getCommitmentsForDate getDayUTC Example.editor_commitments "2024-01-10")
     = [("c-lecture", CommitmentType.class); ("c-gym", CommitmentType.other);
        ("c-seminar", CommitmentType.class)].
Proof.
  split; [left; reflexivity|].
  repeat split; vm_compute; reflexivity.
Qed.

(** C6, as stated, fails: 07:00 is before the study window, the conflict is
    of the study-window kind, and the result carries three suggestions. *)
Lemma study_window_conflict_has_suggestions :
  spec_checkConflict getDayUTC Example.editor "2024-01-10" "07:00" (JS.ofZ 1)
                     "T1-1" = Some StudyWindow
  /\ checkTimeConflict getDayUTC Example.editor "2024-01-10" "07:00" (JS.ofZ 1)
                       "T1-1" true
     = ConflictResult.mk true (Some "Outside study window (8:00 - 20:00)")
                         (Some ["08:00"; "08:30"; "09:00"]).
Proof. split; vm_compute; reflexivity. Qed.

(** C8, as stated, fails: the resolver returns the lecture (14:00) before the
    gym (10:00), in the order it was given them. *)
Lemma getCommitmentsForDate_not_sorted :
  List.map FixedCommitment.startTime
    (getCommitmentsForDate getDayUTC Example.editor_commitments "2024-01-10")
  = ["14:00"; "10:00"; "16:00"]
  /\ spec_sortedByStart
       (getCommitmentsForDate getDayUTC Example.editor_commitments "2024-01-10")
     = false.
Proof. split; vm_compute; reflexivity. Qed.

(** ** Further properties of the time arithmetic *)

Lemma toString_Qeq (p q : Q) : p == q -> JS.toString (JS.Num p) = JS.toString (JS.Num q).
Proof. intros H. unfold JS.toString. rewrite (Qred_complete _ _ H). reflexivity. Qed.

Lemma Qtrunc_Qeq (p q : Q) : p == q -> JS.Qtrunc p = JS.Qtrunc q.
Proof.
  intros H. unfold JS.Qtrunc.
  assert (Hb : Qle_bool 0 p = Qle_bool 0 q).
  { destruct (Qle_bool 0 p) eqn:E1, (Qle_bool 0 q) eqn:E2; try reflexivity.
    - apply Qle_bool_iff in E1. rewrite H in E1. apply Qle_bool_iff in E1. congruence.
    - apply Qle_bool_iff in E2. rewrite <- H in E2. apply Qle_bool_iff in E2. congruence. }
  rewrite Hb. destruct (Qle_bool 0 q).
  - apply Qfloor_comp. exact H.
  - apply Qceiling_comp. exact H.
Qed.

(** [minutesToTime] does not see how a number is written as a fraction. *)
Lemma minutesToTime_Qeq (p q : Q) :
  p == q -> minutesToTime (JS.Num p) = minutesToTime (JS.Num q).
Proof.
  intros H. unfold minutesToTime, JS.div, JS.rem, JS.floor, JS.ofZ.
  change (Qeq_bool (inject_Z 60) 0) with false. cbv iota.
  assert (Hdiv : p / inject_Z 60 == q / inject_Z 60) by (rewrite H; reflexivity).
  rewrite (Qfloor_comp _ _ Hdiv), (Qtrunc_Qeq _ _ Hdiv).
  f_equal. f_equal. f_equal. apply toString_Qeq. rewrite H. reflexivity.
Qed.

Lemma minutesToTime_clock (h m : Z) :
  0 <= h -> 0 <= m < 60 ->
  minutesToTime (JS.ofZ (h * 60 + m)) = clock h m.
Proof.
  intros Hh Hm.
  assert (Hd : (h * 60 + m) / 60 = h) by (rewrite Z.div_add_l by lia; rewrite Z.div_small; lia).
  assert (Hfloor : Qfloor (inject_Z (h * 60 + m) / inject_Z 60) = h)
    by (rewrite <- Zdiv_Qdiv; exact Hd).
  assert (Hnonneg : Qle_bool 0 (inject_Z (h * 60 + m) / inject_Z 60) = true).
  { apply Qle_bool_iff. apply Qle_shift_div_l; [reflexivity|].
    rewrite Qmult_0_l, <- (Zle_Qle 0). lia. }
  unfold minutesToTime, clock, JS.div, JS.rem, JS.floor, JS.ofZ, JS.Qtrunc.
  change (Qeq_bool (inject_Z 60) 0) with false. cbv iota.
  rewrite Hnonneg, Hfloor.
  rewrite (toString_integer (inject_Z h) h) by reflexivity.
  rewrite (toString_integer _ m); [reflexivity|].
  unfold Qeq. simpl. lia.
Qed.

Lemma padStart_two_digits (z : Z) :
  0 <= z < 100 -> String.length (JS.padStart 2 "0" (JS.Z_toString z)) = 2%nat.
Proof.
  intros Hz.
  assert (exists n, (n < 100)%nat /\ z = Z.of_nat n) as (n & Hn & ->)
    by (exists (Z.to_nat z); lia).
  clear Hz. do 100 (destruct n as [|n]; [reflexivity|]). lia.
Qed.

Lemma short_uint_below_100 (u : Decimal.uint) :
  (String.length (NilEmpty.string_of_uint u) <= 2)%nat -> Z.of_uint u < 100.
Proof.
  intros H.
  destruct u as [|u|u|u|u|u|u|u|u|u|u]; [reflexivity|..];
    (destruct u as [|u|u|u|u|u|u|u|u|u|u]; [reflexivity|..];
     (destruct u as [|u|u|u|u|u|u|u|u|u|u]; [reflexivity|simpl in H; lia..])).
Qed.

Lemma length_append (a b : string) :
  String.length (a +:+ b) = (String.length a + String.length b)%nat.
Proof. induction a as [|c a IH]; simpl; [reflexivity|]. rewrite IH. reflexivity. Qed.

(** The minutes a rendered clock time reads back as. *)
Lemma timeToMinutes_clock (h m : Z) :
  0 <= h -> 0 <= m ->
  exists q, timeToMinutes (clock h m) = JS.Num q /\ q == inject_Z (h * 60 + m).
Proof.
  intros Hh Hm. unfold clock.
  destruct (padStart_Z_toString h Hh) as (uh & Hhn & Hhv & ->).
  destruct (padStart_Z_toString m Hm) as (um & Hmn & Hmv & ->).
  unfold timeToMinutes.
  change (":" +:+ NilEmpty.string_of_uint um)
    with (String ":" (NilEmpty.string_of_uint um)).
  rewrite split_app_sep
    by (apply digitString_noChar; [reflexivity|apply string_of_uint_digits]).
  rewrite split_noChar
    by (apply digitString_noChar; [reflexivity|apply string_of_uint_digits]).
  cbn [List.map]. rewrite !Number_string_of_uint by assumption.
  rewrite Hhv, Hmv. unfold JS.ofZ. cbn [JS.mul].
  destruct (JS.truthy (JS.Num (inject_Z m))) eqn:Ht; cbn [JS.add];
    eexists; (split; [reflexivity|]).
  - rewrite <- inject_Z_mult, <- inject_Z_plus. reflexivity.
  - simpl in Ht. apply negb_false_iff, Qeq_bool_iff in Ht.
    rewrite inject_Z_plus, inject_Z_mult, Ht. reflexivity.
Qed.

(** X1.  [minutesToTime] renders a whole number of minutes [h*60 + m], with
    [0 <= m < 60], as [h] and [m] in decimal, each padded with a zero to
    two digits, around a colon; up to 99 hours that is exactly five
    characters.  Nothing clamps the hours: from 100 hours on the text is
    longer. *)
Theorem minutesToTime_renders_HH_MM (h m : Z) :
  0 <= h -> 0 <= m < 60 ->
  minutesToTime (JS.ofZ (h * 60 + m))
  = JS.padStart 2 "0" (JS.Z_toString h) +:+ ":"
      +:+ JS.padStart 2 "0" (JS.Z_toString m)
  /\ (h < 100 -> String.length (minutesToTime (JS.ofZ (h * 60 + m))) = 5%nat)
  /\ (100 <= h -> (5 < String.length (minutesToTime (JS.ofZ (h * 60 + m))))%nat).
Proof.
  intros Hh Hm. rewrite (minutesToTime_clock h m Hh Hm). unfold clock.
  split; [reflexivity|]. split.
  - intros Hlt. rewrite !length_append, !padStart_two_digits by lia. reflexivity.
  - intros Hge. rewrite !length_append, (padStart_two_digits m) by lia.
    destruct (padStart_Z_toString h Hh) as (u & Hu & Hv & ->).
    pose proof (short_uint_below_100 u) as Hshort.
    cbn [String.length]. lia.
Qed.

(** X2.  Rendering a whole, non-negative number of minutes and parsing the
    text back gives the same number. *)
Theorem timeToMinutes_of_minutesToTime (total : Z) :
  0 <= total ->
  JS.strict_eq (timeToMinutes (minutesToTime (JS.ofZ total))) (JS.ofZ total) = true.
Proof.
  intros Hpos. apply (timeToMinutes_minutesToTime (inject_Z total) total Hpos).
  reflexivity.
Qed.

Lemma timeToMinutes_of_minutesToTime_witness :
  JS.strict_eq (timeToMinutes (minutesToTime (JS.ofZ 1439))) (JS.ofZ 1439) = true
  /\ minutesToTime (JS.ofZ 1439) = "23:59".
Proof.
  split; [apply (timeToMinutes_of_minutesToTime 1439); lia | vm_compute; reflexivity].
Defined.

(** X3.  Parsing a clock time written with two-digit padding (hours [h],
    minutes [m < 60]) and rendering the minutes gives the same text. *)
Theorem minutesToTime_of_timeToMinutes (h m : Z) :
  0 <= h -> 0 <= m < 60 ->
  let text :=
    JS.padStart 2 "0" (JS.Z_toString h) +:+ ":"
      +:+ JS.padStart 2 "0" (JS.Z_toString m) in
  minutesToTime (timeToMinutes text) = text.
Proof.
  intros Hh Hm. cbv zeta. fold (clock h m).
  destruct (timeToMinutes_clock h m Hh (proj1 Hm)) as (q & -> & Hq).
  rewrite (minutesToTime_Qeq _ _ Hq). apply (minutesToTime_clock h m Hh Hm).
Qed.

Lemma minutesToTime_of_timeToMinutes_witness :
  minutesToTime (timeToMinutes "09:05") = "09:05".
Proof.
  exact (minutesToTime_of_timeToMinutes 9 5 ltac:(lia) ltac:(lia)).
Defined.

Lemma split_second_part (hs ms rest : string) :
  JS.noChar ":" hs = true -> JS.noChar ":" ms = true ->
  JS.split ":" (hs +:+ String ":" (ms +:+ String ":" rest))
  = hs :: ms :: JS.split ":" rest.
Proof.
  intros Hh Hm. rewrite (split_app_sep ":" hs _ Hh), (split_app_sep ":" ms _ Hm).
  reflexivity.
Qed.

(** X4.  [timeToMinutes] is lenient about the minutes: a text without a
    colon counts as whole hours; so does one whose minutes part is empty,
    zero or not a number; and whatever follows a second colon (seconds) is
    ignored. *)
Theorem timeToMinutes_lenient (hs ms rest : string) :
  JS.noChar ":" hs = true ->
  JS.noChar ":" ms = true ->
  timeToMinutes hs = JS.add (JS.mul (JS.Number hs) (JS.ofZ 60)) (JS.ofZ 0)
  /\ (JS.truthy (JS.Number ms) = false ->
      timeToMinutes (hs +:+ String ":" ms)
      = JS.add (JS.mul (JS.Number hs) (JS.ofZ 60)) (JS.ofZ 0))
  /\ timeToMinutes (hs +:+ String ":" (ms +:+ String ":" rest))
     = timeToMinutes (hs +:+ String ":" ms).
Proof.
  intros Hh Hm. unfold timeToMinutes. split; [|split].
  - rewrite (split_noChar ":" hs Hh). reflexivity.
  - intros Hfalsy.
    rewrite (split_app_sep ":" hs ms Hh), (split_noChar ":" ms Hm).
    cbn [List.map]. rewrite Hfalsy. reflexivity.
  - rewrite (split_second_part hs ms rest Hh Hm).
    rewrite (split_app_sep ":" hs ms Hh), (split_noChar ":" ms Hm).
    reflexivity.
Qed.

Lemma timeToMinutes_lenient_witness :
  timeToMinutes "9" = JS.add (JS.mul (JS.Number "9") (JS.ofZ 60)) (JS.ofZ 0)
  /\ timeToMinutes "9:xx" = JS.add (JS.mul (JS.Number "9") (JS.ofZ 60)) (JS.ofZ 0)
  /\ timeToMinutes "09:30:45" = timeToMinutes "09:30".
Proof.
  destruct (timeToMinutes_lenient "9" "xx" "" eq_refl eq_refl) as (H1 & H2 & _).
  destruct (timeToMinutes_lenient "09" "30" "45" eq_refl eq_refl) as (_ & _ & H3).
  split; [exact H1|]. split; [exact (H2 eq_refl) | exact H3].
Defined.

Lemma minutesToTime_renders_HH_MM_witness :
  minutesToTime (JS.ofZ (9 * 60 + 5)) = "09:05"
  /\ String.length (minutesToTime (JS.ofZ (9 * 60 + 5))) = 5%nat
  /\ minutesToTime (JS.ofZ (100 * 60 + 0)) = "100:00".
Proof.
  destruct (minutesToTime_renders_HH_MM 9 5 ltac:(lia) ltac:(lia)) as (H1 & H2 & _).
  destruct (minutesToTime_renders_HH_MM 100 0 ltac:(lia) ltac:(lia)) as (H3 & _ & _).
  split; [exact H1|]. split; [apply H2; lia | exact H3].
Defined.

(** ** Further properties of the conflict checker and the generator *)

Section CheckerProperties.

Variable getDay : string -> option Z.
Variable JSON_stringify : list SessionTimeEdit.t -> string.
Variable setItem : string -> JS.outcome unit.

Lemma generateSuggestedTimes_spec this planDate sessionDuration excludeSessionId :
  generateSuggestedTimes getDay this planDate sessionDuration excludeSessionId
  = spec_suggestTimes getDay this planDate sessionDuration excludeSessionId.
Proof.
  unfold generateSuggestedTimes, spec_suggestTimes.
  rewrite suggestionLoop_take by (cbn; lia). reflexivity.
Qed.

Lemma hasConflict_spec this planDate newStartTime sessionDuration
    excludeSessionId includeSuggestions :
  ConflictResult.hasConflict
    (checkTimeConflict getDay this planDate newStartTime sessionDuration
                       excludeSessionId includeSuggestions)
  = match spec_checkConflict getDay this planDate newStartTime sessionDuration
                             excludeSessionId with
    | Some _ => true
    | None => false
    end.
Proof.
  unfold checkTimeConflict. rewrite checkTimeConflictWith_spec.
  destruct (spec_checkConflict _ _ _ _ _ _); reflexivity.
Qed.

(** Two instances that differ only in commitments resolving to the same
    list for a date give the same check for that date. *)
Lemma spec_checkConflict_agree this1 this2 planDate newStartTime sessionDuration
    excludeSessionId :
  settings this1 = settings this2 ->
  studyPlans this1 = studyPlans this2 ->
  sessionTimeEdits this1 = sessionTimeEdits this2 ->
  getCommitmentsForDate getDay this1 planDate
    = getCommitmentsForDate getDay this2 planDate ->
  spec_checkConflict getDay this1 planDate newStartTime sessionDuration
                     excludeSessionId
  = spec_checkConflict getDay this2 planDate newStartTime sessionDuration
                       excludeSessionId.
Proof.
  intros Hs Hp He Hc.
  unfold spec_checkConflict, spec_studyWindowCheck, spec_workDayCheck,
    spec_sessionOverlapCheck, spec_commitmentOverlapCheck, spec_otherSessions,
    getEditedSession.
  rewrite Hs, Hp, He, Hc. reflexivity.
Qed.

Lemma checkTimeConflict_agree this1 this2 planDate newStartTime sessionDuration
    excludeSessionId includeSuggestions :
  settings this1 = settings this2 ->
  studyPlans this1 = studyPlans this2 ->
  sessionTimeEdits this1 = sessionTimeEdits this2 ->
  getCommitmentsForDate getDay this1 planDate
    = getCommitmentsForDate getDay this2 planDate ->
  checkTimeConflict getDay this1 planDate newStartTime sessionDuration
                    excludeSessionId includeSuggestions
  = checkTimeConflict getDay this2 planDate newStartTime sessionDuration
                      excludeSessionId includeSuggestions.
Proof.
  intros Hs Hp He Hc.
  assert (Hgen : generateSuggestedTimes getDay this1 planDate sessionDuration
                                        excludeSessionId
                 = generateSuggestedTimes getDay this2 planDate sessionDuration
                                          excludeSessionId).
  { rewrite !generateSuggestedTimes_spec. unfold spec_suggestTimes.
    rewrite Hs. f_equal. apply List.filter_ext. intros candidate.
    rewrite !hasConflict_spec.
    rewrite (spec_checkConflict_agree this1 this2 planDate candidate
               sessionDuration excludeSessionId Hs Hp He Hc).
    reflexivity. }
  unfold checkTimeConflict. rewrite !checkTimeConflictWith_spec.
  rewrite (spec_checkConflict_agree this1 this2 planDate newStartTime
             sessionDuration excludeSessionId Hs Hp He Hc).
  destruct (spec_checkConflict _ _ _ _ _ _) as [kind|]; [|reflexivity].
  unfold spec_reason, suggestionsFor. rewrite Hs, Hgen. reflexivity.
Qed.

(** X5.  A commitment that does not fall on a date has no influence on any
    check for that date: when its occurrence of the date is deleted, or it
    recurs on other week days, or it is a one-off for other dates, the
    check gives the same result, suggestions included, as without it. *)
Theorem checkTimeConflict_ignores_absent_commitment
    (plans : list StudyPlan.t) (before after : list FixedCommitment.t)
    (commitment : FixedCommitment.t) (userSettings : UserSettings.t)
    (edits : list SessionTimeEdit.t) (storage : option string)
    (planDate newStartTime : string) (sessionDuration : JS.number)
    (excludeSessionId : string) (includeSuggestions : bool) :
  (exists deleted,
      FixedCommitment.deletedOccurrences commitment = Some deleted
      /\ In planDate deleted)
  \/ (FixedCommitment.recurring commitment = true
      /\ includes_day (FixedCommitment.daysOfWeek commitment) (getDay planDate)
         = false)
  \/ (FixedCommitment.recurring commitment = false
      /\ forall dates, FixedCommitment.specificDates commitment = Some dates ->
                       ~ In planDate dates) ->
  checkTimeConflict getDay
    (mkEditor plans (before ++ commitment :: after) userSettings edits storage)
    planDate newStartTime sessionDuration excludeSessionId includeSuggestions
  = checkTimeConflict getDay
      (mkEditor plans (before ++ after) userSettings edits storage)
      planDate newStartTime sessionDuration excludeSessionId includeSuggestions.
Proof.
  intros Habsent.
  assert (Hincl : forall xs x, includes_string xs x = true <-> In x xs).
  { intros xs x. unfold includes_string. rewrite existsb_exists. split.
    - intros (y & Hy & Heq). apply String.eqb_eq in Heq. subst. exact Hy.
    - intros Hin. exists x. split; [exact Hin|apply String.eqb_refl]. }
  assert (Hno : commitmentApplies planDate (getDay planDate) commitment = false).
  { unfold commitmentApplies. destruct Habsent as [(deleted & -> & Hin)|[[Hrec Hday]|[Hrec Hdates]]].
    - rewrite (proj2 (Hincl deleted planDate) Hin). reflexivity.
    - rewrite Hrec, Hday. destruct (match FixedCommitment.deletedOccurrences commitment with
                                    | Some _ => _ | None => _ end); reflexivity.
    - rewrite Hrec.
      destruct (match FixedCommitment.deletedOccurrences commitment with
                | Some _ => _ | None => _ end); [reflexivity|].
      destruct (FixedCommitment.specificDates commitment) as [dates|]; [|reflexivity].
      destruct (includes_string dates planDate) eqn:E; [|reflexivity].
      exfalso. apply (Hdates dates eq_refl). apply Hincl. exact E. }
  apply checkTimeConflict_agree; try reflexivity.
  unfold getCommitmentsForDate. cbn [fixedCommitments].
  rewrite !List.filter_app. cbn [List.filter]. rewrite Hno. reflexivity.
Qed.

Lemma lt_NaN_l (x : JS.number) : JS.lt JS.NaN x = false.
Proof. reflexivity. Qed.

Lemma lt_NaN_r (x : JS.number) : JS.lt x JS.NaN = false.
Proof. destruct x; reflexivity. Qed.

(** X6.  A start time that does not parse ([timeToMinutes] gives [NaN])
    passes the window and both overlap tests, all comparisons with [NaN]
    being false: on a work day the check reports no conflict whatever the
    sessions and commitments, and [editSessionTime] on a session of the plan
    succeeds and stores the end time ["NaN:NaN"]. *)
Theorem unparsable_start_is_accepted
    (this : SessionTimeEditor) (planDate taskId : string) (sessionNumber : Z)
    (newStartTime : string) (sessionDuration : JS.number)
    (excludeSessionId : string) (includeSuggestions : bool)
    (now : Z) (nowISO : string) (session : StudySession.t) :
  timeToMinutes newStartTime = JS.NaN ->
  includes_day (UserSettings.workDays (settings this)) (getDay planDate) = true ->
  findSession this planDate taskId sessionNumber = Some session ->
  checkTimeConflict getDay this planDate newStartTime sessionDuration
                    excludeSessionId includeSuggestions
  = ConflictResult.mk false None None
  /\ let after :=
       editSessionTime getDay JSON_stringify setItem this planDate taskId
         sessionNumber newStartTime sessionDuration now nowISO in
     EditResult.success (fst after) = true
     /\ exists edit,
          List.find (editMatches planDate taskId sessionNumber)
                    (sessionTimeEdits (snd after)) = Some edit
          /\ SessionTimeEdit.newStartTime edit = newStartTime
          /\ SessionTimeEdit.newEndTime edit = "NaN:NaN".
Proof.
  intros Hnan Hwork Hfound.
  assert (Hfree : forall exclude,
             spec_checkConflict getDay this planDate newStartTime
                                sessionDuration exclude = None).
  { intros exclude.
    unfold spec_checkConflict, spec_studyWindowCheck, spec_workDayCheck,
      spec_sessionOverlapCheck, spec_commitmentOverlapCheck,
      spec_halfOpenOverlap, spec_candidateStart, spec_candidateEnd.
    rewrite Hnan, Hwork. cbn [JS.add JS.lt orb spec_firstFailing].
    unfold JS.gt at 1. rewrite lt_NaN_r. cbn [andb spec_firstFailing].
    rewrite (proj2 (find_none_iff _ _)) by reflexivity.
    rewrite (proj2 (find_none_iff _ _)) by reflexivity.
    reflexivity. }
  split.
  - unfold checkTimeConflict. rewrite checkTimeConflictWith_spec, Hfree.
    reflexivity.
  - cbv zeta.
    assert (Hok : EditResult.success
                    (fst (editSessionTime getDay JSON_stringify setItem this
                            planDate taskId sessionNumber newStartTime
                            sessionDuration now nowISO)) = true).
    { unfold editSessionTime. rewrite hasConflict_spec, Hfree, Hfound.
      reflexivity. }
    split; [exact Hok|].
    destruct (editSessionTime_success getDay JSON_stringify setItem _ _ _ _ _ _ _ _ Hok)
      as (_ & found & edit & _ & Hkey & _ & Hstart & Hend & Hlog).
    exists edit. rewrite Hlog.
    split; [apply find_upsert, editMatches_key, Hkey|].
    split; [exact Hstart|].
    rewrite Hend. unfold spec_candidateEnd. rewrite Hnan. reflexivity.
Qed.

(** X7.  The dialog and the save agree.  For a session that carries a
    number, whatever [checkConflict] of the dialog reports for a start time
    is what [editSessionTime], called as [handleSave] calls it, acts on: a
    conflict makes the save fail with that reason, and without a conflict
    the save succeeds as soon as the session is in the plan of the date. *)
Theorem dialog_check_decides_save
    (this : SessionTimeEditor) (planDate : string) (session : StudySession.t)
    (n : Z) (startTime : string) (now : Z) (nowISO : string) :
  StudySession.sessionNumber session = Some n ->
  let check := Modal.checkConflict getDay this planDate session startTime in
  let saved :=
    editSessionTime getDay JSON_stringify setItem this planDate
      (StudySession.taskId session) n startTime
      (StudySession.allocatedHours session) now nowISO in
  (ConflictResult.hasConflict check = true ->
   saved = (EditResult.mk false (ConflictResult.conflictsWith check), this))
  /\ (ConflictResult.hasConflict check = false ->
      findSession this planDate (StudySession.taskId session) n <> None ->
      EditResult.success (fst saved) = true).
Proof.
  intros Hn check saved. unfold saved, editSessionTime.
  unfold check, Modal.checkConflict. rewrite Hn. split.
  - intros ->. reflexivity.
  - intros -> Hfound.
    destruct (findSession this planDate (StudySession.taskId session) n);
      [reflexivity|contradiction].
Qed.

(** X8.  The time that was refused is never among the alternatives
    suggested for it. *)
Theorem rejected_time_is_not_suggested
    (this : SessionTimeEditor) (planDate newStartTime : string)
    (sessionDuration : JS.number) (excludeSessionId : string)
    (includeSuggestions : bool) (suggested : list string) :
  let result :=
    checkTimeConflict getDay this planDate newStartTime sessionDuration
                      excludeSessionId includeSuggestions in
  ConflictResult.hasConflict result = true ->
  ConflictResult.suggestedTimes result = Some suggested ->
  ~ In newStartTime suggested.
Proof.
  cbv zeta. intros Hconflict Hsuggested Hin.
  rewrite hasConflict_spec in Hconflict.
  unfold checkTimeConflict in Hsuggested.
  rewrite checkTimeConflictWith_spec in Hsuggested.
  destruct (spec_checkConflict getDay this planDate newStartTime sessionDuration
                               excludeSessionId) as [kind|] eqn:Hkind;
    [|discriminate].
  cbn [ConflictResult.suggestedTimes] in Hsuggested.
  injection Hsuggested as <-.
  assert (Hgen : In newStartTime
                    (generateSuggestedTimes getDay this planDate sessionDuration
                                            excludeSessionId)).
  { destruct kind, includeSuggestions; simpl in Hin; solve [exact Hin | contradiction]. }
  rewrite generateSuggestedTimes_spec in Hgen. unfold spec_suggestTimes in Hgen.
  apply list_elem_of_In, elem_of_take in Hgen as (i & Hi & _).
  apply list_elem_of_lookup_2, list_elem_of_In, List.filter_In in Hi as [_ Hok].
  rewrite hasConflict_spec, Hkind in Hok. discriminate.
Qed.

Lemma filter_all_false {A} (p : A -> bool) (xs : list A) :
  (forall x, p x = false) -> List.filter p xs = [].
Proof.
  intros H. induction xs as [|x rest IH]; simpl; [reflexivity|].
  rewrite H. exact IH.
Qed.

(** X9.  On a date that is not a work day every start time conflicts, and
    no alternative is ever offered: the generator returns nothing, and the
    suggestion list of every result is empty. *)
Theorem non_work_day_offers_nothing
    (this : SessionTimeEditor) (planDate newStartTime : string)
    (sessionDuration : JS.number) (excludeSessionId : string)
    (includeSuggestions : bool) :
  includes_day (UserSettings.workDays (settings this)) (getDay planDate) = false ->
  generateSuggestedTimes getDay this planDate sessionDuration excludeSessionId = []
  /\ let result :=
       checkTimeConflict getDay this planDate newStartTime sessionDuration
                         excludeSessionId includeSuggestions in
     ConflictResult.hasConflict result = true
     /\ ConflictResult.suggestedTimes result = Some [].
Proof.
  intros Hoff.
  assert (Hkind : forall start,
             spec_checkConflict getDay this planDate start sessionDuration
                                excludeSessionId = Some StudyWindow
             \/ spec_checkConflict getDay this planDate start sessionDuration
                                   excludeSessionId = Some WorkDay).
  { intros start. unfold spec_checkConflict, spec_studyWindowCheck, spec_workDayCheck.
    rewrite Hoff. cbn [spec_firstFailing].
    destruct (JS.lt _ _ || JS.gt _ _); auto. }
  assert (Hgen : generateSuggestedTimes getDay this planDate sessionDuration
                                        excludeSessionId = []).
  { rewrite generateSuggestedTimes_spec. unfold spec_suggestTimes.
    rewrite filter_all_false; [reflexivity|].
    intros candidate. rewrite hasConflict_spec.
    destruct (Hkind candidate) as [-> | ->]; reflexivity. }
  split; [exact Hgen|]. cbv zeta.
  unfold checkTimeConflict. rewrite checkTimeConflictWith_spec.
  destruct (Hkind newStartTime) as [-> | ->]; cbn; [|auto].
  rewrite Hgen. destruct includeSuggestions; auto.
Qed.

End CheckerProperties.

From Stdlib Require Import Sorted.

Lemma filter_map_swap {A B} (p : B -> bool) (f : A -> B) (xs : list A) :
  List.filter p (List.map f xs) = List.map f (List.filter (fun x => p (f x)) xs).
Proof.
  induction xs as [|x rest IH]; simpl; [reflexivity|].
  destruct (p (f x)); simpl; rewrite IH; reflexivity.
Qed.

Lemma StronglySorted_filter {A} (R : A -> A -> Prop) (p : A -> bool) (xs : list A) :
  StronglySorted R xs -> StronglySorted R (List.filter p xs).
Proof.
  induction 1 as [|x rest Hrest IH Hall]; simpl; [constructor|].
  destruct (p x); [|exact IH]. constructor; [exact IH|].
  apply List.Forall_forall. intros y Hy. apply List.filter_In in Hy as [Hy _].
  exact (proj1 (List.Forall_forall _ _) Hall y Hy).
Qed.

Lemma StronglySorted_take {A} (R : A -> A -> Prop) (n : nat) (xs : list A) :
  StronglySorted R xs -> StronglySorted R (take n xs).
Proof.
  intros H. revert n. induction H as [|x rest Hrest IH Hall]; intros [|n]; simpl;
    try constructor.
  - apply IH.
  - apply Forall_take. exact Hall.
Qed.

Lemma Forall_filter_keep {A} (P : A -> Prop) (p : A -> bool) (xs : list A) :
  Forall P xs -> Forall P (List.filter p xs).
Proof.
  intros H. apply List.Forall_forall. intros y Hy.
  apply List.filter_In in Hy as [Hy _].
  exact (proj1 (List.Forall_forall _ _) H y Hy).
Qed.

Lemma progression_sorted (start : Z) (a n : nat) :
  StronglySorted Z.lt (List.map (fun k => start + 30 * Z.of_nat k) (seq a n)).
Proof.
  revert a. induction n as [|n IH]; intros a; simpl; constructor; [apply IH|].
  apply List.Forall_forall. intros m Hm.
  apply List.in_map_iff in Hm as (k & <- & Hk). apply List.in_seq in Hk. lia.
Qed.

Lemma spec_scanMinutes_sorted (studyStart : Z) (limit : JS.number) :
  StronglySorted Z.lt (spec_scanMinutes studyStart limit).
Proof.
  destruct limit as [|q]; simpl; [constructor|]. apply progression_sorted.
Qed.

Lemma spec_scanMinutes_bounds (studyStart : Z) (limit : JS.number) :
  Forall (fun m => studyStart <= m /\ (m - studyStart) mod 30 = 0
                   /\ JS.le (JS.ofZ m) limit = true)
         (spec_scanMinutes studyStart limit).
Proof.
  destruct limit as [|q]; simpl; [constructor|].
  apply List.Forall_forall. intros m Hm.
  apply List.in_map_iff in Hm as (k & <- & Hk). apply List.in_seq in Hk.
  split; [lia|]. split.
  - replace (studyStart + 30 * Z.of_nat k - studyStart) with (Z.of_nat k * 30) by lia.
    apply Z_mod_mult.
  - apply (le_ofZ_floor (studyStart + 30 * Z.of_nat k) q).
    pose proof (Z.mul_div_le (Qfloor q - studyStart) 30 ltac:(lia)) as Hdiv.
    assert (Hk' : Z.of_nat k <= (Qfloor q - studyStart) / 30) by lia.
    lia.
Qed.

Section GeneratorProperties.

Variable getDay : string -> option Z.

(** X10.  The suggestions come in increasing time order.  Each is the
    rendering of a minute count that is the window start plus a multiple of
    30 and is not above [studyWindowEndHour*60 - sessionDuration*60]. *)
Theorem suggestions_ascending_on_grid
    (this : SessionTimeEditor) (planDate : string)
    (sessionDuration : JS.number) (excludeSessionId : string) :
  let studyStart := UserSettings.studyWindowStartHour (settings this) * 60 in
  let limit :=
    JS.sub (JS.ofZ (UserSettings.studyWindowEndHour (settings this) * 60))
           (JS.mul sessionDuration (JS.ofZ 60)) in
  exists minutes : list Z,
    generateSuggestedTimes getDay this planDate sessionDuration excludeSessionId
    = List.map (fun m => minutesToTime (JS.ofZ m)) minutes
    /\ StronglySorted Z.lt minutes
    /\ Forall (fun m => studyStart <= m /\ (m - studyStart) mod 30 = 0
                        /\ JS.le (JS.ofZ m) limit = true) minutes.
Proof.
  cbv zeta. rewrite generateSuggestedTimes_spec. unfold spec_suggestTimes.
  rewrite filter_map_swap.
  change (List.map (fun m : Z => minutesToTime (JS.ofZ m)))
    with (fmap (M:=list) (fun m : Z => minutesToTime (JS.ofZ m))).
  rewrite <- fmap_take. eexists. split; [reflexivity|]. split.
  - apply StronglySorted_take, StronglySorted_filter, spec_scanMinutes_sorted.
  - apply Forall_take, Forall_filter_keep, spec_scanMinutes_bounds.
Qed.

End GeneratorProperties.

(** ** Further properties of the edit log *)

Section EditLogProperties.

Variable getDay : string -> option Z.
Variable JSON_parse : string -> JS.outcome (list SessionTimeEdit.t).
Variable JSON_stringify : list SessionTimeEdit.t -> string.
Variable setItem : string -> JS.outcome unit.

Lemma find_of_findIndex_None {A} (p : A -> bool) (xs : list A) :
  findIndex p xs = None -> List.find p xs = None.
Proof. intros H. apply find_none_iff, findIndex_None, H. Qed.

(** The record a successful [editSessionTime] stores, in full. *)
Lemma editSessionTime_stored this planDate taskId sessionNumber newStartTime
    sessionDuration now nowISO :
  EditResult.success
    (fst (editSessionTime getDay JSON_stringify setItem this planDate taskId
            sessionNumber newStartTime sessionDuration now nowISO)) = true ->
  exists session,
    findSession this planDate taskId sessionNumber = Some session
    /\ sessionTimeEdits
         (snd (editSessionTime getDay JSON_stringify setItem this planDate
                 taskId sessionNumber newStartTime sessionDuration now nowISO))
       = upsert planDate taskId sessionNumber
           (SessionTimeEdit.mk
              (match List.find (editMatches planDate taskId sessionNumber)
                               (sessionTimeEdits this) with
               | Some previous => SessionTimeEdit.id previous
               | None => "edit-" +:+ JS.Z_toString now
               end)
              planDate taskId sessionNumber (StudySession.startTime session)
              newStartTime
              (minutesToTime (JS.add (timeToMinutes newStartTime)
                                     (JS.mul sessionDuration (JS.ofZ 60))))
              nowISO (Some true))
           (sessionTimeEdits this).
Proof.
  unfold editSessionTime.
  destruct (ConflictResult.hasConflict _); [discriminate|].
  destruct (findSession this planDate taskId sessionNumber) as [session|];
    [|discriminate].
  intros _. exists session. split; [reflexivity|]. cbn [snd].
  rewrite saveEdits_sessionTimeEdits. cbn [sessionTimeEdits]. unfold upsert.
  destruct (findIndex _ (sessionTimeEdits this)) as [i|] eqn:Hi.
  - destruct (findIndex_Some _ _ _ Hi) as (x & Hx & _ & Hfind).
    cbn [mbind option_bind]. rewrite Hx, Hfind. reflexivity.
  - rewrite (find_of_findIndex_None _ _ Hi). reflexivity.
Qed.

Lemma length_upsert planDate taskId sessionNumber edit edits :
  length (upsert planDate taskId sessionNumber edit edits)
  = (length edits
     + match List.find (editMatches planDate taskId sessionNumber) edits with
       | Some _ => 0
       | None => 1
       end)%nat.
Proof.
  unfold upsert. destruct (findIndex _ edits) as [i|] eqn:Hi.
  - destruct (findIndex_Some _ _ _ Hi) as (x & _ & _ & ->).
    rewrite length_insert. lia.
  - rewrite (find_of_findIndex_None _ _ Hi), length_app. reflexivity.
Qed.

(** X11.  A successful [editSessionTime] stores one record for the key:
    flagged temporary, stamped with the call's time, with the start time the
    session has in the plan as [originalStartTime].  If the key already had
    an edit the record takes its place and keeps its id, and the log keeps
    its length; otherwise the record gets the id [edit-<now>] and the log
    grows by one. *)
Theorem editSessionTime_upserts
    (this : SessionTimeEditor) (planDate taskId : string) (sessionNumber : Z)
    (newStartTime : string) (sessionDuration : JS.number)
    (now : Z) (nowISO : string) :
  let after :=
    editSessionTime getDay JSON_stringify setItem this planDate taskId
      sessionNumber newStartTime sessionDuration now nowISO in
  let previous :=
    List.find (editMatches planDate taskId sessionNumber) (sessionTimeEdits this) in
  EditResult.success (fst after) = true ->
  exists session,
    findSession this planDate taskId sessionNumber = Some session
    /\ List.find (editMatches planDate taskId sessionNumber)
                 (sessionTimeEdits (snd after))
       = Some (SessionTimeEdit.mk
                 (match previous with
                  | Some old => SessionTimeEdit.id old
                  | None => "edit-" +:+ JS.Z_toString now
                  end)
                 planDate taskId sessionNumber (StudySession.startTime session)
                 newStartTime
                 (minutesToTime (JS.add (timeToMinutes newStartTime)
                                        (JS.mul sessionDuration (JS.ofZ 60))))
                 nowISO (Some true))
    /\ length (sessionTimeEdits (snd after))
       = (length (sessionTimeEdits this)
          + match previous with Some _ => 0 | None => 1 end)%nat.
Proof.
  cbv zeta. intros Hok.
  destruct (editSessionTime_stored _ _ _ _ _ _ _ _ Hok) as (session & Hfound & ->).
  exists session. split; [exact Hfound|]. split.
  - apply find_upsert. apply editMatches_key. reflexivity.
  - apply length_upsert.
Qed.

Lemma find_insert_other {A} (p : A -> bool) (xs : list A) (i : nat) (x e : A) :
  xs !! i = Some x -> p x = false -> p e = false ->
  List.find p (<[i := e]> xs) = List.find p xs.
Proof.
  revert i. induction xs as [|y rest IH]; intros [|i]; simpl; try discriminate.
  - intros [= ->] Hx He. rewrite Hx, He. reflexivity.
  - intros Hi Hx He. rewrite (IH i Hi Hx He). reflexivity.
Qed.

Lemma find_push_other {A} (p : A -> bool) (xs : list A) (e : A) :
  p e = false -> List.find p (xs ++ [e]) = List.find p xs.
Proof.
  intros He. induction xs as [|y rest IH]; simpl; [rewrite He; reflexivity|].
  rewrite IH. reflexivity.
Qed.

Lemma find_delete_other {A} (p : A -> bool) (xs : list A) (i : nat) (x : A) :
  xs !! i = Some x -> p x = false ->
  List.find p (delete i xs) = List.find p xs.
Proof.
  revert i. induction xs as [|y rest IH]; intros [|i]; simpl; try discriminate.
  - intros [= ->] Hx. rewrite Hx. reflexivity.
  - intros Hi Hx. rewrite (IH i Hi Hx). reflexivity.
Qed.

Lemma find_upsert_other p planDate taskId sessionNumber edit edits :
  (forall e, editKey e = (planDate, taskId, sessionNumber) -> p e = false) ->
  editKey edit = (planDate, taskId, sessionNumber) ->
  List.find p (upsert planDate taskId sessionNumber edit edits) = List.find p edits.
Proof.
  intros Hother Hkey. unfold upsert.
  destruct (findIndex _ edits) as [i|] eqn:Hi.
  - destruct (findIndex_Some _ _ _ Hi) as (x & Hx & Hp & _).
    apply editMatches_key in Hp.
    apply (find_insert_other p edits i x edit Hx); auto.
  - apply find_push_other. auto.
Qed.

Lemma editMatchesSession_other session date planDate taskId sessionNumber e :
  (date, StudySession.taskId session, StudySession.sessionNumber session)
    <> (planDate, taskId, Some sessionNumber) ->
  editKey e = (planDate, taskId, sessionNumber) ->
  editMatchesSession session date e = false.
Proof.
  intros Hne [= Hd Ht Hn]. unfold editMatchesSession.
  destruct (String.eqb_spec (SessionTimeEdit.planDate e) date) as [Hd'|]; [|reflexivity].
  destruct (String.eqb_spec (SessionTimeEdit.taskId e) (StudySession.taskId session))
    as [Ht'|]; [|reflexivity].
  destruct (StudySession.sessionNumber session) as [k|] eqn:Hk; [|reflexivity].
  simpl. apply Z.eqb_neq. intros Hn'. apply Hne. congruence.
Qed.

(** X12.  Editing or reverting one session leaves every other session as
    it was shown: for a session whose (date, task, number) is not the key of
    the call, [getEditedSession] gives the same result after
    [editSessionTime] (whether it succeeds or not) and after [removeEdit]. *)
Theorem other_sessions_untouched
    (this : SessionTimeEditor) (planDate taskId : string) (sessionNumber : Z)
    (newStartTime : string) (sessionDuration : JS.number)
    (now : Z) (nowISO : string) (other : StudySession.t) (date : string) :
  (date, StudySession.taskId other, StudySession.sessionNumber other)
    <> (planDate, taskId, Some sessionNumber) ->
  getEditedSession
    (snd (editSessionTime getDay JSON_stringify setItem this planDate taskId
            sessionNumber newStartTime sessionDuration now nowISO))
    other date
  = getEditedSession this other date
  /\ getEditedSession
       (snd (removeEdit JSON_stringify setItem this planDate taskId sessionNumber))
       other date
     = getEditedSession this other date.
Proof.
  intros Hne. split.
  - destruct (EditResult.success
                (fst (editSessionTime getDay JSON_stringify setItem this planDate
                        taskId sessionNumber newStartTime sessionDuration now
                        nowISO))) eqn:Hok.
    + destruct (editSessionTime_success getDay JSON_stringify setItem
                  _ _ _ _ _ _ _ _ Hok)
        as (_ & session & edit & _ & Hkey & _ & _ & _ & Hlog).
      unfold getEditedSession. rewrite Hlog.
      rewrite find_upsert_other; [reflexivity| |exact Hkey].
      intros e He. apply (editMatchesSession_other _ _ _ _ _ _ Hne He).
    + rewrite (editSessionTime_failure getDay JSON_stringify setItem
                 _ _ _ _ _ _ _ _ Hok).
      reflexivity.
  - unfold removeEdit.
    destruct (findIndex _ (sessionTimeEdits this)) as [i|] eqn:Hi; [|reflexivity].
    cbn [snd]. rewrite getEditedSession_saveEdits.
    destruct (findIndex_Some _ _ _ Hi) as (x & Hx & Hp & _).
    apply editMatches_key in Hp.
    unfold getEditedSession. cbn [sessionTimeEdits].
    rewrite (find_delete_other _ _ i x Hx); [reflexivity|].
    apply (editMatchesSession_other _ _ _ _ _ _ Hne Hp).
Qed.

Lemma editSessionTime_keeps_inputs this planDate taskId sessionNumber
    newStartTime sessionDuration now nowISO :
  let after :=
    snd (editSessionTime getDay JSON_stringify setItem this planDate taskId
           sessionNumber newStartTime sessionDuration now nowISO) in
  studyPlans after = studyPlans this
  /\ fixedCommitments after = fixedCommitments this
  /\ settings after = settings this.
Proof.
  cbv zeta. unfold editSessionTime, saveEdits.
  destruct (ConflictResult.hasConflict _); [auto|].
  destruct (findSession this planDate taskId sessionNumber); [|auto].
  cbn [snd sessionTimeEdits]. destruct (setItem _); cbn; auto.
Qed.

(** X13.  Edits of one session collapse to the latest.  After two successful
    [editSessionTime] calls on the same key the log is as long as after the
    first, the key's record has the id it got first and the same
    [originalStartTime] (the plan's), and its new start is the second one. *)
Theorem repeated_edit_collapses
    (this : SessionTimeEditor) (planDate taskId : string) (sessionNumber : Z)
    (start1 start2 : string) (duration1 duration2 : JS.number)
    (now1 now2 : Z) (iso1 iso2 : string) :
  let first :=
    editSessionTime getDay JSON_stringify setItem this planDate taskId
      sessionNumber start1 duration1 now1 iso1 in
  let second :=
    editSessionTime getDay JSON_stringify setItem (snd first) planDate taskId
      sessionNumber start2 duration2 now2 iso2 in
  EditResult.success (fst first) = true ->
  EditResult.success (fst second) = true ->
  length (sessionTimeEdits (snd second)) = length (sessionTimeEdits (snd first))
  /\ exists edit1 edit2,
       List.find (editMatches planDate taskId sessionNumber)
                 (sessionTimeEdits (snd first)) = Some edit1
       /\ List.find (editMatches planDate taskId sessionNumber)
                    (sessionTimeEdits (snd second)) = Some edit2
       /\ SessionTimeEdit.id edit2 = SessionTimeEdit.id edit1
       /\ SessionTimeEdit.originalStartTime edit2
          = SessionTimeEdit.originalStartTime edit1
       /\ SessionTimeEdit.newStartTime edit2 = start2
       /\ SessionTimeEdit.editedAt edit2 = iso2.
Proof.
  cbv zeta. intros Hok1 Hok2.
  destruct (editSessionTime_stored _ _ _ _ _ _ _ _ Hok1) as (session1 & Hfound1 & Hlog1).
  destruct (editSessionTime_stored _ _ _ _ _ _ _ _ Hok2) as (session2 & Hfound2 & Hlog2).
  destruct (editSessionTime_keeps_inputs this planDate taskId sessionNumber
              start1 duration1 now1 iso1) as (Hplans & _ & _).
  assert (Hsame : session2 = session1).
  { unfold findSession in Hfound2. rewrite Hplans in Hfound2.
    unfold findSession in Hfound1. congruence. }
  subst session2.
  match type of Hlog1 with _ = upsert _ _ _ ?e _ =>
    assert (Hfind1 : List.find (editMatches planDate taskId sessionNumber)
                       (sessionTimeEdits
                          (snd (editSessionTime getDay JSON_stringify setItem this
                                  planDate taskId sessionNumber start1 duration1
                                  now1 iso1))) = Some e)
      by (rewrite Hlog1; apply find_upsert, editMatches_key; reflexivity)
  end.
  rewrite Hfind1 in Hlog2. cbn [SessionTimeEdit.id] in Hlog2.
  split.
  - rewrite Hlog2, length_upsert, Hfind1. lia.
  - eexists _, _. split; [exact Hfind1|]. split.
    + rewrite Hlog2. apply find_upsert, editMatches_key. reflexivity.
    + repeat split.
Qed.

(** X14.  In every instance the class produces, two positions of the log
    never hold edits of the same (date, task, number): edits with the same
    key sit at the same position, and edits at two different positions
    have different keys. *)
Theorem reachable_log_one_edit_per_key
    (this : SessionTimeEditor) (i j : nat) (edit1 edit2 : SessionTimeEdit.t) :
  Reachable getDay JSON_parse JSON_stringify setItem this ->
  sessionTimeEdits this !! i = Some edit1 ->
  sessionTimeEdits this !! j = Some edit2 ->
  (editKey edit1 = editKey edit2 -> i = j)
  /\ (i <> j -> editKey edit1 <> editKey edit2).
Proof.
  intros Hreach Hi Hj.
  assert (Hsame : editKey edit1 = editKey edit2 -> i = j).
  { intros Hkey.
    pose proof (Reachable_uniqueKeys getDay JSON_parse JSON_stringify setItem
                  this Hreach) as Huniq.
    unfold uniqueKeys in Huniq.
    apply (proj1 (NoDup_alt _) Huniq i j (editKey edit1)).
    - change (List.map editKey (sessionTimeEdits this))
        with (editKey <$> sessionTimeEdits this).
      rewrite list_lookup_fmap, Hi. reflexivity.
    - change (List.map editKey (sessionTimeEdits this))
        with (editKey <$> sessionTimeEdits this).
      rewrite list_lookup_fmap, Hj, Hkey. reflexivity. }
  split; [exact Hsame|].
  intros Hij Hkey. exact (Hij (Hsame Hkey)).
Qed.

(** X15.  In an instance the class produced, a [removeEdit] that returns
    [true] shortens the log by one entry and leaves no edit for the key: the
    same [removeEdit] again returns [false] and changes nothing. *)
Theorem removeEdit_once_is_enough
    (this : SessionTimeEditor) (planDate taskId : string) (sessionNumber : Z) :
  Reachable getDay JSON_parse JSON_stringify setItem this ->
  let removed := removeEdit JSON_stringify setItem this planDate taskId sessionNumber in
  fst removed = true ->
  S (length (sessionTimeEdits (snd removed))) = length (sessionTimeEdits this)
  /\ List.find (editMatches planDate taskId sessionNumber)
               (sessionTimeEdits (snd removed)) = None
  /\ removeEdit JSON_stringify setItem (snd removed) planDate taskId sessionNumber
     = (false, snd removed).
Proof.
  intros Hreach removed Htrue.
  pose proof (Reachable_uniqueKeys getDay JSON_parse JSON_stringify setItem
                this Hreach) as Huniq.
  unfold removed, removeEdit in *.
  destruct (findIndex _ (sessionTimeEdits this)) as [i|] eqn:Hi; [|discriminate].
  cbn [fst snd]. rewrite saveEdits_sessionTimeEdits. cbn [sessionTimeEdits].
  pose proof (find_delete_unique _ _ _ _ _ Huniq Hi) as Hgone.
  destruct (findIndex_Some _ _ _ Hi) as (x & Hx & _ & _).
  split; [|split].
  - rewrite length_delete by (rewrite Hx; eauto).
    apply lookup_lt_Some in Hx. lia.
  - exact Hgone.
  - destruct (findIndex (editMatches planDate taskId sessionNumber)
                        (delete i (sessionTimeEdits this))) as [k|] eqn:Hk;
      [|reflexivity].
    destruct (findIndex_Some _ _ _ Hk) as (y & _ & _ & Hy).
    rewrite Hgone in Hy. discriminate.
Qed.

Lemma filter_twice {A} (p : A -> bool) (xs : list A) :
  List.filter p (List.filter p xs) = List.filter p xs.
Proof.
  induction xs as [|x rest IH]; simpl; [reflexivity|].
  destruct (p x) eqn:Hx; simpl; [rewrite Hx, IH|]; auto.
Qed.

Lemma filter_sublist_of {A} (p : A -> bool) (xs : list A) :
  List.filter p xs `sublist_of` xs.
Proof.
  induction xs as [|x rest IH]; simpl; [constructor|].
  destruct (p x); [apply sublist_skip|apply sublist_cons]; exact IH.
Qed.

(** X16.  [clearTemporaryEdits] keeps exactly the edits that are not
    flagged temporary, in their order, and drops the others; a second call
    changes the log no further. *)
Theorem clearTemporaryEdits_keeps_permanent (this : SessionTimeEditor) :
  let cleared := clearTemporaryEdits JSON_stringify setItem this in
  (forall edit,
      In edit (sessionTimeEdits cleared)
      <-> In edit (sessionTimeEdits this) /\ isTemporaryEdit edit = false)
  /\ sessionTimeEdits cleared `sublist_of` sessionTimeEdits this
  /\ sessionTimeEdits (clearTemporaryEdits JSON_stringify setItem cleared)
     = sessionTimeEdits cleared.
Proof.
  cbv zeta. unfold clearTemporaryEdits.
  repeat (rewrite saveEdits_sessionTimeEdits; cbn [sessionTimeEdits]).
  split; [|split].
  - intros edit. rewrite List.filter_In. unfold isTemporaryEdit.
    rewrite negb_true_iff. reflexivity.
  - apply filter_sublist_of.
  - apply filter_twice.
Qed.

Lemma uniqueKeys_same_edit edits x y :
  uniqueKeys edits -> In x edits -> In y edits -> editKey x = editKey y -> x = y.
Proof.
  unfold uniqueKeys. induction edits as [|e rest IH]; simpl; [intros _ []|].
  intros Huniq Hx Hy Hkey. apply NoDup_cons in Huniq as [Hnotin Hrest].
  destruct Hx as [->|Hx], Hy as [->|Hy]; [reflexivity| | |auto].
  - exfalso. apply Hnotin. rewrite Hkey. apply list_elem_of_In, List.in_map, Hy.
  - exfalso. apply Hnotin. rewrite <- Hkey. apply list_elem_of_In, List.in_map, Hx.
Qed.

(** X17.  In an instance the class produced, an edit made by
    [editSessionTime] does not survive [clearTemporaryEdits]: afterwards
    [getEditedSession] shows the session as it is in the plan. *)
Theorem clearTemporaryEdits_reverts_edit
    (this : SessionTimeEditor) (planDate : string) (session : StudySession.t)
    (n : Z) (newStartTime : string) (sessionDuration : JS.number)
    (now : Z) (nowISO : string) :
  Reachable getDay JSON_parse JSON_stringify setItem this ->
  StudySession.sessionNumber session = Some n ->
  let edited :=
    editSessionTime getDay JSON_stringify setItem this planDate
      (StudySession.taskId session) n newStartTime sessionDuration now nowISO in
  EditResult.success (fst edited) = true ->
  getEditedSession (clearTemporaryEdits JSON_stringify setItem (snd edited))
                   session planDate
  = session.
Proof.
  intros Hreach Hn edited Hok.
  assert (Huniq : uniqueKeys (sessionTimeEdits (snd edited)))
    by (apply (Reachable_uniqueKeys getDay JSON_parse JSON_stringify setItem),
          reach_edit, Hreach).
  destruct (editSessionTime_stored _ _ _ _ _ _ _ _ Hok) as (found & _ & Hlog).
  fold edited in Hlog.
  match type of Hlog with _ = upsert _ _ _ ?e _ => set (stored := e) in * end.
  assert (Hfind : List.find (editMatches planDate (StudySession.taskId session) n)
                            (sessionTimeEdits (snd edited)) = Some stored)
    by (rewrite Hlog; apply find_upsert, editMatches_key; reflexivity).
  apply find_some in Hfind as [Hin _].
  unfold clearTemporaryEdits. rewrite getEditedSession_saveEdits.
  unfold getEditedSession. cbn [sessionTimeEdits].
  rewrite (find_pointwise _ _ _
             (fun e => editMatchesSession_key session planDate n e Hn)).
  rewrite (proj2 (find_none_iff _ _)); [reflexivity|].
  intros y Hy. apply List.filter_In in Hy as [Hy Hperm].
  destruct (editMatches planDate (StudySession.taskId session) n y) eqn:Hm;
    [|reflexivity].
  exfalso. apply editMatches_key in Hm.
  assert (Heq : y = stored)
    by (apply (uniqueKeys_same_edit _ y stored Huniq Hy Hin); rewrite Hm; reflexivity).
  subst y. discriminate.
Qed.

End EditLogProperties.

(** ** Persistence *)

Section PersistenceProperties.

Variable getDay : string -> option Z.
Variable JSON_parse : string -> JS.outcome (list SessionTimeEdit.t).
Variable JSON_stringify : list SessionTimeEdit.t -> string.
Variable setItem : string -> JS.outcome unit.

(** Every successful mutation ends in [saveEdits]. *)
Lemma mutation_is_saved this mutated :
  (exists planDate taskId sessionNumber newStartTime sessionDuration now nowISO,
      mutated = snd (editSessionTime getDay JSON_stringify setItem this planDate
                       taskId sessionNumber newStartTime sessionDuration now nowISO)
      /\ EditResult.success
           (fst (editSessionTime getDay JSON_stringify setItem this planDate
                   taskId sessionNumber newStartTime sessionDuration now nowISO))
         = true)
  \/ (exists planDate taskId sessionNumber,
         mutated = snd (removeEdit JSON_stringify setItem this planDate taskId
                                   sessionNumber)
         /\ fst (removeEdit JSON_stringify setItem this planDate taskId
                            sessionNumber) = true)
  \/ mutated = clearTemporaryEdits JSON_stringify setItem this ->
  exists unsaved,
    mutated = saveEdits JSON_stringify setItem unsaved
    /\ localStorage unsaved = localStorage this.
Proof.
  intros [(planDate & taskId & n & start & duration & now & nowISO & -> & Hok)
         |[(planDate & taskId & n & -> & Hok)| ->]].
  - revert Hok. unfold editSessionTime.
    destruct (ConflictResult.hasConflict _); [discriminate|].
    destruct (findSession this planDate taskId n); [|discriminate].
    intros _. eexists. split; reflexivity.
  - revert Hok. unfold removeEdit.
    destruct (findIndex _ _); [|discriminate].
    intros _. eexists. split; reflexivity.
  - eexists. split; reflexivity.
Qed.

(** X18.  What a mutation persists is what a later instance loads.  After a
    successful [editSessionTime], a [removeEdit] that returned [true], or
    [clearTemporaryEdits], if [setItem] accepted the payload and
    [JSON.parse] reads back what [JSON.stringify] wrote (a non-empty text),
    the slot holds the text of the log, and a new instance built on it has
    that same log, whatever plans, commitments and settings it is given. *)
Theorem persisted_log_reloads
    (this mutated : SessionTimeEditor) (plans : list StudyPlan.t)
    (commitments : list FixedCommitment.t) (userSettings : UserSettings.t) :
  (exists planDate taskId sessionNumber newStartTime sessionDuration now nowISO,
      mutated = snd (editSessionTime getDay JSON_stringify setItem this planDate
                       taskId sessionNumber newStartTime sessionDuration now nowISO)
      /\ EditResult.success
           (fst (editSessionTime getDay JSON_stringify setItem this planDate
                   taskId sessionNumber newStartTime sessionDuration now nowISO))
         = true)
  \/ (exists planDate taskId sessionNumber,
         mutated = snd (removeEdit JSON_stringify setItem this planDate taskId
                                   sessionNumber)
         /\ fst (removeEdit JSON_stringify setItem this planDate taskId
                            sessionNumber) = true)
  \/ mutated = clearTemporaryEdits JSON_stringify setItem this ->
  let payload := JSON_stringify (sessionTimeEdits mutated) in
  setItem payload = JS.Returned tt ->
  JSON_parse payload = JS.Returned (sessionTimeEdits mutated) ->
  JS.truthy_string payload = true ->
  localStorage mutated = Some payload
  /\ exists reloaded,
       constructor JSON_parse plans commitments userSettings (localStorage mutated)
         = JS.Returned reloaded
       /\ getAllEdits reloaded = getAllEdits mutated.
Proof.
  intros Hmutation payload Hset Hparse Htruthy.
  destruct (mutation_is_saved this mutated Hmutation) as (unsaved & -> & _).
  unfold payload in *. rewrite saveEdits_sessionTimeEdits in *.
  assert (Hslot : localStorage (saveEdits JSON_stringify setItem unsaved)
                  = Some (JSON_stringify (sessionTimeEdits unsaved)))
    by (unfold saveEdits; rewrite Hset; reflexivity).
  split; [exact Hslot|]. rewrite Hslot.
  eexists. split; [reflexivity|].
  unfold getAllEdits. cbn [sessionTimeEdits].
  rewrite Htruthy, Hparse, saveEdits_sessionTimeEdits. reflexivity.
Qed.

(** X19.  A [setItem] that throws is swallowed: the call behaves in memory
    as if the save had worked, and the slot keeps what it held before, so a
    later instance would load the old log.  [editSessionTime] succeeds
    exactly when the check finds no conflict and the session is in the
    plan, and its log then holds the new edit under the session's key;
    [removeEdit] returns [true] exactly when the log has an edit of the key
    and has then dropped the first one; [clearTemporaryEdits] leaves the
    edits that are not temporary. *)
Theorem failed_save_is_silent (this : SessionTimeEditor) :
  (forall (planDate taskId : string) (sessionNumber : Z) (newStartTime : string)
          (sessionDuration : JS.number) (now : Z) (nowISO error : string),
      let after :=
        editSessionTime getDay JSON_stringify setItem this planDate taskId
                        sessionNumber newStartTime sessionDuration now nowISO in
      setItem (JSON_stringify (sessionTimeEdits (snd after))) = JS.Thrown error ->
      localStorage (snd after) = localStorage this
      /\ (EditResult.success (fst after) = true
          <-> ConflictResult.hasConflict
                (checkTimeConflict getDay this planDate newStartTime
                   sessionDuration (sessionKey taskId (Some sessionNumber)) true)
              = false
              /\ findSession this planDate taskId sessionNumber <> None)
      /\ (EditResult.success (fst after) = true ->
          exists edit,
            editKey edit = (planDate, taskId, sessionNumber)
            /\ SessionTimeEdit.newStartTime edit = newStartTime
            /\ SessionTimeEdit.newEndTime edit
               = minutesToTime (spec_candidateEnd newStartTime sessionDuration)
            /\ sessionTimeEdits (snd after)
               = upsert planDate taskId sessionNumber edit (sessionTimeEdits this)))
  /\ (forall (planDate taskId : string) (sessionNumber : Z) (error : string),
        let after :=
          removeEdit JSON_stringify setItem this planDate taskId sessionNumber in
        setItem (JSON_stringify (sessionTimeEdits (snd after))) = JS.Thrown error ->
        localStorage (snd after) = localStorage this
        /\ match findIndex (editMatches planDate taskId sessionNumber)
                           (sessionTimeEdits this) with
           | Some index =>
               fst after = true
               /\ sessionTimeEdits (snd after)
                  = delete index (sessionTimeEdits this)
           | None => after = (false, this)
           end)
  /\ (forall error : string,
        let after := clearTemporaryEdits JSON_stringify setItem this in
        setItem (JSON_stringify (sessionTimeEdits after)) = JS.Thrown error ->
        localStorage after = localStorage this
        /\ sessionTimeEdits after
           = List.filter (fun edit => negb (isTemporaryEdit edit))
                         (sessionTimeEdits this)).
Proof.
  assert (Hsilent : forall unsaved error,
             setItem (JSON_stringify
                        (sessionTimeEdits (saveEdits JSON_stringify setItem unsaved)))
               = JS.Thrown error ->
             localStorage (saveEdits JSON_stringify setItem unsaved)
             = localStorage unsaved).
  { intros unsaved error Hthrow. rewrite saveEdits_sessionTimeEdits in Hthrow.
    unfold saveEdits. rewrite Hthrow. reflexivity. }
  split; [|split].
  - intros planDate taskId n newStartTime sessionDuration now nowISO error
           after Hthrow.
    split; [|split].
    + revert Hthrow. unfold after, editSessionTime.
      destruct (ConflictResult.hasConflict _); [reflexivity|].
      destruct (findSession this planDate taskId n); [|reflexivity].
      cbn [snd]. intros Hthrow. rewrite (Hsilent _ _ Hthrow). reflexivity.
    + unfold after, editSessionTime.
      destruct (ConflictResult.hasConflict _);
        [split; [discriminate | intros [H _]; discriminate H]|].
      destruct (findSession this planDate taskId n) as [session|].
      * split; [intros _; split; [reflexivity | discriminate] | reflexivity].
      * split; [discriminate | intros [_ H]; contradiction H; reflexivity].
    + intros Hok.
      destruct (editSessionTime_success getDay JSON_stringify setItem
                  _ _ _ _ _ _ _ _ Hok)
        as (_ & session & edit & _ & Hkey & _ & Hstart & Hend & Hlog).
      exists edit. repeat split; assumption.
  - intros planDate taskId n error after Hthrow.
    revert Hthrow. unfold after, removeEdit.
    destruct (findIndex (editMatches planDate taskId n) (sessionTimeEdits this))
      as [index|]; cbn [fst snd].
    + intros Hthrow. rewrite (Hsilent _ _ Hthrow), saveEdits_sessionTimeEdits.
      repeat split.
    + intros _. split; reflexivity.
  - intros error after Hthrow. unfold after in *. unfold clearTemporaryEdits in *.
    rewrite (Hsilent _ _ Hthrow), saveEdits_sessionTimeEdits. split; reflexivity.
Qed.

End PersistenceProperties.

(** ** The projection onto plans *)

Lemma getEditedSession_sameButTimes this session planDate :
  sameButTimes session (getEditedSession this session planDate).
Proof.
  unfold getEditedSession, sameButTimes.
  destruct (List.find _ _); repeat split.
Qed.

Lemma getEditedSession_twice this session planDate :
  getEditedSession this (getEditedSession this session planDate) planDate
  = getEditedSession this session planDate.
Proof.
  unfold getEditedSession at 2.
  destruct (List.find (editMatchesSession session planDate) (sessionTimeEdits this))
    as [edit|] eqn:Hfind.
  - unfold getEditedSession.
    rewrite (find_pointwise _ (editMatchesSession session planDate)) by reflexivity.
    rewrite Hfind. reflexivity.
  - unfold getEditedSession. rewrite Hfind. reflexivity.
Qed.

Lemma map_Forall2 {A B} (R : A -> B -> Prop) (f : A -> B) (xs : list A) :
  (forall x, R x (f x)) -> Forall2 R xs (List.map f xs).
Proof. intros H. induction xs; simpl; constructor; auto. Qed.

(** X20.  [applyEditsToPlans] returns as many plans, each with its id and
    date and as many sessions, each differing from the original at most in
    start and end time.  With an empty log it returns the plans as they are,
    and applying it to its own result changes nothing. *)
Theorem applyEditsToPlans_shape (this : SessionTimeEditor) (plans : list StudyPlan.t) :
  Forall2 (fun plan plan' =>
             StudyPlan.id plan' = StudyPlan.id plan
             /\ StudyPlan.date plan' = StudyPlan.date plan
             /\ Forall2 sameButTimes (StudyPlan.plannedTasks plan)
                                     (StudyPlan.plannedTasks plan'))
          plans (applyEditsToPlans this plans)
  /\ (sessionTimeEdits this = [] -> applyEditsToPlans this plans = plans)
  /\ applyEditsToPlans this (applyEditsToPlans this plans)
     = applyEditsToPlans this plans.
Proof.
  unfold applyEditsToPlans. split; [|split].
  - apply map_Forall2. intros plan. cbn. repeat split.
    apply map_Forall2. intros session. apply getEditedSession_sameButTimes.
  - intros Hempty. rewrite <- (List.map_id plans) at 2.
    apply List.map_ext. intros [id date tasks]. cbn. f_equal.
    rewrite <- (List.map_id tasks) at 2. apply List.map_ext. intros session.
    unfold getEditedSession. rewrite Hempty. reflexivity.
  - rewrite List.map_map. apply List.map_ext. intros plan. cbn. f_equal.
    rewrite List.map_map. apply List.map_ext. intros session.
    apply getEditedSession_twice.
Qed.

Section ViewProperties.

Variable getDay : string -> option Z.
Variable JSON_stringify : list SessionTimeEdit.t -> string.
Variable setItem : string -> JS.outcome unit.

(** What [getEditedSession] shows for the session just edited. *)
Lemma getEditedSession_after_edit this planDate session n newStartTime
    sessionDuration now nowISO :
  StudySession.sessionNumber session = Some n ->
  EditResult.success
    (fst (editSessionTime getDay JSON_stringify setItem this planDate
            (StudySession.taskId session) n newStartTime sessionDuration
            now nowISO)) = true ->
  getEditedSession
    (snd (editSessionTime getDay JSON_stringify setItem this planDate
            (StudySession.taskId session) n newStartTime sessionDuration
            now nowISO))
    session planDate
  = StudySession.mk (StudySession.taskId session)
      (StudySession.scheduledTime session) newStartTime
      (minutesToTime (JS.add (timeToMinutes newStartTime)
                             (JS.mul sessionDuration (JS.ofZ 60))))
      (StudySession.allocatedHours session)
      (StudySession.sessionNumber session)
      (StudySession.done session) (StudySession.status session).
Proof.
  intros Hn Hok.
  destruct (editSessionTime_success getDay JSON_stringify setItem
              _ _ _ _ _ _ _ _ Hok)
    as (_ & found & edit & _ & Hkey & _ & Hstart & Hend & Hlog).
  unfold getEditedSession. rewrite Hlog.
  rewrite (find_pointwise _ _ _
             (fun e => editMatchesSession_key session planDate n e Hn)).
  rewrite find_upsert by (apply editMatches_key; exact Hkey).
  rewrite Hstart, Hend. reflexivity.
Qed.

(** X21.  The plan view shows an edit where the session is.  After a
    successful [editSessionTime] for the session at position [j] of the plan
    at position [i], whose date is the plan date of the call,
    [applyEditsToPlans] has at those positions the session with the new
    start and end times. *)
Theorem applyEditsToPlans_shows_edit
    (this : SessionTimeEditor) (plans : list StudyPlan.t) (i j : nat)
    (plan : StudyPlan.t) (session : StudySession.t) (n : Z)
    (newStartTime : string) (sessionDuration : JS.number)
    (now : Z) (nowISO : string) :
  plans !! i = Some plan ->
  StudyPlan.plannedTasks plan !! j = Some session ->
  StudySession.sessionNumber session = Some n ->
  let after :=
    editSessionTime getDay JSON_stringify setItem this (StudyPlan.date plan)
      (StudySession.taskId session) n newStartTime sessionDuration now nowISO in
  EditResult.success (fst after) = true ->
  exists plan' session',
    applyEditsToPlans (snd after) plans !! i = Some plan'
    /\ StudyPlan.plannedTasks plan' !! j = Some session'
    /\ StudySession.taskId session' = StudySession.taskId session
    /\ StudySession.sessionNumber session' = Some n
    /\ StudySession.startTime session' = newStartTime
    /\ StudySession.endTime session'
       = minutesToTime (JS.add (timeToMinutes newStartTime)
                               (JS.mul sessionDuration (JS.ofZ 60))).
Proof.
  intros Hplan Hsession Hn after Hok.
  eexists _, _. split; [|split].
  - unfold applyEditsToPlans.
    change (List.map ?f plans) with (f <$> plans).
    rewrite list_lookup_fmap, Hplan. reflexivity.
  - cbn [StudyPlan.plannedTasks].
    change (List.map ?f (StudyPlan.plannedTasks plan))
      with (f <$> StudyPlan.plannedTasks plan).
    rewrite list_lookup_fmap, Hsession. reflexivity.
  - unfold after.
    rewrite (getEditedSession_after_edit this (StudyPlan.date plan) session n
               newStartTime sessionDuration now nowISO Hn Hok).
    cbn. auto.
Qed.

Lemma le_not_lt (a b : JS.number) : JS.le a b = true -> JS.lt b a = false.
Proof.
  destruct a as [|p], b as [|q]; simpl; try discriminate.
  intros ->. reflexivity.
Qed.

(** X22.  Touching is not overlapping.  A candidate inside the study window
    on a work day is accepted when every other session looked at (edits
    applied) and every commitment of the date ends no later than the
    candidate starts or starts no earlier than the candidate ends. *)
Theorem back_to_back_is_accepted
    (this : SessionTimeEditor) (planDate newStartTime : string)
    (sessionDuration : JS.number) (excludeSessionId : string)
    (includeSuggestions : bool) :
  let candidateStart := timeToMinutes newStartTime in
  let candidateEnd :=
    JS.add (timeToMinutes newStartTime) (JS.mul sessionDuration (JS.ofZ 60)) in
  JS.le (JS.ofZ (UserSettings.studyWindowStartHour (settings this) * 60))
        candidateStart = true ->
  JS.le candidateEnd
        (JS.ofZ (UserSettings.studyWindowEndHour (settings this) * 60)) = true ->
  includes_day (UserSettings.workDays (settings this)) (getDay planDate) = true ->
  (forall other,
      In other (spec_otherSessions this planDate excludeSessionId) ->
      let shown := getEditedSession this other planDate in
      JS.le (timeToMinutes (StudySession.endTime shown)) candidateStart = true
      \/ JS.le candidateEnd (timeToMinutes (StudySession.startTime shown)) = true) ->
  (forall commitment,
      In commitment (getCommitmentsForDate getDay this planDate) ->
      JS.le (timeToMinutes (FixedCommitment.endTime commitment)) candidateStart = true
      \/ JS.le candidateEnd (timeToMinutes (FixedCommitment.startTime commitment))
         = true) ->
  checkTimeConflict getDay this planDate newStartTime sessionDuration
                    excludeSessionId includeSuggestions
  = ConflictResult.mk false None None.
Proof.
  cbv zeta. intros Hstart Hend Hwork Hsessions Hcommitments.
  unfold checkTimeConflict. rewrite checkTimeConflictWith_spec.
  assert (Hfree : spec_checkConflict getDay this planDate newStartTime
                                     sessionDuration excludeSessionId = None).
  { unfold spec_checkConflict, spec_studyWindowCheck, spec_workDayCheck,
      spec_sessionOverlapCheck, spec_commitmentOverlapCheck,
      spec_halfOpenOverlap, spec_candidateStart, spec_candidateEnd, JS.gt.
    rewrite (le_not_lt _ _ Hstart), (le_not_lt _ _ Hend), Hwork.
    cbn [orb spec_firstFailing].
    rewrite (proj2 (find_none_iff _ _)).
    2:{ intros shown Hin. apply List.in_map_iff in Hin as (other & <- & Hin).
        destruct (Hsessions other Hin) as [H|H]; rewrite (le_not_lt _ _ H);
          [reflexivity|apply andb_false_r]. }
    cbn [option_map spec_firstFailing].
    rewrite (proj2 (find_none_iff _ _)); [reflexivity|].
    intros commitment Hin.
    destruct (Hcommitments commitment Hin) as [H|H]; rewrite (le_not_lt _ _ H);
      [reflexivity|apply andb_false_r]. }
  rewrite Hfree. reflexivity.
Qed.

(** X23.  What the resolver returns for a date: the overlay of [c], for
    exactly the commitments [c] given to the editor whose occurrence of the
    date is not deleted and which, when recurring, list the week day of the
    date, and otherwise list the date itself among their specific dates. *)
Theorem getCommitmentsForDate_members
    (this : SessionTimeEditor) (date : string) (effective : FixedCommitment.t) :
  In effective (getCommitmentsForDate getDay this date)
  <-> exists c,
        In c (fixedCommitments this)
        /\ effective = applyModification date c
        /\ (forall deleted,
               FixedCommitment.deletedOccurrences c = Some deleted ->
               ~ In date deleted)
        /\ (if FixedCommitment.recurring c
            then includes_day (FixedCommitment.daysOfWeek c) (getDay date) = true
            else exists dates,
                   FixedCommitment.specificDates c = Some dates /\ In date dates).
Proof.
  assert (Hincl : forall xs x, includes_string xs x = true <-> In x xs).
  { intros xs x. unfold includes_string. rewrite existsb_exists. split.
    - intros (y & Hy & Heq). apply String.eqb_eq in Heq. subst. exact Hy.
    - intros Hin. exists x. split; [exact Hin|apply String.eqb_refl]. }
  assert (Happlies : forall c,
             commitmentApplies date (getDay date) c = true
             <-> (forall deleted,
                     FixedCommitment.deletedOccurrences c = Some deleted ->
                     ~ In date deleted)
                 /\ (if FixedCommitment.recurring c
                     then includes_day (FixedCommitment.daysOfWeek c) (getDay date)
                          = true
                     else exists dates,
                            FixedCommitment.specificDates c = Some dates
                            /\ In date dates)).
  { intros c. unfold commitmentApplies.
    destruct (FixedCommitment.deletedOccurrences c) as [deleted|].
    - destruct (includes_string deleted date) eqn:Hdel.
      + split; [discriminate|]. intros [Hnot _]. exfalso.
        apply (Hnot deleted eq_refl). apply Hincl. exact Hdel.
      + assert (Hnot : forall d, Some deleted = Some d -> ~ In date d).
        { intros d [= <-] Hin. apply Hincl in Hin. congruence. }
        destruct (FixedCommitment.recurring c).
        * split; [intros H; split; assumption|intros [_ H]; exact H].
        * destruct (FixedCommitment.specificDates c) as [dates|].
          -- rewrite Hincl. split.
             ++ intros H. split; [exact Hnot|eauto].
             ++ intros [_ (d & [= <-] & H)]. exact H.
          -- split; [discriminate|]. intros [_ (d & Hd & _)]. discriminate.
    - assert (Hnot : forall d, @None (list string) = Some d -> ~ In date d)
        by discriminate.
      destruct (FixedCommitment.recurring c).
      + split; [intros H; split; assumption|intros [_ H]; exact H].
      + destruct (FixedCommitment.specificDates c) as [dates|].
        * rewrite Hincl. split.
          -- intros H. split; [exact Hnot|eauto].
          -- intros [_ (d & [= <-] & H)]. exact H.
        * split; [discriminate|]. intros [_ (d & Hd & _)]. discriminate. }
  unfold getCommitmentsForDate. rewrite List.in_map_iff. split.
  - intros (c & <- & Hin). apply List.filter_In in Hin as [Hin Hc].
    apply Happlies in Hc as [Hdel Hday]. exists c. auto.
  - intros (c & Hin & -> & Hdel & Hday). exists c. split; [reflexivity|].
    apply List.filter_In. split; [exact Hin|]. apply Happlies. auto.
Qed.

End ViewProperties.

(** X24.  The end time the edit dialog shows is the one the editor stores
    for the session's own duration, as long as the start time has a minutes
    part that reads as a number.  For a start time without a colon the
    dialog shows ["NaN:NaN"], where the editor counts whole hours. *)
Theorem dialog_end_time
    (session : StudySession.t) (startTime : string) :
  (forall hours rest q,
      List.map JS.Number (JS.split ":" startTime) = hours :: JS.Num q :: rest ->
      Modal.calculateEndTime session startTime
      = minutesToTime
          (JS.add (timeToMinutes startTime)
                  (JS.mul (StudySession.allocatedHours session) (JS.ofZ 60))))
  /\ (JS.noChar ":" startTime = true ->
      Modal.calculateEndTime session startTime = "NaN:NaN").
Proof.
  split.
  - intros hours rest q Hparts.
    unfold Modal.calculateEndTime, timeToMinutes. rewrite Hparts.
    fold (minutesToTime
            (JS.add (JS.add (JS.mul hours (JS.ofZ 60)) (JS.Num q))
                    (JS.mul (StudySession.allocatedHours session) (JS.ofZ 60)))).
    destruct (JS.truthy (JS.Num q)) eqn:Hq; [reflexivity|].
    simpl in Hq. apply negb_false_iff, Qeq_bool_iff in Hq.
    destruct hours as [|h]; [reflexivity|].
    destruct (StudySession.allocatedHours session) as [|a]; [reflexivity|].
    cbn [JS.mul JS.add JS.ofZ]. apply minutesToTime_Qeq. rewrite Hq. reflexivity.
  - intros Hcolon. unfold Modal.calculateEndTime.
    rewrite (split_noChar ":" startTime Hcolon). reflexivity.
Qed.

Section SessionFrame.

Variable getDay : string -> option Z.

Lemma spec_checkConflict_agree_sessions this1 this2 planDate newStartTime
    sessionDuration excludeSessionId :
  settings this1 = settings this2 ->
  sessionTimeEdits this1 = sessionTimeEdits this2 ->
  fixedCommitments this1 = fixedCommitments this2 ->
  spec_otherSessions this1 planDate excludeSessionId
    = spec_otherSessions this2 planDate excludeSessionId ->
  spec_checkConflict getDay this1 planDate newStartTime sessionDuration
                     excludeSessionId
  = spec_checkConflict getDay this2 planDate newStartTime sessionDuration
                       excludeSessionId.
Proof.
  intros Hs He Hc Ho.
  unfold spec_checkConflict, spec_studyWindowCheck, spec_workDayCheck,
    spec_sessionOverlapCheck, spec_commitmentOverlapCheck, getEditedSession,
    getCommitmentsForDate.
  rewrite Hs, He, Hc, Ho. reflexivity.
Qed.

Lemma find_plan_middle (planDate : string) (before after : list StudyPlan.t)
    (id date : string) (tasks1 : list StudySession.t) :
  option_map StudyPlan.plannedTasks
    (List.find (fun p => String.eqb (StudyPlan.date p) planDate)
               (before ++ StudyPlan.mk id date tasks1 :: after))
  = match List.find (fun p => String.eqb (StudyPlan.date p) planDate) before with
    | Some p => Some (StudyPlan.plannedTasks p)
    | None =>
        if String.eqb date planDate then Some tasks1
        else option_map StudyPlan.plannedTasks
               (List.find (fun p => String.eqb (StudyPlan.date p) planDate) after)
    end.
Proof.
  induction before as [|p rest IH]; simpl.
  - destruct (String.eqb date planDate); reflexivity.
  - destruct (String.eqb (StudyPlan.date p) planDate); [reflexivity|exact IH].
Qed.

(** X25.  A session that is skipped, marked done, or is the excluded one
    has no influence on a check: the result, suggestions included, is the
    same as if the session were not in its plan. *)
Theorem checkTimeConflict_ignores_inactive_session
    (before after : list StudyPlan.t) (id date : string)
    (earlier later : list StudySession.t) (session : StudySession.t)
    (commitments : list FixedCommitment.t) (userSettings : UserSettings.t)
    (edits : list SessionTimeEdit.t) (storage : option string)
    (planDate newStartTime : string) (sessionDuration : JS.number)
    (excludeSessionId : string) (includeSuggestions : bool) :
  StudySession.status session = Some SessionStatus.skipped
  \/ StudySession.done session = Some true
  \/ sessionKey (StudySession.taskId session) (StudySession.sessionNumber session)
     = excludeSessionId ->
  checkTimeConflict getDay
    (mkEditor (before ++ StudyPlan.mk id date (earlier ++ session :: later) :: after)
              commitments userSettings edits storage)
    planDate newStartTime sessionDuration excludeSessionId includeSuggestions
  = checkTimeConflict getDay
      (mkEditor (before ++ StudyPlan.mk id date (earlier ++ later) :: after)
                commitments userSettings edits storage)
      planDate newStartTime sessionDuration excludeSessionId includeSuggestions.
Proof.
  intros Hinactive.
  set (with_it := mkEditor (before ++ StudyPlan.mk id date (earlier ++ session :: later) :: after)
                           commitments userSettings edits storage).
  set (without := mkEditor (before ++ StudyPlan.mk id date (earlier ++ later) :: after)
                           commitments userSettings edits storage).
  assert (Hdrop :
    negb (String.eqb (sessionKey (StudySession.taskId session)
                                 (StudySession.sessionNumber session))
                     excludeSessionId)
    && negb (isSkipped session) && negb (isDone session) = false).
  { destruct Hinactive as [Hs|[Hd|Hk]].
    - unfold isSkipped. rewrite Hs. cbn. rewrite andb_false_r. reflexivity.
    - unfold isDone. rewrite Hd. cbn. rewrite andb_false_r. reflexivity.
    - rewrite Hk, String.eqb_refl. reflexivity. }
  assert (Hothers : spec_otherSessions with_it planDate excludeSessionId
                    = spec_otherSessions without planDate excludeSessionId).
  { assert (Hform : forall plans,
      spec_otherSessions (mkEditor plans commitments userSettings edits storage)
                         planDate excludeSessionId
      = match option_map StudyPlan.plannedTasks
                (List.find (fun p => String.eqb (StudyPlan.date p) planDate) plans)
        with
        | Some tasks =>
            List.filter
              (fun s =>
                 negb (String.eqb (sessionKey (StudySession.taskId s)
                                              (StudySession.sessionNumber s))
                                  excludeSessionId)
                 && negb (isSkipped s) && negb (isDone s))
              tasks
        | None => []
        end).
    { intros plans. unfold spec_otherSessions. cbn [studyPlans].
      destruct (List.find _ plans); reflexivity. }
    unfold with_it, without. rewrite !Hform, !find_plan_middle.
    destruct (List.find _ before); [reflexivity|].
    destruct (String.eqb date planDate); [|reflexivity].
    rewrite !List.filter_app. cbn [List.filter]. rewrite Hdrop. reflexivity. }
  assert (Hspec : forall start,
             spec_checkConflict getDay with_it planDate start sessionDuration
                                excludeSessionId
             = spec_checkConflict getDay without planDate start sessionDuration
                                  excludeSessionId)
    by (intros start; apply spec_checkConflict_agree_sessions;
        [reflexivity..|exact Hothers]).
  assert (Hgen : generateSuggestedTimes getDay with_it planDate sessionDuration
                                        excludeSessionId
                 = generateSuggestedTimes getDay without planDate sessionDuration
                                          excludeSessionId).
  { rewrite !generateSuggestedTimes_spec. unfold spec_suggestTimes.
    f_equal. apply List.filter_ext. intros candidate.
    rewrite !hasConflict_spec, Hspec. reflexivity. }
  unfold checkTimeConflict. rewrite !checkTimeConflictWith_spec, Hspec.
  destruct (spec_checkConflict _ _ _ _ _ _) as [kind|]; [|reflexivity].
  unfold suggestionsFor. rewrite Hgen. reflexivity.
Qed.

End SessionFrame.

(** ** The further properties on the example *)

Lemma checkTimeConflict_ignores_absent_commitment_witness :
  checkTimeConflict getDayUTC
    (mkEditor [Example.plan] [Example.gym; Scenario.piano] Example.settings [] None)
    "2024-01-10" "11:00" (JS.ofZ 1) "T1-1" true
  = ConflictResult.mk false None None.
Proof.
  refine (eq_trans
            (checkTimeConflict_ignores_absent_commitment getDayUTC [Example.plan]
               [Example.gym] [] Scenario.piano Example.settings [] None
               "2024-01-10" "11:00" (JS.ofZ 1) "T1-1" true _) _).
  - right. left. split; vm_compute; reflexivity.
  - vm_compute. reflexivity.
Defined.

Lemma unparsable_start_is_accepted_witness :
  checkTimeConflict getDayUTC Example.editor "2024-01-10" "soon" (JS.ofZ 1)
                    "T1-1" true
  = ConflictResult.mk false None None
  /\ EditResult.success
       (fst (editSessionTime getDayUTC Example.stringify Example.setItem
               Example.editor "2024-01-10" "T1" 1 "soon" (JS.ofZ 1)
               Scenario.now Scenario.nowISO)) = true.
Proof.
  destruct (unparsable_start_is_accepted getDayUTC Example.stringify
              Example.setItem Example.editor "2024-01-10" "T1" 1 "soon"
              (JS.ofZ 1) "T1-1" true Scenario.now Scenario.nowISO Example.T1_1
              ltac:(vm_compute; reflexivity) ltac:(vm_compute; reflexivity)
              ltac:(vm_compute; reflexivity))
    as (Hcheck & Hok & _).
  split; assumption.
Defined.

Lemma dialog_check_decides_save_witness :
  EditResult.success
    (fst (editSessionTime getDayUTC Example.stringify Example.setItem
            Example.editor "2024-01-10" (StudySession.taskId Example.T1_1) 1
            "08:00" (StudySession.allocatedHours Example.T1_1)
            Scenario.now Scenario.nowISO)) = true.
Proof.
  destruct (dialog_check_decides_save getDayUTC Example.stringify Example.setItem
              Example.editor "2024-01-10" Example.T1_1 1 "08:00"
              Scenario.now Scenario.nowISO eq_refl) as [_ Hfree].
  apply Hfree; vm_compute; [reflexivity|discriminate].
Defined.

Lemma rejected_time_is_not_suggested_witness :
  ConflictResult.suggestedTimes
    (checkTimeConflict getDayUTC Example.editor "2024-01-10" "09:30" (JS.ofZ 1)
                       "T1-1" true)
  = Some ["08:00"; "08:30"; "09:00"]
  /\ ~ In "09:30" ["08:00"; "08:30"; "09:00"].
Proof.
  assert (Hsuggested :
    ConflictResult.suggestedTimes
      (checkTimeConflict getDayUTC Example.editor "2024-01-10" "09:30" (JS.ofZ 1)
                         "T1-1" true)
    = Some ["08:00"; "08:30"; "09:00"]) by (vm_compute; reflexivity).
  split; [exact Hsuggested|].
  apply (rejected_time_is_not_suggested getDayUTC Example.editor "2024-01-10"
           "09:30" (JS.ofZ 1) "T1-1" true);
    [vm_compute; reflexivity | exact Hsuggested].
Defined.

Lemma non_work_day_offers_nothing_witness :
  generateSuggestedTimes getDayUTC Example.editor "2024-01-13" (JS.ofZ 1) "T1-1" = []
  /\ ConflictResult.suggestedTimes
       (checkTimeConflict getDayUTC Example.editor "2024-01-13" "07:00" (JS.ofZ 1)
                          "T1-1" true) = Some [].
Proof.
  destruct (non_work_day_offers_nothing getDayUTC Example.editor "2024-01-13"
              "07:00" (JS.ofZ 1) "T1-1" true ltac:(vm_compute; reflexivity))
    as (Hgen & _ & Hnone).
  split; assumption.
Defined.

Lemma editSessionTime_upserts_witness :
  length (sessionTimeEdits Scenario.edited) = 1%nat
  /\ List.map SessionTimeEdit.id (sessionTimeEdits Scenario.edited)
     = ["edit-1704880800000"].
Proof.
  destruct (editSessionTime_upserts getDayUTC Example.stringify Example.setItem
              Example.editor "2024-01-10" "T1" 1 "08:00" (JS.ofZ 1)
              Scenario.now Scenario.nowISO ltac:(vm_compute; reflexivity))
    as (session & _ & _ & Hlength).
  split; [exact Hlength | vm_compute; reflexivity].
Defined.

Lemma other_sessions_untouched_witness :
  getEditedSession Scenario.edited Example.T2_1 "2024-01-10" = Example.T2_1.
Proof.
  refine (eq_trans
            (proj1 (other_sessions_untouched getDayUTC Example.stringify
                      Example.setItem Example.editor "2024-01-10" "T1" 1 "08:00"
                      (JS.ofZ 1) Scenario.now Scenario.nowISO Example.T2_1
                      "2024-01-10" _)) _).
  - intros [=].
  - reflexivity.
Defined.

Lemma repeated_edit_collapses_witness :
  length (sessionTimeEdits
            (snd (editSessionTime getDayUTC Example.stringify Example.setItem
                    Scenario.edited "2024-01-10" "T1" 1 "08:15" (JS.ofZ 1)
                    (Scenario.now + 60000) "2024-01-10T10:01:00.000Z")))
  = length (sessionTimeEdits Scenario.edited).
Proof.
  exact (proj1 (repeated_edit_collapses getDayUTC Example.stringify Example.setItem
                  Example.editor "2024-01-10" "T1" 1 "08:00" "08:15" (JS.ofZ 1)
                  (JS.ofZ 1) Scenario.now (Scenario.now + 60000) Scenario.nowISO
                  "2024-01-10T10:01:00.000Z"
                  ltac:(vm_compute; reflexivity) ltac:(vm_compute; reflexivity))).
Defined.

Lemma Scenario_edited_reachable :
  Reachable getDayUTC Example.parse Example.stringify Example.setItem
            Scenario.edited.
Proof.
  apply (reach_edit getDayUTC Example.parse Example.stringify Example.setItem).
  exact Example_editor_reachable.
Defined.

Lemma Scenario_editedTwice_reachable :
  Reachable getDayUTC Example.parse Example.stringify Example.setItem
            Scenario.editedTwice.
Proof.
  apply (reach_edit getDayUTC Example.parse Example.stringify Example.setItem).
  exact Scenario_edited_reachable.
Defined.

(** After [T1#1] and then [T2#1] were moved the log holds two edits, the
    one of [T1#1] first, and their keys differ. *)
Lemma reachable_log_one_edit_per_key_witness :
  exists edit1 edit2,
    sessionTimeEdits Scenario.editedTwice !! 0%nat = Some edit1
    /\ sessionTimeEdits Scenario.editedTwice !! 1%nat = Some edit2
    /\ editKey edit1 = ("2024-01-10", "T1", 1)
    /\ editKey edit2 = ("2024-01-10", "T2", 1)
    /\ editKey edit1 <> editKey edit2.
Proof.
  eexists _, _.
  split; [vm_compute; reflexivity|].
  split; [vm_compute; reflexivity|].
  split; [reflexivity|].
  split; [reflexivity|].
  apply (proj2 (reachable_log_one_edit_per_key getDayUTC Example.parse
                  Example.stringify Example.setItem Scenario.editedTwice 0 1 _ _
                  Scenario_editedTwice_reachable eq_refl eq_refl)).
  lia.
Defined.

Lemma removeEdit_once_is_enough_witness :
  let removed :=
    removeEdit Example.stringify Example.setItem Scenario.edited "2024-01-10" "T1" 1 in
  fst removed = true
  /\ removeEdit Example.stringify Example.setItem (snd removed) "2024-01-10" "T1" 1
     = (false, snd removed).
Proof.
  cbv zeta.
  assert (Htrue : fst (removeEdit Example.stringify Example.setItem Scenario.edited
                                  "2024-01-10" "T1" 1) = true)
    by (vm_compute; reflexivity).
  split; [exact Htrue|].
  exact (proj2 (proj2 (removeEdit_once_is_enough getDayUTC Example.parse
                         Example.stringify Example.setItem Scenario.edited
                         "2024-01-10" "T1" 1 Scenario_edited_reachable Htrue))).
Defined.

Lemma clearTemporaryEdits_reverts_edit_witness :
  getEditedSession
    (clearTemporaryEdits Example.stringify Example.setItem Scenario.edited)
    Example.T1_1 "2024-01-10"
  = Example.T1_1.
Proof.
  exact (clearTemporaryEdits_reverts_edit getDayUTC Example.parse Example.stringify
           Example.setItem Example.editor "2024-01-10" Example.T1_1 1 "08:00"
           (JS.ofZ 1) Scenario.now Scenario.nowISO Example_editor_reachable
           eq_refl ltac:(vm_compute; reflexivity)).
Defined.

(** The log with the edit of [T1#1], saved as JSON, is read back by a new
    instance, here one with no plans and no commitments. *)
Lemma persisted_log_reloads_witness :
  localStorage Json.edited = Some (Json.stringify (sessionTimeEdits Json.edited))
  /\ List.map (fun edit => (editKey edit, SessionTimeEdit.newStartTime edit,
                            SessionTimeEdit.newEndTime edit))
              (getAllEdits Json.edited)
     = [(("2024-01-10", "T1", 1), "08:00", "09:00")]
  /\ exists reloaded,
       constructor Json.parse [] [] Example.settings (localStorage Json.edited)
       = JS.Returned reloaded
       /\ getAllEdits reloaded = getAllEdits Json.edited.
Proof.
  assert (Hok : EditResult.success
                  (fst (editSessionTime getDayUTC Json.stringify Example.setItem
                          Example.editor "2024-01-10" "T1" 1 "08:00" (JS.ofZ 1)
                          Scenario.now Scenario.nowISO)) = true)
    by (vm_compute; reflexivity).
  assert (Hparse : Json.parse (Json.stringify (sessionTimeEdits Json.edited))
                   = JS.Returned (sessionTimeEdits Json.edited))
    by (vm_compute; reflexivity).
  destruct (persisted_log_reloads getDayUTC Json.parse Json.stringify
              Example.setItem Example.editor Json.edited [] [] Example.settings
              (or_introl
                 (ex_intro _ "2024-01-10" (ex_intro _ "T1" (ex_intro _ 1
                    (ex_intro _ "08:00" (ex_intro _ (JS.ofZ 1)
                       (ex_intro _ Scenario.now (ex_intro _ Scenario.nowISO
                          (conj eq_refl Hok)))))))))
              eq_refl Hparse eq_refl)
    as [Hslot Hreload].
  split; [exact Hslot|].
  split; [vm_compute; reflexivity | exact Hreload].
Defined.

(** With a full storage, moving [T1#1] to 08:00 succeeds all the same, the
    log holds the edit, and the slot stays empty. *)
Lemma failed_save_is_silent_witness :
  let after :=
    editSessionTime getDayUTC Example.stringify Scenario.fullStorage Example.editor
      "2024-01-10" "T1" 1 "08:00" (JS.ofZ 1) Scenario.now Scenario.nowISO in
  EditResult.success (fst after) = true
  /\ (exists edit,
        sessionTimeEdits (snd after) = [edit]
        /\ SessionTimeEdit.newStartTime edit = "08:00"
        /\ SessionTimeEdit.newEndTime edit = "09:00")
  /\ localStorage (snd after) = None.
Proof.
  cbv zeta.
  destruct (proj1 (failed_save_is_silent getDayUTC Example.stringify
                     Scenario.fullStorage Example.editor)
              "2024-01-10" "T1" 1 "08:00" (JS.ofZ 1) Scenario.now Scenario.nowISO
              "QuotaExceededError" eq_refl)
    as (Hslot & Hsuccess & Hlog).
  assert (Hok : EditResult.success
                  (fst (editSessionTime getDayUTC Example.stringify
                          Scenario.fullStorage Example.editor "2024-01-10" "T1" 1
                          "08:00" (JS.ofZ 1) Scenario.now Scenario.nowISO)) = true).
  { apply (proj2 Hsuccess). split; [vm_compute; reflexivity|].
    vm_compute. discriminate. }
  split; [exact Hok|]. split; [|exact Hslot].
  destruct (Hlog Hok) as (edit & _ & Hstart & Hend & Hedits).
  exists edit. split; [exact Hedits|]. split; [exact Hstart|].
  rewrite Hend. vm_compute. reflexivity.
Defined.

Lemma applyEditsToPlans_shape_witness :
  applyEditsToPlans Example.editor [Example.plan] = [Example.plan].
Proof.
  exact (proj1 (proj2 (applyEditsToPlans_shape Example.editor [Example.plan]))
               eq_refl).
Defined.

Lemma applyEditsToPlans_shows_edit_witness :
  exists plan' session',
    applyEditsToPlans
      (snd (editSessionTime getDayUTC Example.stringify Example.setItem
              Example.editor (StudyPlan.date Example.plan)
              (StudySession.taskId Example.T2_1) 1 "15:15" (JS.Num (3 # 2))
              Scenario.now Scenario.nowISO))
      [Example.plan] !! 0%nat = Some plan'
    /\ StudyPlan.plannedTasks plan' !! 1%nat = Some session'
    /\ StudySession.startTime session' = "15:15"
    /\ StudySession.endTime session' = "16:45".
Proof.
  destruct (applyEditsToPlans_shows_edit getDayUTC Example.stringify
              Example.setItem Example.editor [Example.plan] 0 1 Example.plan
              Example.T2_1 1 "15:15" (JS.Num (3 # 2)) Scenario.now Scenario.nowISO
              eq_refl eq_refl eq_refl ltac:(vm_compute; reflexivity))
    as (plan' & session' & Hplan & Hsession & _ & _ & Hstart & Hend).
  exists plan', session'. repeat split; assumption.
Defined.

Lemma back_to_back_is_accepted_witness :
  checkTimeConflict getDayUTC Example.editor "2024-01-10" "11:00" (JS.ofZ 2)
                    "T9-1" true
  = ConflictResult.mk false None None.
Proof.
  apply (back_to_back_is_accepted getDayUTC Example.editor "2024-01-10" "11:00"
           (JS.ofZ 2) "T9-1" true); try (vm_compute; reflexivity).
  - intros other Hin. vm_compute in Hin.
    destruct Hin as [<-|[<-|[]]]; vm_compute; auto.
  - intros commitment Hin. vm_compute in Hin.
    destruct Hin as [<-|[]]; vm_compute; auto.
Defined.

Lemma dialog_end_time_witness :
  Modal.calculateEndTime Example.T2_1 "15:15" = "16:45"
  /\ Modal.calculateEndTime Example.T2_1 "15" = "NaN:NaN".
Proof.
  destruct (dialog_end_time Example.T2_1 "15:15") as [Hsame _].
  destruct (dialog_end_time Example.T2_1 "15") as [_ Hnan].
  split.
  - rewrite (Hsame (JS.ofZ 15) [] (inject_Z 15) ltac:(vm_compute; reflexivity)).
    vm_compute. reflexivity.
  - apply Hnan. reflexivity.
Defined.

Lemma checkTimeConflict_ignores_inactive_session_witness :
  checkTimeConflict getDayUTC
    (mkEditor [StudyPlan.mk "plan-2024-01-10" "2024-01-10"
                 [Example.T1_1; Scenario.T3_1; Example.T2_1]]
              [Example.gym] Example.settings [] None)
    "2024-01-10" "11:00" (JS.ofZ 1) "T9-1" true
  = ConflictResult.mk false None None.
Proof.
  refine (eq_trans
            (checkTimeConflict_ignores_inactive_session getDayUTC [] []
               "plan-2024-01-10" "2024-01-10" [Example.T1_1] [Example.T2_1]
               Scenario.T3_1 [Example.gym] Example.settings [] None
               "2024-01-10" "11:00" (JS.ofZ 1) "T9-1" true _) _).
  - left. reflexivity.
  - vm_compute. reflexivity.
Defined.
